(** * OmniFocus-MCP: the perspective query engine

    A shallow embedding of [getDataByPerspective] and of the AppleScript
    program that [generateOptimizedGetDataByPerspectiveScript] emits
    (the selectivity-ordered, quota-bounded path), together with the
    project loop of the plain path [generateGetDataByPerspectiveScript].

    The TypeScript side only resolves defaults and decides which blocks
    of the script are emitted; the filtering, scoring, classification and
    quota logic runs inside the emitted script.  The embedding therefore
    has two stages: [generateOptimizedGetDataByPerspectiveScript] maps
    the caller's parameters to a [Script] (the holes of the template,
    filled in), and [run_script] gives the meaning of that script on an
    OmniFocus [Document].

    Conventions.
    - JavaScript numbers and AppleScript integers are [Z]; a date is the
      number of seconds since some epoch, so that the difference of two
      dates is a number of seconds as in AppleScript.
    - The budget is an integer.  [maxResults * 0.4] is a product of
      doubles: the double nearest to the exact product of the budget and
      the double written [0.4]; [Math.floor] is taken of that
      ([Math_floor_product]).  [daysDiff], a real in AppleScript, is a
      rational.
    - A text is its UTF-8 bytes.  The script compares texts with [is],
      [is not] and [is in] and never says [considering case], so these
      comparisons ignore case ([text_is]).
    - An optional parameter of the caller is an [option]; a property read
      from an OmniFocus object is a [Reading], which may be the value,
      [missing value], or an error caught by the nearest [try].
    - A property the script reads outside any [try] ([flagged],
      [completed], [dropped], [name], [id], [note]) is read without error.
    - The project name interpolated into the script, with its quotes and
      backslashes escaped, denotes the caller's text.
    - AppleScript's [next repeat] after each filter block is the return of
      the rejecting rule in [filter_task]. *)

From Stdlib Require Import ZArith QArith Qround List String Ascii Bool Lia.
From Stdlib Require Import Permutation Sorted DecimalString DecimalPos DecimalZ.
Import ListNotations.

#[local] Open Scope string_scope.
#[local] Open Scope list_scope.
#[local] Open Scope Z_scope.

(** ** Values read from the application *)

Inductive Reading (A : Type) : Type :=
| Got (a : A)
| MissingValue
| ReadError.

Arguments Got {A} a.
Arguments MissingValue {A}.
Arguments ReadError {A}.

(** What the script keeps of a reading inside [try ... end try] with an
    [is not missing value] test: the value, or nothing. *)
Definition reading_value {A : Type} (r : Reading A) : option A :=
  match r with
  | Got a => Some a
  | MissingValue | ReadError => None
  end.

(** *** Text

    A text is its UTF-8 bytes.  [utf8_decode] gives its code points; a
    byte that does not begin a well-formed sequence decodes to U+FFFD. *)

Definition byte_of (c : ascii) : Z := Z.of_nat (nat_of_ascii c).

Definition continuation (c : ascii) : bool :=
  (128 <=? byte_of c) && (byte_of c <=? 191).

Fixpoint utf8_decode (s : string) : list Z :=
  match s with
  | EmptyString => []
  | String c0 rest0 =>
      let b0 := byte_of c0 in
      if b0 <? 128 then b0 :: utf8_decode rest0
      else
        match rest0 with
        | String c1 rest1 =>
            if (194 <=? b0) && (b0 <=? 223) && continuation c1
            then ((b0 - 192) * 64 + (byte_of c1 - 128)) :: utf8_decode rest1
            else
              match rest1 with
              | String c2 rest2 =>
                  if (224 <=? b0) && (b0 <=? 239)
                     && continuation c1 && continuation c2
                  then ((b0 - 224) * 4096 + (byte_of c1 - 128) * 64
                        + (byte_of c2 - 128)) :: utf8_decode rest2
                  else
                    match rest2 with
                    | String c3 rest3 =>
                        if (240 <=? b0) && (b0 <=? 244)
                           && continuation c1 && continuation c2
                           && continuation c3
                        then ((b0 - 240) * 262144 + (byte_of c1 - 128) * 4096
                              + (byte_of c2 - 128) * 64
                              + (byte_of c3 - 128)) :: utf8_decode rest3
                        else 65533 :: utf8_decode rest0
                    | EmptyString => 65533 :: utf8_decode rest0
                    end
              | EmptyString => 65533 :: utf8_decode rest0
              end
        | EmptyString => [65533]
        end
  end.

(** The simple case folding of Unicode, as ranges
    [(first, last, step, offset)]: a code point [first + k * step] up to
    [last] folds to itself plus [offset]. *)
Definition case_folding : list (Z * Z * Z * Z) :=
  [ (65, 90, 1, 32); (181, 181, 1, 775); (192, 214, 1, 32);
    (216, 222, 1, 32); (256, 302, 2, 1); (306, 310, 2, 1);
    (313, 327, 2, 1); (330, 374, 2, 1); (376, 376, 1, (-121));
    (377, 381, 2, 1); (383, 383, 1, (-268)); (385, 385, 1, 210);
    (386, 388, 2, 1); (390, 390, 1, 206); (391, 391, 1, 1);
    (393, 394, 1, 205); (395, 395, 1, 1); (398, 398, 1, 79);
    (399, 399, 1, 202); (400, 400, 1, 203); (401, 401, 1, 1);
    (403, 403, 1, 205); (404, 404, 1, 207); (406, 406, 1, 211);
    (407, 407, 1, 209); (408, 408, 1, 1); (412, 412, 1, 211);
    (413, 413, 1, 213); (415, 415, 1, 214); (416, 420, 2, 1);
    (422, 422, 1, 218); (423, 423, 1, 1); (425, 425, 1, 218);
    (428, 428, 1, 1); (430, 430, 1, 218); (431, 431, 1, 1);
    (433, 434, 1, 217); (435, 437, 2, 1); (439, 439, 1, 219);
    (440, 440, 1, 1); (444, 444, 1, 1); (452, 452, 1, 2); (453, 453, 1, 1);
    (455, 455, 1, 2); (456, 456, 1, 1); (458, 458, 1, 2); (459, 475, 2, 1);
    (478, 494, 2, 1); (497, 497, 1, 2); (498, 500, 2, 1);
    (502, 502, 1, (-97)); (503, 503, 1, (-56)); (504, 542, 2, 1);
    (544, 544, 1, (-130)); (546, 562, 2, 1); (570, 570, 1, 10795);
    (571, 571, 1, 1); (573, 573, 1, (-163)); (574, 574, 1, 10792);
    (577, 577, 1, 1); (579, 579, 1, (-195)); (580, 580, 1, 69);
    (581, 581, 1, 71); (582, 590, 2, 1); (837, 837, 1, 116);
    (880, 882, 2, 1); (886, 886, 1, 1); (895, 895, 1, 116);
    (902, 902, 1, 38); (904, 906, 1, 37); (908, 908, 1, 64);
    (910, 911, 1, 63); (913, 929, 1, 32); (931, 939, 1, 32);
    (962, 962, 1, 1); (975, 975, 1, 8); (976, 976, 1, (-30));
    (977, 977, 1, (-25)); (981, 981, 1, (-15)); (982, 982, 1, (-22));
    (984, 1006, 2, 1); (1008, 1008, 1, (-54)); (1009, 1009, 1, (-48));
    (1012, 1012, 1, (-60)); (1013, 1013, 1, (-64)); (1015, 1015, 1, 1);
    (1017, 1017, 1, (-7)); (1018, 1018, 1, 1); (1021, 1023, 1, (-130));
    (1024, 1039, 1, 80); (1040, 1071, 1, 32); (1120, 1152, 2, 1);
    (1162, 1214, 2, 1); (1216, 1216, 1, 15); (1217, 1229, 2, 1);
    (1232, 1326, 2, 1); (1329, 1366, 1, 48); (4256, 4293, 1, 7264);
    (4295, 4295, 1, 7264); (4301, 4301, 1, 7264); (5112, 5117, 1, (-8));
    (7296, 7296, 1, (-6222)); (7297, 7297, 1, (-6221));
    (7298, 7298, 1, (-6212)); (7299, 7300, 1, (-6210));
    (7301, 7301, 1, (-6211)); (7302, 7302, 1, (-6204));
    (7303, 7303, 1, (-6180)); (7304, 7304, 1, 35267);
    (7312, 7354, 1, (-3008)); (7357, 7359, 1, (-3008)); (7680, 7828, 2, 1);
    (7835, 7835, 1, (-58)); (7838, 7838, 1, (-7615)); (7840, 7934, 2, 1);
    (7944, 7951, 1, (-8)); (7960, 7965, 1, (-8)); (7976, 7983, 1, (-8));
    (7992, 7999, 1, (-8)); (8008, 8013, 1, (-8)); (8025, 8031, 2, (-8));
    (8040, 8047, 1, (-8)); (8072, 8079, 1, (-8)); (8088, 8095, 1, (-8));
    (8104, 8111, 1, (-8)); (8120, 8121, 1, (-8)); (8122, 8123, 1, (-74));
    (8124, 8124, 1, (-9)); (8126, 8126, 1, (-7173));
    (8136, 8139, 1, (-86)); (8140, 8140, 1, (-9)); (8152, 8153, 1, (-8));
    (8154, 8155, 1, (-100)); (8168, 8169, 1, (-8));
    (8170, 8171, 1, (-112)); (8172, 8172, 1, (-7));
    (8184, 8185, 1, (-128)); (8186, 8187, 1, (-126));
    (8188, 8188, 1, (-9)); (8486, 8486, 1, (-7517));
    (8490, 8490, 1, (-8383)); (8491, 8491, 1, (-8262));
    (8498, 8498, 1, 28); (8544, 8559, 1, 16); (8579, 8579, 1, 1);
    (9398, 9423, 1, 26); (11264, 11311, 1, 48); (11360, 11360, 1, 1);
    (11362, 11362, 1, (-10743)); (11363, 11363, 1, (-3814));
    (11364, 11364, 1, (-10727)); (11367, 11371, 2, 1);
    (11373, 11373, 1, (-10780)); (11374, 11374, 1, (-10749));
    (11375, 11375, 1, (-10783)); (11376, 11376, 1, (-10782));
    (11378, 11378, 1, 1); (11381, 11381, 1, 1);
    (11390, 11391, 1, (-10815)); (11392, 11490, 2, 1);
    (11499, 11501, 2, 1); (11506, 11506, 1, 1); (42560, 42604, 2, 1);
    (42624, 42650, 2, 1); (42786, 42798, 2, 1); (42802, 42862, 2, 1);
    (42873, 42875, 2, 1); (42877, 42877, 1, (-35332));
    (42878, 42886, 2, 1); (42891, 42891, 1, 1);
    (42893, 42893, 1, (-42280)); (42896, 42898, 2, 1);
    (42902, 42920, 2, 1); (42922, 42922, 1, (-42308));
    (42923, 42923, 1, (-42319)); (42924, 42924, 1, (-42315));
    (42925, 42925, 1, (-42305)); (42926, 42926, 1, (-42308));
    (42928, 42928, 1, (-42258)); (42929, 42929, 1, (-42282));
    (42930, 42930, 1, (-42261)); (42931, 42931, 1, 928);
    (42932, 42946, 2, 1); (42948, 42948, 1, (-48));
    (42949, 42949, 1, (-42307)); (42950, 42950, 1, (-35384));
    (42951, 42953, 2, 1); (42960, 42960, 1, 1); (42966, 42968, 2, 1);
    (42997, 42997, 1, 1); (43888, 43967, 1, (-38864));
    (65313, 65338, 1, 32); (66560, 66599, 1, 40); (66736, 66771, 1, 40);
    (66928, 66938, 1, 39); (66940, 66954, 1, 39); (66956, 66962, 1, 39);
    (66964, 66965, 1, 39); (68736, 68786, 1, 64); (71840, 71871, 1, 32);
    (93760, 93791, 1, 32); (125184, 125217, 1, 34) ].

Definition fold_case (cp : Z) : Z :=
  if cp <? 65 then cp
  else
    match find (fun r =>
                  match r with
                  | (first, last, step, _) =>
                      (first <=? cp) && (cp <=? last)
                      && ((cp - first) mod step =? 0)
                  end) case_folding with
    | Some (_, _, _, offset) => cp + offset
    | None => cp
    end.

Fixpoint code_points_eqb (a b : list Z) : bool :=
  match a, b with
  | [], [] => true
  | x :: a', y :: b' => (x =? y) && code_points_eqb a' b'
  | _, _ => false
  end.

(** AppleScript's [is] on text.  The script never says
    [considering case], so the comparison ignores case: two texts are
    the same when their code points are, after case folding. *)
Definition text_is (a b : string) : bool :=
  code_points_eqb (map fold_case (utf8_decode a))
                  (map fold_case (utf8_decode b)).

(** The AppleScript constant [days]: the seconds of one day. *)
Definition days : Z := 86400.

Definition Qltb (a b : Q) : bool := negb (Qle_bool b a).

(** ** Data model *)

(** A task as the script sees it through the properties it reads. *)
Record Task : Type := {
  task_id : string;
  task_name : string;
  task_note : string;
  task_completed : bool;
  task_dropped : bool;
  task_flagged : bool;
  task_estimatedMinutes : Reading Z;
  task_dueDate : Reading Z;
  task_deferDate : Reading Z;
  task_tags : Reading (list string);
  (** [name of (containing project of aTask)] *)
  task_containingProject : Reading string
}.

Inductive ProjectStatus : Type :=
| active
| on_hold
| done
| dropped.

Definition status_as_string (s : ProjectStatus) : string :=
  match s with
  | active => "active"
  | on_hold => "on hold"
  | done => "done"
  | dropped => "dropped"
  end.

Record Project : Type := {
  project_id : string;
  project_name : string;
  project_status : ProjectStatus;
  project_flagged : bool;
  project_estimatedMinutes : Reading Z;
  project_dueDate : Reading Z;
  (** [count of (flattened tasks of aProject)] *)
  project_flattenedTaskCount : Reading Z;
  (** [count of tasks of aProject] *)
  project_taskCount : Z
}.

(** The front document: the custom perspectives it defines, its flattened
    tasks and projects in the order the application enumerates them, and
    the message of the error it raises when asked for a perspective that
    does not exist. *)
Record Document : Type := {
  doc_perspectives : list string;
  doc_flattenedTasks : list Task;
  doc_flattenedProjects : list Project;
  doc_noSuchPerspective : string -> string
}.

(** [GetDataByPerspectiveParams]: every field but the perspective name is
    optional. *)
Record GetDataByPerspectiveParams : Type := {
  perspectiveName : string;
  hideCompleted : option bool;
  hideRecurringDuplicates : option bool;
  minEstimatedMinutes : option Z;
  maxEstimatedMinutes : option Z;
  flaggedOnly : option bool;
  withTags : option (list string);
  withDueDate : option bool;
  projectName : option string;
  maxResults : option Z;
  prioritizeUrgent : option bool
}.

Inductive PriorityLevel : Type :=
| high
| medium
| low.

Definition PriorityLevel_eqb (a b : PriorityLevel) : bool :=
  match a, b with
  | high, high | medium, medium | low, low => true
  | _, _ => false
  end.

(** The JSON object the script builds for an accepted task ([taskInfo]);
    a property the script prints as [null] is [None]. *)
Record TaskObject : Type := {
  j_id : string;
  j_name : string;
  j_completed : bool;
  j_flagged : bool;
  j_estimatedMinutes : option Z;
  j_dueDate : option Z;
  j_deferDate : option Z;
  (** the tag names joined by commas *)
  j_tags : string;
  j_projectName : option string;
  j_note : string;
  j_urgencyScore : Z;
  j_priorityLevel : PriorityLevel
}.

(** The JSON object the script builds for a project ([projectInfo]). *)
Record ProjectObject : Type := {
  pj_id : string;
  pj_name : string;
  pj_status : string;
  pj_flagged : bool;
  pj_estimatedMinutes : option Z;
  pj_dueDate : option Z;
  pj_taskCount : Z
}.

Record Stats : Type := {
  highPriority : Z;
  mediumPriority : Z;
  lowPriority : Z;
  totalFiltered : Z;
  stats_maxResults : Z
}.

(** ** The filter rule table *)

Inductive FilterName : Type :=
| rule_projectName
| rule_flaggedOnly
| rule_minEstimatedMinutes
| rule_maxEstimatedMinutes
| rule_withDueDate
| rule_withTags
| rule_hideCompleted.

Record FilterSelectivity : Type := {
  fs_name : FilterName;
  exclusionRate : Q;
  order : Z
}.

Definition FILTER_SELECTIVITY : list FilterSelectivity :=
  [ {| fs_name := rule_projectName; exclusionRate := 90 # 100; order := 1 |};
    {| fs_name := rule_flaggedOnly; exclusionRate := 85 # 100; order := 2 |};
    {| fs_name := rule_minEstimatedMinutes; exclusionRate := 70 # 100; order := 3 |};
    {| fs_name := rule_maxEstimatedMinutes; exclusionRate := 60 # 100; order := 4 |};
    {| fs_name := rule_withDueDate; exclusionRate := 50 # 100; order := 5 |};
    {| fs_name := rule_withTags; exclusionRate := 40 # 100; order := 6 |};
    {| fs_name := rule_hideCompleted; exclusionRate := 30 # 100; order := 7 |} ].

(** ** Doubles

    The doubles written [0.4] and [0.2] are [3602879701896397 / 2 ^ 53]
    and [3602879701896397 / 2 ^ 54].  The product of an integer and such
    a double, [n / 2 ^ scale] exactly, is rounded to the nearest double:
    [n] is rounded to 53 significant bits, the even neighbour when it
    lies half way. *)

(** The integer nearest to [a / d] for [0 <= a] and [0 < d], the even one
    of two that are equally near. *)
Definition round_half_even (a d : Z) : Z :=
  let q := a / d in
  let r := a mod d in
  if 2 * r <? d then q
  else if d <? 2 * r then q + 1
  else if Z.even q then q else q + 1.

(** The integer of at most 53 significant bits nearest to [n]. *)
Definition nearest_53_bits (n : Z) : Z :=
  let shift := Z.log2 (Z.abs n) - 52 in
  if shift <=? 0 then n
  else Z.sgn n * (round_half_even (Z.abs n) (2 ^ shift) * 2 ^ shift).

Definition mantissa_of_04 : Z := 3602879701896397.

(** [Math.floor (x * c)] for an integer [x] and the double
    [c = mantissa / 2 ^ scale]. *)
Definition Math_floor_product (x mantissa scale : Z) : Z :=
  nearest_53_bits (x * mantissa) / 2 ^ scale.

(** ** Stage one: the template and its holes *)

(** JavaScript truthiness of an optional number: [undefined] and [0] are
    falsy. *)
Definition truthy_number (n : option Z) : bool :=
  match n with
  | Some v => negb (v =? 0)
  | None => false
  end.

(** A block guarded by [bound ? ... : ''] is emitted, with the bound
    interpolated, exactly when the bound is truthy. *)
Definition emitted_bound (bound : option Z) : option Z :=
  if truthy_number bound then bound else None.

Definition with_default {A : Type} (d : A) (o : option A) : A :=
  match o with
  | Some a => a
  | None => d
  end.

(** The emitted script, as the values interpolated into the template and
    the optional blocks that were emitted.  A filter block that the
    template leaves out is [None]. *)
Record Script : Type := {
  s_perspectiveName : string;
  (** the text compared with the project's name; empty when no project
      name was given *)
  s_projectName : string;
  s_flaggedOnly : bool;
  s_minEstimatedMinutes : option Z;
  s_maxEstimatedMinutes : option Z;
  s_withDueDate : option bool;
  s_hideCompleted : bool;
  maxHighPriority : Z;
  maxMediumPriority : Z;
  maxLowPriority : Z;
  s_prioritizeUrgent : bool;
  s_maxResults : Z
}.

Definition generateOptimizedGetDataByPerspectiveScript
    (params : GetDataByPerspectiveParams) : Script :=
  let hideCompleted := with_default true (hideCompleted params) in
  let flaggedOnly := with_default false (flaggedOnly params) in
  let maxResults := with_default 500 (maxResults params) in
  let prioritizeUrgent := with_default true (prioritizeUrgent params) in
  {| s_perspectiveName := perspectiveName params;
     s_projectName := with_default "" (projectName params);
     s_flaggedOnly := flaggedOnly;
     s_minEstimatedMinutes := emitted_bound (minEstimatedMinutes params);
     s_maxEstimatedMinutes := emitted_bound (maxEstimatedMinutes params);
     s_withDueDate := withDueDate params;
     s_hideCompleted := hideCompleted;
     maxHighPriority := Math_floor_product maxResults mantissa_of_04 53;
     maxMediumPriority := Math_floor_product maxResults mantissa_of_04 53;
     maxLowPriority := Math_floor_product maxResults mantissa_of_04 54;
     s_prioritizeUrgent := prioritizeUrgent;
     s_maxResults := maxResults |}.

(** ** Stage two: the meaning of the emitted script *)

Section RunScript.

(** The script under execution. *)
Variable s : Script.

(** The clock of the machine the script runs on: [current_date i] is what
    [current date] returns during iteration [i] of the task loop (the
    script reads the clock once per scored task). *)
Variable current_date : nat -> Z.

(** *** The predicate pipeline

    One definition per filter block, in the order of the script.  Each
    returns the value of [shouldInclude] after the block, given that it
    was [true] before (a rejected task has already left the iteration
    through [next repeat]). *)

(** Project name (selectivity 90%). *)
Definition filter_projectName (aTask : Task) : bool :=
  if negb (text_is (s_projectName s) "") then
    match task_containingProject aTask with
    | Got taskProjectName => text_is taskProjectName (s_projectName s)
    | MissingValue => false
    | ReadError => false
    end
  else true.

(** Flagged only (selectivity 85%). *)
Definition filter_flaggedOnly (aTask : Task) : bool :=
  if s_flaggedOnly s then task_flagged aTask else true.

(** Minimum estimated minutes (selectivity 70%); the block is emitted only
    for a truthy bound. *)
Definition filter_minEstimatedMinutes (aTask : Task) : bool :=
  match s_minEstimatedMinutes s with
  | Some minEstimatedMinutes =>
      match task_estimatedMinutes aTask with
      | Got taskEstimatedMinutes =>
          negb (taskEstimatedMinutes <? minEstimatedMinutes)
      | MissingValue => false
      | ReadError => false
      end
  | None => true
  end.

(** Maximum estimated minutes (selectivity 60%); a task whose estimate is
    missing or cannot be read is kept. *)
Definition filter_maxEstimatedMinutes (aTask : Task) : bool :=
  match s_maxEstimatedMinutes s with
  | Some maxEstimatedMinutes =>
      match task_estimatedMinutes aTask with
      | Got taskEstimatedMinutes =>
          negb (taskEstimatedMinutes >? maxEstimatedMinutes)
      | MissingValue => true
      | ReadError => true
      end
  | None => true
  end.

(** Due date presence (selectivity 50%); the block is emitted whenever
    [withDueDate] is defined. *)
Definition filter_withDueDate (aTask : Task) : bool :=
  match s_withDueDate s with
  | Some withDueDate =>
      match task_dueDate aTask with
      | Got _ => withDueDate
      | MissingValue => negb withDueDate
      | ReadError => negb withDueDate
      end
  | None => true
  end.

(** Completed tasks (selectivity 30%). *)
Definition filter_hideCompleted (aTask : Task) : bool :=
  if s_hideCompleted s
  then negb (task_completed aTask || task_dropped aTask)
  else true.

(** The blocks in sequence: the rule at which the task leaves the
    iteration, or [None] when it reaches the scoring code. *)
Definition filter_task (aTask : Task) : option FilterName :=
  if negb (filter_projectName aTask) then Some rule_projectName
  else if negb (filter_flaggedOnly aTask) then Some rule_flaggedOnly
  else if negb (filter_minEstimatedMinutes aTask) then Some rule_minEstimatedMinutes
  else if negb (filter_maxEstimatedMinutes aTask) then Some rule_maxEstimatedMinutes
  else if negb (filter_withDueDate aTask) then Some rule_withDueDate
  else if negb (filter_hideCompleted aTask) then Some rule_hideCompleted
  else None.

Definition shouldInclude (aTask : Task) : bool :=
  match filter_task aTask with
  | None => true
  | Some _ => false
  end.

(** *** The urgency score *)

Definition score_flagged (aTask : Task) : Z :=
  if task_flagged aTask then 100 else 0.

Definition score_dueDate (currentDate : Z) (aTask : Task) : Z :=
  match task_dueDate aTask with
  | Got taskDueDate =>
      let daysDiff : Q := (inject_Z (taskDueDate - currentDate) / inject_Z days)%Q in
      if Qltb daysDiff (inject_Z 0) then 200
      else if Qltb daysDiff (inject_Z 1) then 150
      else if Qltb daysDiff (inject_Z 2) then 100
      else if Qltb daysDiff (inject_Z 8) then 50
      else 0
  | MissingValue => 0
  | ReadError => 0
  end.

Definition score_estimatedMinutes (aTask : Task) : Z :=
  match task_estimatedMinutes aTask with
  | Got taskEstimatedMinutes =>
      if taskEstimatedMinutes <=? 15 then 30
      else if taskEstimatedMinutes <=? 30 then 20
      else if taskEstimatedMinutes <=? 60 then 10
      else 0
  | MissingValue => 0
  | ReadError => 0
  end.

Definition urgency_score (currentDate : Z) (aTask : Task) : Z :=
  0 + score_flagged aTask + score_dueDate currentDate aTask
    + score_estimatedMinutes aTask.

(** *** The priority level *)

Definition priority_level (urgencyScore : Z) : PriorityLevel :=
  if urgencyScore >=? 150 then high
  else if urgencyScore >=? 50 then medium
  else low.

(** *** The JSON object of an accepted task *)

Definition tags_string (r : Reading (list string)) : string :=
  match r with
  | Got taskTags =>
      fold_left (fun taskTagsStr tagName =>
                   if text_is taskTagsStr "" then tagName
                   else (taskTagsStr ++ "," ++ tagName)%string)
                taskTags ""
  | MissingValue => ""
  | ReadError => ""
  end.

Definition task_object (aTask : Task) (urgencyScore : Z)
    (priorityLevel : PriorityLevel) : TaskObject :=
  {| j_id := task_id aTask;
     j_name := task_name aTask;
     j_completed := task_completed aTask;
     j_flagged := task_flagged aTask;
     j_estimatedMinutes := reading_value (task_estimatedMinutes aTask);
     j_dueDate := reading_value (task_dueDate aTask);
     j_deferDate := reading_value (task_deferDate aTask);
     j_tags := tags_string (task_tags aTask);
     j_projectName := reading_value (task_containingProject aTask);
     j_note := task_note aTask;
     j_urgencyScore := urgencyScore;
     j_priorityLevel := priorityLevel |}.

(** *** The task loop *)

(** The variables of the loop.  [examined] is not a variable of the
    script: it records, in scan order, the tasks whose iteration got past
    the early-exit test, that is the tasks the filters were applied to. *)
Record LoopState : Type := {
  highPriorityTasks : list TaskObject;
  mediumPriorityTasks : list TaskObject;
  lowPriorityTasks : list TaskObject;
  highCount : Z;
  mediumCount : Z;
  lowCount : Z;
  examined : list Task
}.

Definition initial_state : LoopState :=
  {| highPriorityTasks := [];
     mediumPriorityTasks := [];
     lowPriorityTasks := [];
     highCount := 0;
     mediumCount := 0;
     lowCount := 0;
     examined := [] |}.

(** The test that guards [exit repeat]. *)
Definition quota_full (st : LoopState) : bool :=
  (highCount st >=? maxHighPriority s)
  && (mediumCount st >=? maxMediumPriority s)
  && (lowCount st >=? maxLowPriority s).

(** The per-level quota test and the append to the level's list. *)
Definition collect (taskInfo : TaskObject) (st : LoopState) : LoopState :=
  match j_priorityLevel taskInfo with
  | high =>
      if highCount st <? maxHighPriority s then
        {| highPriorityTasks := highPriorityTasks st ++ [taskInfo];
           mediumPriorityTasks := mediumPriorityTasks st;
           lowPriorityTasks := lowPriorityTasks st;
           highCount := highCount st + 1;
           mediumCount := mediumCount st;
           lowCount := lowCount st;
           examined := examined st |}
      else st
  | medium =>
      if mediumCount st <? maxMediumPriority s then
        {| highPriorityTasks := highPriorityTasks st;
           mediumPriorityTasks := mediumPriorityTasks st ++ [taskInfo];
           lowPriorityTasks := lowPriorityTasks st;
           highCount := highCount st;
           mediumCount := mediumCount st + 1;
           lowCount := lowCount st;
           examined := examined st |}
      else st
  | low =>
      if lowCount st <? maxLowPriority s then
        {| highPriorityTasks := highPriorityTasks st;
           mediumPriorityTasks := mediumPriorityTasks st;
           lowPriorityTasks := lowPriorityTasks st ++ [taskInfo];
           highCount := highCount st;
           mediumCount := mediumCount st;
           lowCount := lowCount st + 1;
           examined := examined st |}
      else st
  end.

Definition note_examined (aTask : Task) (st : LoopState) : LoopState :=
  {| highPriorityTasks := highPriorityTasks st;
     mediumPriorityTasks := mediumPriorityTasks st;
     lowPriorityTasks := lowPriorityTasks st;
     highCount := highCount st;
     mediumCount := mediumCount st;
     lowCount := lowCount st;
     examined := examined st ++ [aTask] |}.

(** The JSON object iteration [i] would add for [aTask], quota apart:
    nothing when a filter rejects the task. *)
Definition candidate (i : nat) (aTask : Task) : option TaskObject :=
  if shouldInclude aTask then
    let urgencyScore := urgency_score (current_date i) aTask in
    Some (task_object aTask urgencyScore (priority_level urgencyScore))
  else None.

(** One iteration past the early-exit test. *)
Definition loop_body (i : nat) (aTask : Task) (st : LoopState) : LoopState :=
  match candidate i aTask with
  | Some taskInfo => collect taskInfo (note_examined aTask st)
  | None => note_examined aTask st
  end.

(** [repeat with aTask in allTasks], from iteration [i] on. *)
Fixpoint task_loop (i : nat) (st : LoopState) (allTasks : list Task) : LoopState :=
  match allTasks with
  | [] => st
  | aTask :: rest =>
      if quota_full st then st
      else task_loop (S i) (loop_body i aTask st) rest
  end.

(** *** The project loop: every project, unconditionally *)

Definition project_object (aProject : Project) : ProjectObject :=
  {| pj_id := project_id aProject;
     pj_name := project_name aProject;
     pj_status := status_as_string (project_status aProject);
     pj_flagged := project_flagged aProject;
     pj_estimatedMinutes := reading_value (project_estimatedMinutes aProject);
     pj_dueDate := reading_value (project_dueDate aProject);
     pj_taskCount :=
       match project_flattenedTaskCount aProject with
       | Got n => n
       | MissingValue => 0
       | ReadError => 0
       end |}.

Definition project_loop (allProjects : list Project) : list ProjectObject :=
  fold_left (fun visibleProjects aProject =>
               visibleProjects ++ [project_object aProject])
            allProjects [].

(** *** Selecting the perspective *)

Definition builtInPerspectives : list string :=
  ["Inbox"; "Projects"; "Tags"; "Forecast"; "Flagged"; "Review"].

(** [None] when the perspective was set, or the message of the error
    raised by [first perspective whose name is ...]. *)
Definition set_perspective (doc : Document) : option string :=
  if existsb (text_is (s_perspectiveName s)) builtInPerspectives then None
  else if existsb (fun p => text_is p (s_perspectiveName s)) (doc_perspectives doc)
       then None
       else Some (doc_noSuchPerspective doc (s_perspectiveName s)).

(** *** The output *)

(** What the script prints: the JSON text, kept structured. *)
Inductive ScriptOutput : Type :=
| OutputSuccess (perspective : string) (tasks : list TaskObject)
    (projects : list ProjectObject) (stats : Stats)
| OutputFailure (error : string).

Definition assemble (st : LoopState) : list TaskObject :=
  if s_prioritizeUrgent s
  then highPriorityTasks st ++ mediumPriorityTasks st ++ lowPriorityTasks st
  else lowPriorityTasks st ++ mediumPriorityTasks st ++ highPriorityTasks st.

Definition make_stats (st : LoopState) : Stats :=
  {| highPriority := highCount st;
     mediumPriority := mediumCount st;
     lowPriority := lowCount st;
     totalFiltered := highCount st + mediumCount st + lowCount st;
     stats_maxResults := s_maxResults s |}.

Definition final_state (doc : Document) : LoopState :=
  task_loop 0 initial_state (doc_flattenedTasks doc).

Definition run_script (doc : Document) : ScriptOutput :=
  match set_perspective doc with
  | Some errMsg => OutputFailure errMsg
  | None =>
      let st := final_state doc in
      let visibleProjects := project_loop (doc_flattenedProjects doc) in
      OutputSuccess (s_perspectiveName s) (assemble st) visibleProjects
                    (make_stats st)
  end.

End RunScript.

(** ** The caller side: [getDataByPerspective] *)

(** The interfaces [TaskInfo] and [ProjectInfo] of the result. *)
Record TaskInfo : Type := {
  ti_id : string;
  ti_name : string;
  ti_completed : bool;
  ti_flagged : bool;
  ti_estimatedMinutes : option Z;
  ti_dueDate : option Z;
  ti_deferDate : option Z;
  ti_tags : list string;
  ti_projectName : option string;
  ti_note : string;
  ti_urgencyScore : Z
}.

Record ProjectInfo : Type := {
  pi_id : string;
  pi_name : string;
  pi_status : string;
  pi_flagged : bool;
  pi_estimatedMinutes : option Z;
  pi_dueDate : option Z;
  pi_taskCount : Z
}.

(** The value of [JSON.parse(stdout.trim())], as far as the caller looks
    into it: [r_success] is the truthiness of [result.success], and a
    property that is absent is [None]. *)
Record Response : Type := {
  r_success : bool;
  r_perspective : option string;
  r_tasks : option (list TaskObject);
  r_projects : option (list ProjectObject);
  r_stats : option Stats;
  r_error : option string
}.

(** What happens between the call of [execAsync] and the value [result]:
    either something throws ([execAsync] rejects, [JSON.parse] raises)
    and the [catch] block receives the message, or the output parses. *)
Inductive ProviderReply : Type :=
| Threw (message : string)
| Parsed (result : Response).

(** The object [getDataByPerspective] resolves to. *)
Record QueryResult : Type := {
  success : bool;
  perspective : option string;
  tasks : option (list TaskInfo);
  projects : option (list ProjectInfo);
  stats : option Stats;
  error : option string
}.

(** [str.split(',')] *)
Fixpoint split_comma (str : string) : list string :=
  match str with
  | EmptyString => [EmptyString]
  | String c rest =>
      if Ascii.eqb c "," then EmptyString :: split_comma rest
      else match split_comma rest with
           | h :: t => String c h :: t
           | [] => [String c EmptyString]
           end
  end.

(** The white space and line terminators that [trim] removes. *)
Definition is_white_space (cp : Z) : bool :=
  ((9 <=? cp) && (cp <=? 13))
  || (cp =? 32) || (cp =? 160) || (cp =? 5760)
  || ((8192 <=? cp) && (cp <=? 8202))
  || (cp =? 8232) || (cp =? 8233) || (cp =? 8239) || (cp =? 8287)
  || (cp =? 12288) || (cp =? 65279).

(** [tag.trim() !== ''] *)
Definition trim_nonempty (tag : string) : bool :=
  existsb (fun cp => negb (is_white_space cp)) (utf8_decode tag).

Definition task_of_object (task : TaskObject) : TaskInfo :=
  {| ti_id := j_id task;
     ti_name := j_name task;
     ti_completed := j_completed task;
     ti_flagged := j_flagged task;
     ti_estimatedMinutes := j_estimatedMinutes task;
     ti_dueDate := j_dueDate task;
     ti_deferDate := j_deferDate task;
     ti_tags :=
       if String.eqb (j_tags task) "" then []
       else filter trim_nonempty (split_comma (j_tags task));
     ti_projectName := j_projectName task;
     ti_note := j_note task;
     ti_urgencyScore := j_urgencyScore task |}.

Definition project_of_object (project : ProjectObject) : ProjectInfo :=
  {| pi_id := pj_id project;
     pi_name := pj_name project;
     pi_status := pj_status project;
     pi_flagged := pj_flagged project;
     pi_estimatedMinutes := pj_estimatedMinutes project;
     pi_dueDate := pj_dueDate project;
     pi_taskCount := pj_taskCount project |}.

(** [calculateUrgencyScore] and [getPriorityLevel] of the TypeScript
    side.  Nothing calls them: the score and the level of a returned
    task are computed by the script.  [now] is [new Date().getTime()],
    in milliseconds; a due date is in seconds. *)
Definition calculateUrgencyScore (now : Z) (task : TaskInfo) : Z :=
  let score := 0 in
  let score := if ti_flagged task then score + 100 else score in
  let score :=
    match ti_dueDate task with
    | Some dueDate =>
        let daysUntilDue :=
          Qceiling (inject_Z (1000 * dueDate - now)
                    / inject_Z (1000 * 60 * 60 * 24)) in
        if daysUntilDue <? 0 then score + 200
        else if daysUntilDue =? 0 then score + 150
        else if daysUntilDue =? 1 then score + 100
        else if daysUntilDue <=? 7 then score + 50
        else score
    | None => score
    end in
  let score :=
    if truthy_number (ti_estimatedMinutes task) then
      let estimatedMinutes := with_default 0 (ti_estimatedMinutes task) in
      if estimatedMinutes <=? 15 then score + 30
      else if estimatedMinutes <=? 30 then score + 20
      else if estimatedMinutes <=? 60 then score + 10
      else score
    else score in
  score.

Definition getPriorityLevel (urgencyScore : Z) : PriorityLevel :=
  if urgencyScore >=? 150 then high
  else if urgencyScore >=? 50 then medium
  else low.

(** [result.xs?.map(f) || []] *)
Definition map_or_empty {A B : Type} (f : A -> B) (xs : option (list A)) : list B :=
  match xs with
  | Some l => map f l
  | None => []
  end.

(** The body of [getDataByPerspective] after the provider has replied. *)
Definition interpret_reply (reply : ProviderReply) : QueryResult :=
  match reply with
  | Parsed result =>
      if r_success result then
        {| success := true;
           perspective := r_perspective result;
           tasks := Some (map_or_empty task_of_object (r_tasks result));
           projects := Some (map_or_empty project_of_object (r_projects result));
           stats := r_stats result;
           error := None |}
      else
        {| success := false;
           perspective := None;
           tasks := None;
           projects := None;
           stats := None;
           error := r_error result |}
  | Threw message =>
      {| success := false;
         perspective := None;
         tasks := None;
         projects := None;
         stats := None;
         error := Some message |}
  end.

(** [getDataByPerspective], with the provider as an argument.  Besides the
    result it returns the scripts handed to the provider, in order. *)
Definition getDataByPerspective (execAsync : Script -> ProviderReply)
    (params : GetDataByPerspectiveParams) : list Script * QueryResult :=
  let script := generateOptimizedGetDataByPerspectiveScript params in
  let reply := execAsync script in
  ([script], interpret_reply reply).

(** The reply of a provider that runs the script on a document, in the
    case where the text the script printed is well-formed JSON and
    parses back to the structure printed.  The script concatenates
    names, notes and messages into that text as they are, so this is
    not the reply for every document: it serves as a sample provider
    only. *)
Definition response_of_output (out : ScriptOutput) : Response :=
  match out with
  | OutputSuccess perspective tasks projects stats =>
      {| r_success := true;
         r_perspective := Some perspective;
         r_tasks := Some tasks;
         r_projects := Some projects;
         r_stats := Some stats;
         r_error := None |}
  | OutputFailure errMsg =>
      {| r_success := false;
         r_perspective := None;
         r_tasks := None;
         r_projects := None;
         r_stats := None;
         r_error := Some errMsg |}
  end.

Definition omnifocus (current_date : nat -> Z) (doc : Document)
    (script : Script) : ProviderReply :=
  Parsed (response_of_output (run_script script current_date doc)).

(** ** The plain path: [generateGetDataByPerspectiveScript] *)

Module Plain.

Section PlainScript.

Variable params : GetDataByPerspectiveParams.

Definition hideCompleted' : bool := with_default true (hideCompleted params).
Definition flaggedOnly' : bool := with_default false (flaggedOnly params).
Definition escapedProjectName : string := with_default "" (projectName params).

(** The estimated-minutes block: both bounds inside one [try]. *)
Definition filter_estimatedMinutes (aTask : Task) : bool :=
  let minimum := emitted_bound (minEstimatedMinutes params) in
  let maximum := emitted_bound (maxEstimatedMinutes params) in
  let without_estimate :=
    match minimum with Some _ => false | None => true end in
  match task_estimatedMinutes aTask with
  | Got taskEstimatedMinutes =>
      match minimum with
      | Some minEstimatedMinutes =>
          negb (taskEstimatedMinutes <? minEstimatedMinutes)
      | None => true
      end
      && match maximum with
         | Some maxEstimatedMinutes =>
             negb (taskEstimatedMinutes >? maxEstimatedMinutes)
         | None => true
         end
  | MissingValue => without_estimate
  | ReadError => without_estimate
  end.

Definition filter_dueDate (aTask : Task) : bool :=
  match withDueDate params with
  | Some withDueDate =>
      match task_dueDate aTask with
      | Got _ => withDueDate
      | MissingValue => negb withDueDate
      | ReadError => negb withDueDate
      end
  | None => true
  end.

Definition filter_project (aTask : Task) : bool :=
  if negb (text_is escapedProjectName "") then
    match task_containingProject aTask with
    | Got taskProjectName => text_is taskProjectName escapedProjectName
    | MissingValue => false
    | ReadError => false
    end
  else true.

Definition shouldInclude (aTask : Task) : bool :=
  negb (hideCompleted' && (task_completed aTask || task_dropped aTask))
  && negb (flaggedOnly' && negb (task_flagged aTask))
  && filter_project aTask
  && filter_estimatedMinutes aTask
  && filter_dueDate aTask.

Definition project_object (aProject : Project) : ProjectObject :=
  {| pj_id := project_id aProject;
     pj_name := project_name aProject;
     pj_status := status_as_string (project_status aProject);
     pj_flagged := project_flagged aProject;
     pj_estimatedMinutes := reading_value (project_estimatedMinutes aProject);
     pj_dueDate := reading_value (project_dueDate aProject);
     pj_taskCount := project_taskCount aProject |}.

Definition project_shouldInclude (aProject : Project) : bool :=
  let projectCompleted :=
    match project_status aProject with done => true | _ => false end in
  let projectDropped :=
    match project_status aProject with dropped => true | _ => false end in
  negb (hideCompleted' && (projectCompleted || projectDropped)).

(** The project loop of the plain script: the hide-completed toggle
    applies to projects. *)
Definition project_loop (allProjects : list Project) : list ProjectObject :=
  fold_left (fun visibleProjects aProject =>
               if project_shouldInclude aProject
               then visibleProjects ++ [project_object aProject]
               else visibleProjects)
            allProjects [].

(** The JSON object the plain script builds for a task: the tags are a
    JSON array, and there is no score. *)
Record TaskObject : Type := {
  p_id : string;
  p_name : string;
  p_completed : bool;
  p_flagged : bool;
  p_estimatedMinutes : option Z;
  p_dueDate : option Z;
  p_deferDate : option Z;
  p_projectName : option string;
  p_tags : list string;
  p_note : string
}.

(** [taskTagsStr]: the names of the tags, or the empty array when the
    task has none or they cannot be read. *)
Definition tag_list (r : Reading (list string)) : list string :=
  match r with
  | Got taskTags => taskTags
  | MissingValue => []
  | ReadError => []
  end.

Definition task_object (aTask : Task) : TaskObject :=
  {| p_id := task_id aTask;
     p_name := task_name aTask;
     p_completed := task_completed aTask;
     p_flagged := task_flagged aTask;
     p_estimatedMinutes := reading_value (task_estimatedMinutes aTask);
     p_dueDate := reading_value (task_dueDate aTask);
     p_deferDate := reading_value (task_deferDate aTask);
     p_projectName := reading_value (task_containingProject aTask);
     p_tags := tag_list (task_tags aTask);
     p_note := task_note aTask |}.

(** The task loop of the plain script: no score, no quota, no early
    exit. *)
Definition task_loop (allTasks : list Task) : list TaskObject :=
  fold_left (fun visibleTasks aTask =>
               if shouldInclude aTask
               then visibleTasks ++ [task_object aTask]
               else visibleTasks)
            allTasks [].

Definition set_perspective (doc : Document) : option string :=
  if existsb (text_is (perspectiveName params)) builtInPerspectives then None
  else if existsb (fun p => text_is p (perspectiveName params))
                  (doc_perspectives doc)
       then None
       else Some (doc_noSuchPerspective doc (perspectiveName params)).

Inductive ScriptOutput : Type :=
| OutputSuccess (perspective : string) (tasks : list TaskObject)
    (projects : list ProjectObject)
| OutputFailure (error : string).

Definition run_script (doc : Document) : ScriptOutput :=
  match set_perspective doc with
  | Some errorMessage => OutputFailure errorMessage
  | None =>
      OutputSuccess (perspectiveName params)
                    (task_loop (doc_flattenedTasks doc))
                    (project_loop (doc_flattenedProjects doc))
  end.

End PlainScript.

(** The caller side of the plain path.  [execAsync] either rejects, with
    an error whose [message] may be absent, or resolves with the text
    the script printed; [JSON_parse] is [None] when [JSON.parse]
    throws. *)
Inductive ExecOutcome : Type :=
| Rejected (message : option string)
| Resolved (stdout : string).

Record Result : Type := {
  success : bool;
  perspective : option string;
  tasks : option (list TaskObject);
  projects : option (list ProjectObject);
  error : option string
}.

(** [message || fallback] *)
Definition message_or (message : option string) (fallback : string) : string :=
  match message with
  | Some m => if String.eqb m "" then fallback else m
  | None => fallback
  end.

Definition getDataByPerspective
    (execAsync : GetDataByPerspectiveParams -> ExecOutcome)
    (JSON_parse : string -> option Result)
    (params : GetDataByPerspectiveParams) : Result :=
  match execAsync params with
  | Resolved stdout =>
      match JSON_parse stdout with
      | Some result => result
      | None =>
          {| success := false;
             perspective := None;
             tasks := None;
             projects := None;
             error := Some ("Failed to parse result: " ++ stdout)%string |}
      end
  | Rejected message =>
      {| success := false;
         perspective := None;
         tasks := None;
         projects := None;
         error :=
           Some (message_or message "Unknown error in getDataByPerspective") |}
  end.

End Plain.

(** ** Listing the perspectives: [getPerspectives] *)

Module Perspectives.

Inductive PerspectiveType : Type :=
| built_in
| custom.

Record PerspectiveInfo : Type := {
  name : string;
  type : PerspectiveType
}.

(** What the script prints, and what it parses to: the array of the
    perspectives, or the object that carries the message of an error. *)
Inductive Value : Type :=
| Listing (resultArray : list PerspectiveInfo)
| ErrorObject (error : string).

(** The script of [generateGetPerspectivesScript].
    [customPerspectiveNames] is [name of every perspective], or the
    message of the error raised while reading it. *)
Definition run_script (customPerspectiveNames : string + list string) : Value :=
  match customPerspectiveNames with
  | inl errorMessage => ErrorObject errorMessage
  | inr names =>
      let resultArray := [] in
      let resultArray :=
        fold_left (fun resultArray perspectiveName =>
                     resultArray ++ [ {| name := perspectiveName; type := built_in |} ])
                  builtInPerspectives resultArray in
      let resultArray :=
        fold_left (fun resultArray perspectiveName =>
                     resultArray ++ [ {| name := perspectiveName; type := custom |} ])
                  names resultArray in
      Listing resultArray
  end.

Inductive Reply : Type :=
| Rejected (message : option string)
| Unparsable (stdout : string)
| Parsed (result : Value).

(** The object [getPerspectives] resolves to; [perspectives] is the
    parsed value as it is. *)
Record Result : Type := {
  success : bool;
  perspectives : option Value;
  error : option string
}.

Definition getPerspectives (reply : Reply) : Result :=
  match reply with
  | Parsed result =>
      match result with
      | ErrorObject message =>
          if negb (String.eqb message "")
          then {| success := false; perspectives := None; error := Some message |}
          else {| success := true; perspectives := Some result; error := None |}
      | Listing _ =>
          {| success := true; perspectives := Some result; error := None |}
      end
  | Unparsable stdout =>
      {| success := false;
         perspectives := None;
         error := Some ("Failed to parse result: " ++ stdout)%string |}
  | Rejected message =>
      {| success := false;
         perspectives := None;
         error := Some (Plain.message_or message "Unknown error in getPerspectives") |}
  end.

End Perspectives.

(** ** The tool handler *)

Module Handler.

(** The text of an integer inside a template string. *)
Definition number_to_string (n : Z) : string :=
  NilZero.string_of_int (Z.to_int n).

(** [formatDuration]; [%] is the remainder of the truncated division. *)
Definition formatDuration (minutes : Z) : string :=
  if minutes <? 60 then (number_to_string minutes ++ "分")%string
  else
    let hours := minutes / 60 in
    let remainingMinutes := Z.rem minutes 60 in
    if remainingMinutes =? 0 then (number_to_string hours ++ "時間")%string
    else (number_to_string hours ++ "時間"
          ++ number_to_string remainingMinutes ++ "分")%string.

(** The arguments the schema admits. *)
Record Args : Type := {
  perspectiveName : option string;
  hideCompleted : option bool;
  hideRecurringDuplicates : option bool;
  minEstimatedMinutes : option Z;
  maxEstimatedMinutes : option Z;
  flaggedOnly : option bool;
  withTags : option (list string);
  withDueDate : option bool;
  projectName : option string
}.

(** [!args.perspectiveName]: no name, or the empty one, asks for the
    list of perspectives. *)
Definition lists_perspectives (args : Args) : bool :=
  match perspectiveName args with
  | Some n => String.eqb n ""
  | None => true
  end.

(** [x !== false] *)
Definition not_false (x : option bool) : bool :=
  match x with
  | Some false => false
  | _ => true
  end.

(** The object handed to [getDataByPerspective]. *)
Definition query_params (args : Args) : GetDataByPerspectiveParams :=
  Build_GetDataByPerspectiveParams
    (* perspectiveName *) (with_default "" (perspectiveName args))
    (* hideCompleted *) (Some (not_false (hideCompleted args)))
    (* hideRecurringDuplicates *) (Some (not_false (hideRecurringDuplicates args)))
    (* minEstimatedMinutes *) (minEstimatedMinutes args)
    (* maxEstimatedMinutes *) (maxEstimatedMinutes args)
    (* flaggedOnly *) (flaggedOnly args)
    (* withTags *) (withTags args)
    (* withDueDate *) (withDueDate args)
    (* projectName *) (projectName args)
    (* maxResults *) None
    (* prioritizeUrgent *) None.

(** [Array.prototype.sort] with a comparator.  The sort of the language
    is stable; insertion from the right, an element going before the
    first one it does not compare greater than, is such a sort. *)
Fixpoint insert_by {A : Type} (compare : A -> A -> Z) (x : A) (l : list A) : list A :=
  match l with
  | [] => [x]
  | y :: l' =>
      if compare x y <=? 0 then x :: l else y :: insert_by compare x l'
  end.

Definition sort_by {A : Type} (compare : A -> A -> Z) (l : list A) : list A :=
  fold_right (insert_by compare) [] l.

(** [task.estimatedMinutes || 0] *)
Definition minutes_or_zero (task : TaskInfo) : Z :=
  with_default 0 (ti_estimatedMinutes task).

(** [sortedTasks]: by estimate, longest first, when a bound was given. *)
Definition sortedTasks (args : Args) (tasks : list TaskInfo) : list TaskInfo :=
  if truthy_number (minEstimatedMinutes args)
     || truthy_number (maxEstimatedMinutes args)
  then sort_by (fun a b => minutes_or_zero b - minutes_or_zero a) tasks
  else tasks.

(** The statistics on the estimates. *)
Definition tasksWithEstimate (tasks : list TaskInfo) : list TaskInfo :=
  filter (fun t => truthy_number (ti_estimatedMinutes t)
                   && (with_default 0 (ti_estimatedMinutes t) >? 0))
         tasks.

Definition totalMinutes (tasksWithEstimate : list TaskInfo) : Z :=
  fold_left (fun sum t => sum + minutes_or_zero t) tasksWithEstimate 0.

(** [Math.round]: to the nearest integer, halves upwards. *)
Definition Math_round (x : Q) : Z := Qfloor (x + (1 # 2)).

Definition avgMinutes (tasksWithEstimate : list TaskInfo) : Z :=
  Math_round (inject_Z (totalMinutes tasksWithEstimate)
              / inject_Z (Z.of_nat (List.length tasksWithEstimate))).

(** The names listed under each heading of the list of perspectives. *)
Definition builtInPerspectives (perspectives : list Perspectives.PerspectiveInfo) :
    list string :=
  map Perspectives.name
      (filter (fun p => match Perspectives.type p with
                        | Perspectives.built_in => true
                        | Perspectives.custom => false
                        end) perspectives).

Definition customPerspectives (perspectives : list Perspectives.PerspectiveInfo) :
    list string :=
  map Perspectives.name
      (filter (fun p => match Perspectives.type p with
                        | Perspectives.custom => true
                        | Perspectives.built_in => false
                        end) perspectives).

End Handler.

(** ** Notions used to state the properties *)

(** The budget in effect: [maxResults = 500] when the caller gives none. *)
Definition budget (params : GetDataByPerspectiveParams) : Z :=
  with_default 500 (maxResults params).

Definition of_level (l : PriorityLevel) (o : TaskObject) : bool :=
  PriorityLevel_eqb (j_priorityLevel o) l.

Definition capacity (s : Script) (l : PriorityLevel) : Z :=
  match l with
  | high => maxHighPriority s
  | medium => maxMediumPriority s
  | low => maxLowPriority s
  end.

Definition counter (st : LoopState) (l : PriorityLevel) : Z :=
  match l with
  | high => highCount st
  | medium => mediumCount st
  | low => lowCount st
  end.

Definition bucket (st : LoopState) (l : PriorityLevel) : list TaskObject :=
  match l with
  | high => highPriorityTasks st
  | medium => mediumPriorityTasks st
  | low => lowPriorityTasks st
  end.

(** How many more tasks a level still takes. *)
Definition room (cap count : Z) : nat := Z.to_nat (cap - count).

(** The objects of the tasks that pass the filters, in scan order, each
    scored with the clock of its own iteration. *)
Fixpoint candidates (s : Script) (current_date : nat -> Z) (i : nat)
    (allTasks : list Task) : list TaskObject :=
  match allTasks with
  | [] => []
  | aTask :: rest =>
      match candidate s current_date i aTask with
      | Some taskInfo => taskInfo :: candidates s current_date (S i) rest
      | None => candidates s current_date (S i) rest
      end
  end.

(** The block of the script that stands for a rule of the table; no
    block stands for the tag rule. *)
Definition block (s : Script) (r : FilterName) (aTask : Task) : bool :=
  match r with
  | rule_projectName => filter_projectName s aTask
  | rule_flaggedOnly => filter_flaggedOnly s aTask
  | rule_minEstimatedMinutes => filter_minEstimatedMinutes s aTask
  | rule_maxEstimatedMinutes => filter_maxEstimatedMinutes s aTask
  | rule_withDueDate => filter_withDueDate s aTask
  | rule_withTags => true
  | rule_hideCompleted => filter_hideCompleted s aTask
  end.

Definition FilterName_eqb (a b : FilterName) : bool :=
  match a, b with
  | rule_projectName, rule_projectName
  | rule_flaggedOnly, rule_flaggedOnly
  | rule_minEstimatedMinutes, rule_minEstimatedMinutes
  | rule_maxEstimatedMinutes, rule_maxEstimatedMinutes
  | rule_withDueDate, rule_withDueDate
  | rule_withTags, rule_withTags
  | rule_hideCompleted, rule_hideCompleted => true
  | _, _ => false
  end.

(** The [order] the table gives a rule. *)
Definition rule_order (r : FilterName) : Z :=
  match find (fun f => FilterName_eqb (fs_name f) r) FILTER_SELECTIVITY with
  | Some f => order f
  | None => 0
  end.

(** The position of a level in the concatenation. *)
Definition tier_rank (prioritizeUrgent : bool) (l : PriorityLevel) : nat :=
  match prioritizeUrgent, l with
  | true, high | false, low => 0
  | _, medium => 1
  | true, low | false, high => 2
  end.

(** The score in the words of the specification, as a function of the
    three fields it may depend on and of the current time, with the time
    to the due date in seconds. *)
Definition flagged_points (flagged : bool) : Z :=
  if flagged then 100 else 0.

Definition due_points (now : Z) (due : option Z) : Z :=
  match due with
  | None => 0
  | Some d =>
      if d - now <? 0 then 200
      else if d - now <? 1 * days then 150
      else if d - now <? 2 * days then 100
      else if d - now <? 8 * days then 50
      else 0
  end.

Definition duration_points (minutes : option Z) : Z :=
  match minutes with
  | None => 0
  | Some m =>
      if m <=? 15 then 30
      else if m <=? 30 then 20
      else if m <=? 60 then 10
      else 0
  end.

(** The predicates of the rule table in the words of the specification:
    a rule is enabled when its criterion is set, and a record that lacks
    the value a predicate needs fails the predicate. *)
Definition rule_enabled (params : GetDataByPerspectiveParams)
    (r : FilterName) : bool :=
  match r with
  | rule_projectName =>
      match projectName params with Some _ => true | None => false end
  | rule_flaggedOnly => with_default false (flaggedOnly params)
  | rule_minEstimatedMinutes =>
      match minEstimatedMinutes params with Some _ => true | None => false end
  | rule_maxEstimatedMinutes =>
      match maxEstimatedMinutes params with Some _ => true | None => false end
  | rule_withDueDate =>
      match withDueDate params with Some _ => true | None => false end
  | rule_withTags =>
      match withTags params with Some _ => true | None => false end
  | rule_hideCompleted => with_default true (hideCompleted params)
  end.

Definition has_tag (aTask : Task) (tag : string) : bool :=
  match task_tags aTask with
  | Got taskTags => existsb (String.eqb tag) taskTags
  | MissingValue | ReadError => false
  end.

Definition rule_holds (params : GetDataByPerspectiveParams)
    (r : FilterName) (aTask : Task) : bool :=
  match r with
  | rule_projectName =>
      match projectName params, task_containingProject aTask with
      | Some wanted, Got taskProjectName => String.eqb taskProjectName wanted
      | _, _ => false
      end
  | rule_flaggedOnly => task_flagged aTask
  | rule_minEstimatedMinutes =>
      match minEstimatedMinutes params, task_estimatedMinutes aTask with
      | Some bound, Got minutes => bound <=? minutes
      | _, _ => false
      end
  | rule_maxEstimatedMinutes =>
      match maxEstimatedMinutes params, task_estimatedMinutes aTask with
      | Some bound, Got minutes => minutes <=? bound
      | _, _ => false
      end
  | rule_withDueDate =>
      match withDueDate params, task_dueDate aTask with
      | Some wanted, Got _ => wanted
      | Some wanted, _ => negb wanted
      | None, _ => false
      end
  | rule_withTags =>
      match withTags params with
      | Some wanted => existsb (has_tag aTask) wanted
      | None => false
      end
  | rule_hideCompleted => negb (task_completed aTask || task_dropped aTask)
  end.

(** The predicates the script applies, as propositions about the task:
    the project name is compared as the script compares texts, a bound
    of [0] emits no block, and the maximum constrains only an estimate
    that is present. *)
Record satisfies_applied_rules (params : GetDataByPerspectiveParams)
    (aTask : Task) : Prop := {
  sat_projectName : forall wanted,
    projectName params = Some wanted -> wanted <> "" ->
    exists taskProjectName,
      task_containingProject aTask = Got taskProjectName
      /\ text_is taskProjectName wanted = true;
  sat_flaggedOnly :
    flaggedOnly params = Some true -> task_flagged aTask = true;
  sat_minEstimatedMinutes : forall bound,
    minEstimatedMinutes params = Some bound -> bound <> 0 ->
    exists minutes, task_estimatedMinutes aTask = Got minutes /\ bound <= minutes;
  sat_maxEstimatedMinutes : forall bound,
    maxEstimatedMinutes params = Some bound -> bound <> 0 ->
    forall minutes, task_estimatedMinutes aTask = Got minutes -> minutes <= bound;
  sat_withDueDate : forall wanted,
    withDueDate params = Some wanted ->
    (exists d, task_dueDate aTask = Got d) <-> wanted = true;
  sat_hideCompleted :
    hideCompleted params <> Some false ->
    task_completed aTask = false /\ task_dropped aTask = false
}.

(** Two scripts have the same filter blocks. *)
Definition same_filters (s1 s2 : Script) : Prop :=
  s_projectName s1 = s_projectName s2
  /\ s_flaggedOnly s1 = s_flaggedOnly s2
  /\ s_minEstimatedMinutes s1 = s_minEstimatedMinutes s2
  /\ s_maxEstimatedMinutes s1 = s_maxEstimatedMinutes s2
  /\ s_withDueDate s1 = s_withDueDate s2
  /\ s_hideCompleted s1 = s_hideCompleted s2.

(** A text contains a comma. *)
Fixpoint has_comma (t : string) : bool :=
  match t with
  | EmptyString => false
  | String c rest => Ascii.eqb c "," || has_comma rest
  end.

(** A character of the text of an integer: a digit or the sign. *)
Definition number_char (c : ascii) : bool :=
  let n := nat_of_ascii c in
  (Nat.eqb n 45 || (Nat.leb 48 n && Nat.leb n 57))%bool.

Fixpoint number_text (t : string) : bool :=
  match t with
  | EmptyString => true
  | String c rest => number_char c && number_text rest
  end.

(** A text that begins with something else than a digit or the sign. *)
Definition begins_other (t : string) : bool :=
  match t with
  | EmptyString => false
  | String c _ => negb (number_char c)
  end.

(** A returned object and the task it was built from. *)
Definition object_of (s : Script) (current_date : nat -> Z)
    (allTasks : list Task) (o : TaskObject) (i : nat) (aTask : Task) : Prop :=
  nth_error allTasks i = Some aTask
  /\ shouldInclude s aTask = true
  /\ o = task_object aTask (urgency_score (current_date i) aTask)
                     (priority_level (urgency_score (current_date i) aTask)).

(** ** Sample criteria, tasks and documents *)

Definition criteria (perspective : string) : GetDataByPerspectiveParams :=
  {| perspectiveName := perspective;
     hideCompleted := None;
     hideRecurringDuplicates := None;
     minEstimatedMinutes := None;
     maxEstimatedMinutes := None;
     flaggedOnly := None;
     withTags := None;
     withDueDate := None;
     projectName := None;
     maxResults := None;
     prioritizeUrgent := None |}.

Definition with_budget (B : Z) (params : GetDataByPerspectiveParams) :
    GetDataByPerspectiveParams :=
  {| perspectiveName := perspectiveName params;
     hideCompleted := hideCompleted params;
     hideRecurringDuplicates := hideRecurringDuplicates params;
     minEstimatedMinutes := minEstimatedMinutes params;
     maxEstimatedMinutes := maxEstimatedMinutes params;
     flaggedOnly := flaggedOnly params;
     withTags := withTags params;
     withDueDate := withDueDate params;
     projectName := projectName params;
     maxResults := Some B;
     prioritizeUrgent := prioritizeUrgent params |}.

Definition with_order (urgentFirst : bool) (params : GetDataByPerspectiveParams) :
    GetDataByPerspectiveParams :=
  {| perspectiveName := perspectiveName params;
     hideCompleted := hideCompleted params;
     hideRecurringDuplicates := hideRecurringDuplicates params;
     minEstimatedMinutes := minEstimatedMinutes params;
     maxEstimatedMinutes := maxEstimatedMinutes params;
     flaggedOnly := flaggedOnly params;
     withTags := withTags params;
     withDueDate := withDueDate params;
     projectName := projectName params;
     maxResults := maxResults params;
     prioritizeUrgent := Some urgentFirst |}.

Definition with_bounds (minimum maximum : option Z)
    (params : GetDataByPerspectiveParams) : GetDataByPerspectiveParams :=
  {| perspectiveName := perspectiveName params;
     hideCompleted := hideCompleted params;
     hideRecurringDuplicates := hideRecurringDuplicates params;
     minEstimatedMinutes := minimum;
     maxEstimatedMinutes := maximum;
     flaggedOnly := flaggedOnly params;
     withTags := withTags params;
     withDueDate := withDueDate params;
     projectName := projectName params;
     maxResults := maxResults params;
     prioritizeUrgent := prioritizeUrgent params |}.

Definition with_tags (wanted : list string)
    (params : GetDataByPerspectiveParams) : GetDataByPerspectiveParams :=
  {| perspectiveName := perspectiveName params;
     hideCompleted := hideCompleted params;
     hideRecurringDuplicates := hideRecurringDuplicates params;
     minEstimatedMinutes := minEstimatedMinutes params;
     maxEstimatedMinutes := maxEstimatedMinutes params;
     flaggedOnly := flaggedOnly params;
     withTags := Some wanted;
     withDueDate := withDueDate params;
     projectName := projectName params;
     maxResults := maxResults params;
     prioritizeUrgent := prioritizeUrgent params |}.

Definition with_due_date (wanted : bool)
    (params : GetDataByPerspectiveParams) : GetDataByPerspectiveParams :=
  {| perspectiveName := perspectiveName params;
     hideCompleted := hideCompleted params;
     hideRecurringDuplicates := hideRecurringDuplicates params;
     minEstimatedMinutes := minEstimatedMinutes params;
     maxEstimatedMinutes := maxEstimatedMinutes params;
     flaggedOnly := flaggedOnly params;
     withTags := withTags params;
     withDueDate := Some wanted;
     projectName := projectName params;
     maxResults := maxResults params;
     prioritizeUrgent := prioritizeUrgent params |}.

Definition with_project (wanted : string) (params : GetDataByPerspectiveParams) :
    GetDataByPerspectiveParams :=
  {| perspectiveName := perspectiveName params;
     hideCompleted := hideCompleted params;
     hideRecurringDuplicates := hideRecurringDuplicates params;
     minEstimatedMinutes := minEstimatedMinutes params;
     maxEstimatedMinutes := maxEstimatedMinutes params;
     flaggedOnly := flaggedOnly params;
     withTags := withTags params;
     withDueDate := withDueDate params;
     projectName := Some wanted;
     maxResults := maxResults params;
     prioritizeUrgent := prioritizeUrgent params |}.

(** A frozen clock. *)
Definition noon : nat -> Z := fun _ => 1000000.

Definition a_task (name : string) (isFlagged : bool) (minutes due : Reading Z) : Task :=
  {| task_id := name;
     task_name := name;
     task_note := "";
     task_completed := false;
     task_dropped := false;
     task_flagged := isFlagged;
     task_estimatedMinutes := minutes;
     task_dueDate := due;
     task_deferDate := MissingValue;
     task_tags := Got [];
     task_containingProject := MissingValue |}.

(** Flagged and an hour overdue; due in a day and an hour; nothing set. *)
Definition overdue_task (name : string) : Task :=
  a_task name true MissingValue (Got (1000000 - 3600)).
Definition tomorrow_task (name : string) : Task :=
  a_task name false MissingValue (Got (1000000 + 86400 + 3600)).
Definition bare_task (name : string) : Task :=
  a_task name false MissingValue MissingValue.

Definition in_project (name : string) (aTask : Task) : Task :=
  {| task_id := task_id aTask;
     task_name := task_name aTask;
     task_note := task_note aTask;
     task_completed := task_completed aTask;
     task_dropped := task_dropped aTask;
     task_flagged := task_flagged aTask;
     task_estimatedMinutes := task_estimatedMinutes aTask;
     task_dueDate := task_dueDate aTask;
     task_deferDate := task_deferDate aTask;
     task_tags := task_tags aTask;
     task_containingProject := Got name |}.

Definition a_project (name : string) (st : ProjectStatus) : Project :=
  {| project_id := name;
     project_name := name;
     project_status := st;
     project_flagged := false;
     project_estimatedMinutes := MissingValue;
     project_dueDate := MissingValue;
     project_flattenedTaskCount := Got 0;
     project_taskCount := 0 |}.

Definition a_document (allTasks : list Task) (allProjects : list Project) : Document :=
  {| doc_perspectives := ["Today"];
     doc_flattenedTasks := allTasks;
     doc_flattenedProjects := allProjects;
     doc_noSuchPerspective := fun _ => "Perspective not found" |}.

(** The scenario of the specification: three flagged overdue tasks, five
    due tomorrow, four with nothing set. *)
Definition scenario_tasks : list Task :=
  [ overdue_task "o1"; overdue_task "o2"; overdue_task "o3";
    tomorrow_task "t1"; tomorrow_task "t2"; tomorrow_task "t3";
    tomorrow_task "t4"; tomorrow_task "t5";
    bare_task "b1"; bare_task "b2"; bare_task "b3"; bare_task "b4" ].

Definition scenario_document : Document := a_document scenario_tasks [].

(** ** The statements of the specification that the program does not meet *)

(** Every returned task satisfies every enabled predicate of the rule
    table, the tag rule included. *)
Definition returned_tasks_satisfy_rule_table : Prop :=
  forall params current_date doc perspective tasks projects stats o,
    run_script (generateOptimizedGetDataByPerspectiveScript params)
               current_date doc
    = OutputSuccess perspective tasks projects stats ->
    In o tasks ->
    exists i aTask,
      object_of (generateOptimizedGetDataByPerspectiveScript params)
                current_date (doc_flattenedTasks doc) o i aTask
      /\ forall r, rule_enabled params r = true -> rule_holds params r aTask = true.

(** Whatever the budget, the counters stay within the floors of the
    exact shares, and the returned tasks are at most the budget. *)
Definition quotas_hold_for_every_budget : Prop :=
  forall params current_date doc perspective tasks projects stats,
    0 <= budget params ->
    run_script (generateOptimizedGetDataByPerspectiveScript params)
               current_date doc
    = OutputSuccess perspective tasks projects stats ->
    let B := budget params in
    highPriority stats <= Qfloor (inject_Z B * 0.4)
    /\ mediumPriority stats <= Qfloor (inject_Z B * 0.4)
    /\ lowPriority stats <= Qfloor (inject_Z B * 0.2)
    /\ Z.of_nat (List.length tasks) <= B.

(** A task without an estimate is rejected as soon as a minimum or a
    maximum is set. *)
Definition missing_estimate_is_rejected : Prop :=
  forall params aTask,
    reading_value (task_estimatedMinutes aTask) = None ->
    rule_enabled params rule_minEstimatedMinutes = true
    \/ rule_enabled params rule_maxEstimatedMinutes = true ->
    shouldInclude (generateOptimizedGetDataByPerspectiveScript params) aTask = false.

(** A budget that is not positive is refused without a provider call. *)
Definition nonpositive_budget_is_refused : Prop :=
  forall execAsync params B,
    maxResults params = Some B -> B <= 0 ->
    fst (getDataByPerspective execAsync params) = []
    /\ success (snd (getDataByPerspective execAsync params)) = false.

(** With the toggle on, no project that is done or dropped is returned. *)
Definition finished_projects_are_hidden : Prop :=
  forall params current_date doc perspective tasks projects stats project,
    with_default true (hideCompleted params) = true ->
    run_script (generateOptimizedGetDataByPerspectiveScript params)
               current_date doc
    = OutputSuccess perspective tasks projects stats ->
    In project projects ->
    pj_status project <> "done" /\ pj_status project <> "dropped".

(** * Properties *)

(** ** Exact shares *)

Lemma floor_share_04 (B : Z) : Qfloor (inject_Z B * 0.4) = 4 * B / 10.
Proof.
  unfold Qfloor, Qmult, inject_Z; cbn [Qnum Qden].
  rewrite Pos.mul_1_l, (Z.mul_comm B 4). reflexivity.
Qed.

Lemma floor_share_02 (B : Z) : Qfloor (inject_Z B * 0.2) = 2 * B / 10.
Proof.
  unfold Qfloor, Qmult, inject_Z; cbn [Qnum Qden].
  rewrite Pos.mul_1_l, (Z.mul_comm B 2). reflexivity.
Qed.

(** ** Rounding to a double *)

Lemma round_half_even_bounds (a d : Z) :
  0 <= a -> 0 < d ->
  a / d <= round_half_even a d <= a / d + 1
  /\ 2 * a - d <= 2 * (d * round_half_even a d) <= 2 * a + d.
Proof.
  intros Ha Hd. unfold round_half_even. cbn zeta.
  pose proof (Z.div_mod a d ltac:(lia)) as Hdm.
  pose proof (Z.mod_pos_bound a d Hd) as Hr.
  destruct (Z.ltb_spec (2 * (a mod d)) d);
    [ | destruct (Z.ltb_spec d (2 * (a mod d)));
        [ | destruct (Z.even (a / d)) ] ];
    lia.
Qed.

Lemma round_half_even_mono (a a' d : Z) :
  0 <= a <= a' -> 0 < d -> round_half_even a d <= round_half_even a' d.
Proof.
  intros Ha Hd.
  pose proof (Z.div_le_mono a a' d Hd (proj2 Ha)) as Hq.
  destruct (Z.eq_dec (a / d) (a' / d)) as [ Heq | Hne ].
  - unfold round_half_even. cbn zeta. rewrite <- Heq.
    pose proof (Z.div_mod a d ltac:(lia)) as Hdm.
    pose proof (Z.div_mod a' d ltac:(lia)) as Hdm'.
    rewrite <- Heq in Hdm'.
    assert (Hr : a mod d <= a' mod d) by lia.
    destruct (Z.ltb_spec (2 * (a mod d)) d),
      (Z.ltb_spec (2 * (a' mod d)) d),
      (Z.ltb_spec d (2 * (a mod d))),
      (Z.ltb_spec d (2 * (a' mod d))),
      (Z.even (a / d)); lia.
  - pose proof (round_half_even_bounds a d ltac:(lia) Hd) as [Hb _].
    pose proof (round_half_even_bounds a' d ltac:(lia) Hd) as [Hb' _].
    lia.
Qed.

Lemma nearest_53_bits_nonneg (n : Z) :
  0 <= n ->
  nearest_53_bits n
  = if Z.log2 n - 52 <=? 0 then n
    else round_half_even n (2 ^ (Z.log2 n - 52)) * 2 ^ (Z.log2 n - 52).
Proof.
  intros Hn. unfold nearest_53_bits. cbn zeta. rewrite Z.abs_eq by exact Hn.
  destruct (Z.leb_spec (Z.log2 n - 52) 0) as [ Hs | Hs ]; [ reflexivity | ].
  assert (0 < n).
  { destruct (Z.eq_dec n 0) as [ -> | ]; [ cbn in Hs; lia | lia ]. }
  rewrite Z.sgn_pos by assumption. lia.
Qed.

Lemma nearest_53_bits_sign (n : Z) :
  (0 <= n -> 0 <= nearest_53_bits n) /\ (n <= 0 -> nearest_53_bits n <= 0).
Proof.
  unfold nearest_53_bits. cbn zeta.
  destruct (Z.leb_spec (Z.log2 (Z.abs n) - 52) 0) as [ Hs | Hs ];
    [ split; intros; assumption | ].
  pose proof (Z.pow_pos_nonneg 2 (Z.log2 (Z.abs n) - 52) ltac:(lia) ltac:(lia))
    as Hd.
  pose proof (round_half_even_bounds (Z.abs n) _ (Z.abs_nonneg n) Hd) as [Hb _].
  pose proof (Z.div_pos (Z.abs n) _ (Z.abs_nonneg n) Hd) as Hq.
  assert (Hp : 0 <= round_half_even (Z.abs n) (2 ^ (Z.log2 (Z.abs n) - 52))
                    * 2 ^ (Z.log2 (Z.abs n) - 52))
    by (apply Z.mul_nonneg_nonneg; lia).
  split; intros Hn.
  - destruct (Z.eq_dec n 0) as [ -> | Hne ]; [ cbn; lia | ].
    rewrite Z.sgn_pos by lia. lia.
  - destruct (Z.eq_dec n 0) as [ -> | Hne ]; [ cbn; lia | ].
    rewrite Z.sgn_neg by lia. lia.
Qed.

(** A positive number and the double nearest to it lie in the same
    binade, ends included. *)
Lemma nearest_53_bits_range (n : Z) :
  0 < n -> 2 ^ Z.log2 n <= nearest_53_bits n <= 2 ^ (Z.log2 n + 1).
Proof.
  intros Hn. pose proof (Z.log2_spec n Hn) as [Hlo Hhi].
  pose proof (Z.log2_nonneg n) as HL.
  replace (Z.succ (Z.log2 n)) with (Z.log2 n + 1) in Hhi by lia.
  rewrite nearest_53_bits_nonneg by lia.
  destruct (Z.leb_spec (Z.log2 n - 52) 0) as [ Hs | Hs ]; [ lia | ].
  set (s := Z.log2 n - 52) in *.
  assert (Hd : 0 < 2 ^ s) by (apply Z.pow_pos_nonneg; lia).
  assert (E1 : 2 ^ Z.log2 n = 2 ^ 52 * 2 ^ s)
    by (rewrite <- Z.pow_add_r by lia; f_equal; lia).
  assert (E2 : 2 ^ (Z.log2 n + 1) = 2 ^ 53 * 2 ^ s)
    by (rewrite <- Z.pow_add_r by lia; f_equal; lia).
  rewrite E1, E2 in *.
  pose proof (round_half_even_bounds n (2 ^ s) ltac:(lia) Hd) as [Hb _].
  assert (Hq1 : 2 ^ 52 <= n / 2 ^ s)
    by (apply Z.div_le_lower_bound; lia).
  assert (Hq2 : n / 2 ^ s < 2 ^ 53)
    by (apply Z.div_lt_upper_bound; lia).
  split.
  - apply Z.mul_le_mono_nonneg_r; lia.
  - apply Z.mul_le_mono_nonneg_r; lia.
Qed.

Lemma nearest_53_bits_mono (n n' : Z) :
  0 <= n <= n' -> nearest_53_bits n <= nearest_53_bits n'.
Proof.
  intros [Hn Hle].
  destruct (Z.eq_dec n 0) as [ -> | Hpos ].
  - change (nearest_53_bits 0) with 0.
    apply (proj1 (nearest_53_bits_sign n')). lia.
  - pose proof (Z.log2_le_mono n n' Hle) as HL.
    destruct (Z.eq_dec (Z.log2 n) (Z.log2 n')) as [ Heq | Hne ].
    + rewrite !nearest_53_bits_nonneg by lia. rewrite <- Heq.
      destruct (Z.leb_spec (Z.log2 n - 52) 0) as [ Hs | Hs ]; [ lia | ].
      apply Z.mul_le_mono_nonneg_r.
      * apply Z.pow_nonneg. lia.
      * apply round_half_even_mono; [ lia | apply Z.pow_pos_nonneg; lia ].
    + pose proof (nearest_53_bits_range n ltac:(lia)) as [_ Hup].
      pose proof (nearest_53_bits_range n' ltac:(lia)) as [Hlow _].
      pose proof (Z.pow_le_mono_r 2 (Z.log2 n + 1) (Z.log2 n')
                    ltac:(lia) ltac:(lia)).
      lia.
Qed.

(** The nearest double is not below a smaller multiple of a power of two
    that its own grid contains. *)
Lemma nearest_53_bits_lower (n m j : Z) :
  0 <= n -> 0 <= m -> Z.log2 n - 52 <= j ->
  m * 2 ^ j <= n -> m * 2 ^ j <= nearest_53_bits n.
Proof.
  intros Hn Hm Hj Hle. rewrite nearest_53_bits_nonneg by exact Hn.
  destruct (Z.leb_spec (Z.log2 n - 52) 0) as [ Hs | Hs ]; [ exact Hle | ].
  set (s := Z.log2 n - 52) in *.
  assert (Hd : 0 < 2 ^ s) by (apply Z.pow_pos_nonneg; lia).
  assert (E : 2 ^ j = 2 ^ (j - s) * 2 ^ s)
    by (rewrite <- Z.pow_add_r by lia; f_equal; lia).
  rewrite E, Z.mul_assoc in *.
  pose proof (round_half_even_bounds n (2 ^ s) Hn Hd) as [Hb _].
  assert (Hq : m * 2 ^ (j - s) <= n / 2 ^ s)
    by (apply Z.div_le_lower_bound; lia).
  apply Z.mul_le_mono_nonneg_r; lia.
Qed.

(** The nearest double is above by half a step of its grid at most. *)
Lemma nearest_53_bits_upper (n t : Z) :
  0 <= n -> 0 <= t -> n < 2 ^ (53 + t) ->
  2 * nearest_53_bits n <= 2 * n + 2 ^ t.
Proof.
  intros Hn Ht Hlt. rewrite nearest_53_bits_nonneg by exact Hn.
  pose proof (Z.pow_pos_nonneg 2 t ltac:(lia) Ht) as Hpt.
  destruct (Z.leb_spec (Z.log2 n - 52) 0) as [ Hs | Hs ]; [ lia | ].
  set (s := Z.log2 n - 52) in *.
  assert (Hd : 0 < 2 ^ s) by (apply Z.pow_pos_nonneg; lia).
  assert (Hst : s <= t).
  { assert (0 < n) by (destruct (Z.eq_dec n 0) as [ -> | ]; [ cbn in Hs | ]; lia).
    pose proof (proj1 (Z.log2_lt_pow2 n (53 + t) ltac:(lia)) Hlt). lia. }
  pose proof (Z.pow_le_mono_r 2 s t ltac:(lia) Hst) as Hpow.
  pose proof (round_half_even_bounds n (2 ^ s) Hn Hd) as [_ Hb].
  rewrite (Z.mul_comm (round_half_even n (2 ^ s))). lia.
Qed.

(** *** The capacities *)

Lemma Math_floor_product_sign (x scale : Z) :
  (0 <= x -> 0 <= Math_floor_product x mantissa_of_04 scale)
  /\ (x <= 0 -> Math_floor_product x mantissa_of_04 scale <= 0).
Proof.
  unfold Math_floor_product, mantissa_of_04.
  pose proof (nearest_53_bits_sign (x * 3602879701896397)) as [Hp Hn].
  destruct (Z.leb_spec 0 scale) as [ Hs | Hs ].
  - pose proof (Z.pow_pos_nonneg 2 scale ltac:(lia) Hs) as Hd.
    split; intros Hx.
    + apply Z.div_pos; [ apply Hp | ]; lia.
    + pose proof (Z.div_le_mono _ 0 _ Hd (Hn ltac:(lia))) as Hle.
      rewrite Z.div_0_l in Hle by lia. exact Hle.
  - rewrite (Z.pow_neg_r 2 scale) by lia.
    replace (_ / 0) with 0 by (symmetry; apply Z.div_0_r). lia.
Qed.

Lemma Math_floor_product_mono (x x' scale : Z) :
  0 <= x <= x' ->
  Math_floor_product x mantissa_of_04 scale
  <= Math_floor_product x' mantissa_of_04 scale.
Proof.
  intros Hx. unfold Math_floor_product, mantissa_of_04.
  pose proof (nearest_53_bits_mono (x * 3602879701896397)
                (x' * 3602879701896397) ltac:(lia)) as Hm.
  destruct (Z.leb_spec 0 scale) as [ Hs | Hs ].
  - apply Z.div_le_mono; [ apply Z.pow_pos_nonneg; lia | exact Hm ].
  - rewrite (Z.pow_neg_r 2 scale) by lia. rewrite !Z.div_0_r. lia.
Qed.

(** Up to [2 ^ 51] the floor of the double product is the floor of the
    exact one. *)
Lemma Math_floor_product_04 (B : Z) :
  0 <= B <= 2 ^ 51 -> Math_floor_product B mantissa_of_04 53 = 4 * B / 10.
Proof.
  intros HB. unfold Math_floor_product, mantissa_of_04.
  change (2 ^ 51) with 2251799813685248 in HB.
  set (n := B * 3602879701896397).
  pose proof (Z.div_mod (4 * B) 10 ltac:(lia)) as Hdm.
  pose proof (Z.mod_pos_bound (4 * B) 10 ltac:(lia)) as Hr.
  set (q := 4 * B / 10) in *.
  assert (Hn : 0 <= n) by (unfold n; lia).
  assert (Hlt : n < 2 ^ (53 + 50))
    by (change (2 ^ (53 + 50)) with 10141204801825835211973625643008;
        unfold n; lia).
  pose proof (nearest_53_bits_upper n 50 Hn ltac:(lia) Hlt) as Hup.
  assert (Hlow : q * 2 ^ 53 <= nearest_53_bits n).
  { assert (HL : Z.log2 n < 103).
    { destruct (Z.eq_dec n 0) as [ -> | ]; [ cbn; lia | ].
      apply Z.log2_lt_pow2; lia. }
    apply nearest_53_bits_lower; [ lia | lia | lia | ].
    change (2 ^ 53) with 9007199254740992. unfold n. lia. }
  change (2 ^ 50) with 1125899906842624 in Hup.
  change (2 ^ 53) with 9007199254740992 in *.
  symmetry. apply Z.div_unique with (nearest_53_bits n - q * 9007199254740992).
  - left. unfold n in *. lia.
  - lia.
Qed.

Lemma Math_floor_product_02 (B : Z) :
  0 <= B <= 2 ^ 51 -> Math_floor_product B mantissa_of_04 54 = 2 * B / 10.
Proof.
  intros HB. unfold Math_floor_product, mantissa_of_04.
  change (2 ^ 51) with 2251799813685248 in HB.
  set (n := B * 3602879701896397).
  pose proof (Z.div_mod (2 * B) 10 ltac:(lia)) as Hdm.
  pose proof (Z.mod_pos_bound (2 * B) 10 ltac:(lia)) as Hr.
  set (q := 2 * B / 10) in *.
  assert (Hn : 0 <= n) by (unfold n; lia).
  assert (Hlt : n < 2 ^ (53 + 50))
    by (change (2 ^ (53 + 50)) with 10141204801825835211973625643008;
        unfold n; lia).
  pose proof (nearest_53_bits_upper n 50 Hn ltac:(lia) Hlt) as Hup.
  assert (Hlow : q * 2 ^ 54 <= nearest_53_bits n).
  { assert (HL : Z.log2 n < 103).
    { destruct (Z.eq_dec n 0) as [ -> | ]; [ cbn; lia | ].
      apply Z.log2_lt_pow2; lia. }
    apply nearest_53_bits_lower; [ lia | lia | lia | ].
    change (2 ^ 54) with 18014398509481984. unfold n. lia. }
  change (2 ^ 50) with 1125899906842624 in Hup.
  change (2 ^ 54) with 18014398509481984 in *.
  symmetry. apply Z.div_unique with (nearest_53_bits n - q * 18014398509481984).
  - left. unfold n in *. lia.
  - lia.
Qed.

(** ** Arithmetic of the capacities *)

Lemma capacity_generated (params : GetDataByPerspectiveParams) (l : PriorityLevel) :
  capacity (generateOptimizedGetDataByPerspectiveScript params) l
  = match l with
    | high | medium => Math_floor_product (budget params) mantissa_of_04 53
    | low => Math_floor_product (budget params) mantissa_of_04 54
    end.
Proof. destruct l; reflexivity. Qed.

(** Up to [2 ^ 51] the capacities are the floors of the exact shares. *)
Lemma capacity_exact (params : GetDataByPerspectiveParams) (l : PriorityLevel) :
  0 <= budget params <= 2 ^ 51 ->
  capacity (generateOptimizedGetDataByPerspectiveScript params) l
  = match l with
    | high | medium => 4 * budget params / 10
    | low => 2 * budget params / 10
    end.
Proof.
  intros HB. rewrite capacity_generated.
  destruct l;
    first [ apply Math_floor_product_04 | apply Math_floor_product_02 ];
    exact HB.
Qed.

Lemma capacity_sign (params : GetDataByPerspectiveParams) (l : PriorityLevel) :
  (0 <= budget params ->
   0 <= capacity (generateOptimizedGetDataByPerspectiveScript params) l)
  /\ (budget params <= 0 ->
      capacity (generateOptimizedGetDataByPerspectiveScript params) l <= 0).
Proof.
  rewrite capacity_generated. destruct l; apply Math_floor_product_sign.
Qed.

Lemma shares_within_budget (B : Z) :
  0 <= B -> 4 * B / 10 + 4 * B / 10 + 2 * B / 10 <= B.
Proof.
  intros HB.
  pose proof (Z.div_mod (4 * B) 10 ltac:(lia)).
  pose proof (Z.mod_pos_bound (4 * B) 10 ltac:(lia)).
  pose proof (Z.div_mod (2 * B) 10 ltac:(lia)).
  pose proof (Z.mod_pos_bound (2 * B) 10 ltac:(lia)).
  lia.
Qed.

Lemma room_step (cap count : Z) :
  count < cap -> room cap count = S (room cap (count + 1)).
Proof. unfold room; intros; lia. Qed.

Lemma room_none (cap count : Z) : cap <= count -> room cap count = 0%nat.
Proof. unfold room; intros; lia. Qed.

(** ** The task loop *)

Section Loop.

Variable s : Script.
Variable current_date : nat -> Z.

Lemma quota_full_spec (st : LoopState) :
  quota_full s st = true <->
  forall l, capacity s l <= counter st l.
Proof.
  unfold quota_full. rewrite !andb_true_iff, !Z.geb_le. split.
  - intros [[Hh Hm] Hl] []; assumption.
  - intros H. repeat split; [apply (H high) | apply (H medium) | apply (H low)].
Qed.

(** A full state is where the loop stops: nothing after it changes the
    state. *)
Lemma task_loop_full (i : nat) (st : LoopState) (allTasks : list Task) :
  quota_full s st = true -> task_loop s current_date i st allTasks = st.
Proof. intros Hfull. destruct allTasks; cbn; [ | rewrite Hfull ]; reflexivity. Qed.

(** The loop over a stream cut in two is the loop over the second part
    started where the loop over the first part ended. *)
Lemma task_loop_app (pre post : list Task) :
  forall (i : nat) (st : LoopState),
    task_loop s current_date i st (pre ++ post)
    = task_loop s current_date (i + List.length pre)
                (task_loop s current_date i st pre) post.
Proof.
  induction pre as [ | aTask pre IH ]; intros i st; cbn [app task_loop List.length].
  - rewrite Nat.add_0_r. reflexivity.
  - destruct (quota_full s st) eqn:Hfull.
    + symmetry. apply task_loop_full. exact Hfull.
    + rewrite IH. f_equal. lia.
Qed.

(** The effect of [collect] on each level. *)
Lemma collect_bucket (o : TaskObject) (st : LoopState) (l : PriorityLevel) :
  bucket (collect s o st) l
  = bucket st l
    ++ (if of_level l o && (counter st l <? capacity s l) then [o] else []).
Proof.
  unfold collect, of_level.
  destruct (j_priorityLevel o), l; cbn [PriorityLevel_eqb andb bucket counter capacity];
    try (symmetry; apply app_nil_r);
    match goal with |- context [?a <? ?b] => destruct (a <? b) end;
    cbn; rewrite ?app_nil_r; reflexivity.
Qed.

Lemma collect_counter (o : TaskObject) (st : LoopState) (l : PriorityLevel) :
  counter (collect s o st) l
  = counter st l
    + (if of_level l o && (counter st l <? capacity s l) then 1 else 0).
Proof.
  unfold collect, of_level.
  destruct (j_priorityLevel o), l; cbn [PriorityLevel_eqb andb bucket counter capacity];
    try lia;
    match goal with |- context [?a <? ?b] => destruct (a <? b) end;
    cbn; lia.
Qed.

Lemma collect_examined (o : TaskObject) (st : LoopState) :
  examined (collect s o st) = examined st.
Proof.
  unfold collect.
  destruct (j_priorityLevel o);
    match goal with |- context [?a <? ?b] => destruct (a <? b) end;
    reflexivity.
Qed.

Lemma loop_body_examined (i : nat) (aTask : Task) (st : LoopState) :
  examined (loop_body s current_date i aTask st) = examined st ++ [aTask].
Proof.
  unfold loop_body. destruct (candidate s current_date i aTask).
  - rewrite collect_examined. reflexivity.
  - reflexivity.
Qed.

(** Every level's list after the loop is its list before, followed by the
    first candidates of that level, as many as the level still takes;
    the level's counter grows by their number. *)
Lemma task_loop_bucket (l : PriorityLevel) (allTasks : list Task) :
  forall (i : nat) (st : LoopState),
    let taken :=
      firstn (room (capacity s l) (counter st l))
             (filter (of_level l) (candidates s current_date i allTasks)) in
    bucket (task_loop s current_date i st allTasks) l = bucket st l ++ taken
    /\ counter (task_loop s current_date i st allTasks) l
       = counter st l + Z.of_nat (List.length taken).
Proof.
  induction allTasks as [ | aTask rest IH ]; intros i st; cbn zeta.
  - cbn. rewrite firstn_nil, app_nil_r. cbn. split; [ reflexivity | lia ].
  - cbn [task_loop candidates].
    destruct (quota_full s st) eqn:Hfull.
    + apply quota_full_spec with (l := l) in Hfull.
      rewrite (room_none _ _ Hfull). cbn. rewrite app_nil_r. split; [ reflexivity | lia ].
    + specialize (IH (S i) (loop_body s current_date i aTask st)). cbn zeta in IH.
      destruct IH as [IHb IHc]. rewrite IHb, IHc. clear IHb IHc.
      unfold loop_body.
      destruct (candidate s current_date i aTask) as [ o | ].
      * rewrite collect_bucket, collect_counter. cbn [filter bucket counter note_examined].
        change (bucket (note_examined aTask st) l) with (bucket st l).
        change (counter (note_examined aTask st) l) with (counter st l).
        destruct (of_level l o); cbn [andb].
        -- destruct (counter st l <? capacity s l) eqn:Hroom.
           ++ apply Z.ltb_lt in Hroom. rewrite (room_step _ _ Hroom).
              cbn [firstn List.length]. rewrite <- app_assoc. cbn [app].
              split; [ reflexivity | lia ].
           ++ apply Z.ltb_ge in Hroom. rewrite Z.add_0_r, app_nil_r.
              rewrite (room_none _ _ Hroom). cbn. split; [ reflexivity | lia ].
        -- rewrite Z.add_0_r, app_nil_r. split; reflexivity.
      * change (bucket (note_examined aTask st) l) with (bucket st l).
        change (counter (note_examined aTask st) l) with (counter st l).
        split; reflexivity.
Qed.

End Loop.

(** ** From the loop to the output *)

Section Output.

Variable s : Script.
Variable current_date : nat -> Z.

Lemma candidate_some (i : nat) (aTask : Task) (o : TaskObject) :
  candidate s current_date i aTask = Some o <->
  shouldInclude s aTask = true
  /\ o = task_object aTask (urgency_score (current_date i) aTask)
                     (priority_level (urgency_score (current_date i) aTask)).
Proof.
  unfold candidate. destruct (shouldInclude s aTask); split.
  - intros [= <-]. auto.
  - intros [_ ->]. reflexivity.
  - discriminate.
  - intros [[=] _].
Qed.

Lemma candidates_origin (allTasks : list Task) :
  forall (i : nat) (o : TaskObject),
    In o (candidates s current_date i allTasks) ->
    exists k aTask,
      nth_error allTasks k = Some aTask
      /\ candidate s current_date (i + k) aTask = Some o.
Proof.
  induction allTasks as [ | aTask rest IH ]; intros i o Hin; cbn in Hin.
  - contradiction.
  - destruct (candidate s current_date i aTask) as [ o' | ] eqn:Hc.
    + destruct Hin as [ <- | Hin ].
      * exists 0%nat, aTask. rewrite Nat.add_0_r. auto.
      * destruct (IH _ _ Hin) as (k & t & Hk & Ht).
        exists (S k), t. rewrite Nat.add_succ_r. auto.
    + destruct (IH _ _ Hin) as (k & t & Hk & Ht).
      exists (S k), t. rewrite Nat.add_succ_r. auto.
Qed.

(** The lists and counters when the loop has run over the whole
    document. *)
Lemma final_bucket (doc : Document) (l : PriorityLevel) :
  bucket (final_state s current_date doc) l
  = firstn (Z.to_nat (capacity s l))
           (filter (of_level l)
                   (candidates s current_date 0 (doc_flattenedTasks doc))).
Proof.
  unfold final_state.
  destruct (task_loop_bucket s current_date l (doc_flattenedTasks doc)
                             0%nat initial_state) as [Hb _].
  rewrite Hb. unfold room.
  replace (counter initial_state l) with 0 by (destruct l; reflexivity).
  replace (bucket initial_state l) with (@nil TaskObject) by (destruct l; reflexivity).
  rewrite Z.sub_0_r. reflexivity.
Qed.

Lemma final_counter (doc : Document) (l : PriorityLevel) :
  counter (final_state s current_date doc) l
  = Z.of_nat (List.length (bucket (final_state s current_date doc) l)).
Proof.
  rewrite final_bucket. unfold final_state.
  destruct (task_loop_bucket s current_date l (doc_flattenedTasks doc)
                             0%nat initial_state) as [_ Hc].
  rewrite Hc. unfold room.
  replace (counter initial_state l) with 0 by (destruct l; reflexivity).
  rewrite Z.sub_0_r. reflexivity.
Qed.

Lemma final_bucket_level (doc : Document) (l : PriorityLevel) (o : TaskObject) :
  In o (bucket (final_state s current_date doc) l) -> j_priorityLevel o = l.
Proof.
  rewrite final_bucket. intros Hin.
  apply (In_nth_error) in Hin as [n Hn].
  assert (Hin : In o (filter (of_level l)
                             (candidates s current_date 0 (doc_flattenedTasks doc)))).
  { apply nth_error_In with n.
    rewrite nth_error_firstn in Hn.
    destruct (n <? Z.to_nat (capacity s l))%nat; [ exact Hn | discriminate ]. }
  apply filter_In in Hin as [_ Hl]. unfold of_level in Hl.
  destruct (j_priorityLevel o), l; (reflexivity || discriminate).
Qed.

Lemma final_bucket_candidates (doc : Document) (l : PriorityLevel) (o : TaskObject) :
  In o (bucket (final_state s current_date doc) l) ->
  In o (candidates s current_date 0 (doc_flattenedTasks doc)).
Proof.
  rewrite final_bucket. intros Hin.
  apply (In_nth_error) in Hin as [n Hn].
  rewrite nth_error_firstn in Hn.
  destruct (n <? Z.to_nat (capacity s l))%nat; [ | discriminate ].
  apply nth_error_In in Hn. apply filter_In in Hn. tauto.
Qed.

Lemma final_bucket_bound (doc : Document) (l : PriorityLevel) :
  0 <= capacity s l ->
  counter (final_state s current_date doc) l <= capacity s l.
Proof.
  intros Hcap. rewrite final_counter, final_bucket.
  pose proof (firstn_le_length (Z.to_nat (capacity s l))
    (filter (of_level l) (candidates s current_date 0 (doc_flattenedTasks doc)))).
  lia.
Qed.

Lemma final_bucket_empty (doc : Document) (l : PriorityLevel) :
  capacity s l <= 0 ->
  bucket (final_state s current_date doc) l = []
  /\ counter (final_state s current_date doc) l = 0.
Proof.
  intros Hcap. rewrite final_counter, final_bucket.
  replace (Z.to_nat (capacity s l)) with 0%nat by lia.
  split; reflexivity.
Qed.

Lemma filter_level_bucket (doc : Document) (l l' : PriorityLevel) :
  filter (of_level l) (bucket (final_state s current_date doc) l')
  = if PriorityLevel_eqb l' l then bucket (final_state s current_date doc) l'
    else [].
Proof.
  pose proof (final_bucket_level doc l') as Hlevel.
  induction (bucket (final_state s current_date doc) l') as [ | o os IH ].
  - destruct (PriorityLevel_eqb l' l); reflexivity.
  - cbn [filter]. unfold of_level at 1.
    rewrite (Hlevel o (or_introl eq_refl)).
    rewrite IH by (intros o' Ho'; apply Hlevel; right; exact Ho').
    destruct (PriorityLevel_eqb l' l); reflexivity.
Qed.

Lemma assemble_In (st : LoopState) (o : TaskObject) :
  In o (assemble s st) <-> exists l, In o (bucket st l).
Proof.
  unfold assemble. split.
  - destruct (s_prioritizeUrgent s); rewrite !in_app_iff;
      intros [ H | [ H | H ] ];
      first [ now exists high | now exists medium | now exists low ].
  - intros [ [] H ]; destruct (s_prioritizeUrgent s); rewrite !in_app_iff; cbn in H; tauto.
Qed.

(** The tasks of one level inside the assembled list are that level's
    list. *)
Lemma filter_level_assemble (doc : Document) (l : PriorityLevel) :
  filter (of_level l) (assemble s (final_state s current_date doc))
  = bucket (final_state s current_date doc) l.
Proof.
  unfold assemble.
  pose proof (filter_level_bucket doc l high) as Hh.
  pose proof (filter_level_bucket doc l medium) as Hm.
  pose proof (filter_level_bucket doc l low) as Hl.
  cbn [bucket] in Hh, Hm, Hl.
  destruct (s_prioritizeUrgent s); rewrite !filter_app, Hh, Hm, Hl;
    destruct l; cbn [PriorityLevel_eqb bucket app]; rewrite ?app_nil_r; reflexivity.
Qed.

Lemma returned_origin (doc : Document) (o : TaskObject) :
  In o (assemble s (final_state s current_date doc)) ->
  exists i aTask, object_of s current_date (doc_flattenedTasks doc) o i aTask.
Proof.
  intros Hin. apply assemble_In in Hin as [l Hin].
  apply final_bucket_candidates, candidates_origin in Hin
    as (k & aTask & Hk & Hc).
  apply candidate_some in Hc as [Hinc Ho].
  exists k, aTask. unfold object_of. auto.
Qed.

Lemma project_loop_map (allProjects : list Project) :
  project_loop allProjects = map project_object allProjects.
Proof.
  unfold project_loop.
  enough (H : forall acc,
             fold_left (fun visibleProjects aProject =>
                          visibleProjects ++ [project_object aProject])
                       allProjects acc
             = acc ++ map project_object allProjects) by apply (H []).
  induction allProjects as [ | aProject rest IH ]; intros acc; cbn.
  - symmetry. apply app_nil_r.
  - rewrite IH, <- app_assoc. reflexivity.
Qed.

Lemma run_script_success (doc : Document) (perspective : string)
    (tasks : list TaskObject) (projects : list ProjectObject) (stats : Stats) :
  run_script s current_date doc = OutputSuccess perspective tasks projects stats ->
  tasks = assemble s (final_state s current_date doc)
  /\ projects = map project_object (doc_flattenedProjects doc)
  /\ stats = make_stats s (final_state s current_date doc).
Proof.
  unfold run_script. destruct (set_perspective s doc); [ discriminate | ].
  intros [= _ <- <- <-]. rewrite project_loop_map. auto.
Qed.

End Output.

(** ** The predicate pipeline *)

Lemma shouldInclude_true (s : Script) (aTask : Task) :
  shouldInclude s aTask = true <->
  filter_projectName s aTask = true
  /\ filter_flaggedOnly s aTask = true
  /\ filter_minEstimatedMinutes s aTask = true
  /\ filter_maxEstimatedMinutes s aTask = true
  /\ filter_withDueDate s aTask = true
  /\ filter_hideCompleted s aTask = true.
Proof.
  unfold shouldInclude, filter_task.
  destruct (filter_projectName s aTask), (filter_flaggedOnly s aTask),
    (filter_minEstimatedMinutes s aTask), (filter_maxEstimatedMinutes s aTask),
    (filter_withDueDate s aTask), (filter_hideCompleted s aTask);
    cbn; intuition discriminate.
Qed.

(** The rule that rejects is the first one, in the order of the table,
    whose block turns [shouldInclude] off; the tag rule never rejects. *)
Lemma filter_task_never_tags (s : Script) (aTask : Task) :
  filter_task s aTask <> Some rule_withTags.
Proof.
  unfold filter_task.
  repeat match goal with
         | |- context [if negb ?b then _ else _] => destruct b; cbn [negb]
         end; discriminate.
Qed.

(** X25: the rules are tried in the order of the table, and the task
    leaves at the first block that fails: a rule rejects the task
    exactly when its block fails and the blocks of all the rules before
    it in the table pass.  No block stands for the tag rule, which
    therefore never rejects. *)
Lemma filter_task_first_failure (s : Script) (aTask : Task) (r : FilterName) :
  filter_task s aTask = Some r <->
  block s r aTask = false
  /\ forall r', rule_order r' < rule_order r -> block s r' aTask = true.
Proof.
  unfold filter_task. split.
  - intros H. split.
    + destruct r; cbn [block];
        repeat match type of H with
               | context [if negb ?b then _ else _] =>
                   destruct b eqn:?; cbn [negb] in H
               end; congruence.
    + intros r' Hlt.
      destruct r, r'; cbn in Hlt; try lia; cbn [block]; try reflexivity;
        repeat match type of H with
               | context [if negb ?b then _ else _] =>
                   destruct b eqn:?; cbn [negb] in H
               end; congruence.
  - intros [Hr Hbefore].
    pose proof (Hbefore rule_projectName) as H1.
    pose proof (Hbefore rule_flaggedOnly) as H2.
    pose proof (Hbefore rule_minEstimatedMinutes) as H3.
    pose proof (Hbefore rule_maxEstimatedMinutes) as H4.
    pose proof (Hbefore rule_withDueDate) as H5.
    pose proof (Hbefore rule_hideCompleted) as H6.
    clear Hbefore.
    destruct r; cbn [block] in *; cbn in H1, H2, H3, H4, H5, H6;
      try discriminate;
      repeat match goal with
             | H : ?a < ?b -> _ |- _ =>
                 first [ specialize (H ltac:(lia)) | clear H ]
             end;
      repeat match goal with
             | H : _ = _ |- _ => rewrite H
             end; reflexivity.
Qed.

Lemma emitted_bound_some (bound : option Z) (b : Z) :
  emitted_bound bound = Some b <-> bound = Some b /\ b <> 0.
Proof.
  unfold emitted_bound, truthy_number. destruct bound as [ v | ].
  - destruct (Z.eqb_spec v 0) as [ -> | Hv ]; cbn; split.
    + discriminate.
    + intros [[= <-] H]. contradiction.
    + intros [= <-]. auto.
    + intros [H _]. exact H.
  - split; [ discriminate | intros [[=] _] ].
Qed.

Lemma code_points_eqb_refl (l : list Z) : code_points_eqb l l = true.
Proof.
  induction l as [ | x l IH ]; [ reflexivity | ].
  cbn [code_points_eqb]. rewrite Z.eqb_refl. exact IH.
Qed.

Lemma code_points_eqb_sym (l l' : list Z) :
  code_points_eqb l l' = code_points_eqb l' l.
Proof.
  revert l'. induction l as [ | x l IH ]; intros [ | y l' ];
    cbn [code_points_eqb]; try reflexivity.
  rewrite (Z.eqb_sym x y), IH. reflexivity.
Qed.

Lemma text_is_refl (a : string) : text_is a a = true.
Proof. apply code_points_eqb_refl. Qed.

Lemma text_is_sym (a b : string) : text_is a b = text_is b a.
Proof. apply code_points_eqb_sym. Qed.

Lemma utf8_decode_nonempty (c : ascii) (rest : string) :
  utf8_decode (String c rest) <> [].
Proof.
  cbn [utf8_decode].
  repeat match goal with
         | |- context [ if ?b then _ else _ ] => destruct b
         | |- context [ match ?r with EmptyString => _ | String _ _ => _ end ] =>
             destruct r
         end;
    discriminate.
Qed.

(** Only the empty text is the empty text. *)
Lemma text_is_empty (w : string) : text_is w "" = true <-> w = "".
Proof.
  split; [ | intros ->; reflexivity ].
  destruct w as [ | c rest ]; [ reflexivity | ].
  unfold text_is. pose proof (utf8_decode_nonempty c rest) as Hne.
  destruct (utf8_decode (String c rest)); [ contradiction | discriminate ].
Qed.

Lemma shouldInclude_applied_rules (params : GetDataByPerspectiveParams)
    (aTask : Task) :
  shouldInclude (generateOptimizedGetDataByPerspectiveScript params) aTask = true ->
  satisfies_applied_rules params aTask.
Proof.
  intros H. apply shouldInclude_true in H as (Hp & Hf & Hmin & Hmax & Hd & Hc).
  unfold filter_projectName, filter_flaggedOnly, filter_minEstimatedMinutes,
    filter_maxEstimatedMinutes, filter_withDueDate, filter_hideCompleted,
    generateOptimizedGetDataByPerspectiveScript in *.
  cbn [s_projectName s_flaggedOnly s_minEstimatedMinutes s_maxEstimatedMinutes
       s_withDueDate s_hideCompleted] in *.
  split.
  - intros wanted Hw Hne. rewrite Hw in Hp. cbn [with_default] in Hp.
    destruct (text_is wanted "") eqn:He.
    + apply text_is_empty in He. contradiction.
    + cbn [negb] in Hp.
      destruct (task_containingProject aTask) as [ taskProjectName | | ];
        try discriminate.
      exists taskProjectName. split; [ reflexivity | exact Hp ].
  - intros Hfl. rewrite Hfl in Hf. exact Hf.
  - intros bound Hb Hne.
    rewrite (proj2 (emitted_bound_some _ bound) (conj Hb Hne)) in Hmin.
    destruct (task_estimatedMinutes aTask) as [ minutes | | ]; try discriminate.
    exists minutes. split; [ reflexivity | ].
    apply negb_true_iff, Z.ltb_ge in Hmin. exact Hmin.
  - intros bound Hb Hne minutes Hm.
    rewrite (proj2 (emitted_bound_some _ bound) (conj Hb Hne)), Hm in Hmax.
    apply negb_true_iff in Hmax. rewrite Z.gtb_ltb in Hmax.
    apply Z.ltb_ge in Hmax. exact Hmax.
  - intros wanted Hw. rewrite Hw in Hd.
    destruct (task_dueDate aTask) as [ d | | ]; cbn in Hd; subst; split;
      solve [ reflexivity | eauto | intros [d' [=]] | discriminate
            | intros H; apply negb_true_iff in Hd; congruence ].
  - intros Hh.
    destruct (hideCompleted params) as [ [] | ]; cbn [with_default] in Hc;
      try congruence;
      apply negb_true_iff, orb_false_iff in Hc; exact Hc.
Qed.

(** ** Filtering of the returned tasks *)

(** C1: the script has no block for the tag rule, which the table
    [FILTER_SELECTIVITY] lists with order 6.  With [withTags = ["work"]]
    the rule is enabled and a task that carries no tag fails it, yet the
    script returns that task; no rule of the pipeline ever rejects a
    task for its tags; so the statement that every returned task
    satisfies every enabled rule of the table fails. *)
Theorem untagged_task_is_returned :
  let params := with_tags ["work"] (criteria "Inbox") in
  let doc := a_document [bare_task "b1"] [] in
  rule_order rule_withTags = 6
  /\ rule_enabled params rule_withTags = true
  /\ rule_holds params rule_withTags (bare_task "b1") = false
  /\ run_script (generateOptimizedGetDataByPerspectiveScript params) noon doc
     = OutputSuccess "Inbox" [task_object (bare_task "b1") 0 low] []
         {| highPriority := 0; mediumPriority := 0; lowPriority := 1;
            totalFiltered := 1; stats_maxResults := 500 |}
  /\ (forall criteria aTask,
         filter_task (generateOptimizedGetDataByPerspectiveScript criteria) aTask
         <> Some rule_withTags)
  /\ ~ returned_tasks_satisfy_rule_table.
Proof.
  cbn zeta.
  split; [ reflexivity | split; [ reflexivity | split; [ reflexivity | ] ] ].
  split; [ reflexivity | split ].
  - intros criteria aTask. apply filter_task_never_tags.
  - intros claim.
    pose (params := with_tags ["work"] (criteria "Inbox")).
    pose (doc := a_document [bare_task "b1"] []).
    pose (o := task_object (bare_task "b1") 0 low).
    assert (Hrun : run_script (generateOptimizedGetDataByPerspectiveScript params)
                              noon doc
                   = OutputSuccess "Inbox" [o] []
                       {| highPriority := 0; mediumPriority := 0;
                          lowPriority := 1; totalFiltered := 1;
                          stats_maxResults := 500 |})
      by reflexivity.
    destruct (claim _ _ _ _ _ _ _ o Hrun (or_introl eq_refl))
      as (i & aTask & (Hnth & _ & _) & Hrules).
    destruct i as [ | [ | i ] ];
      cbn [nth_error doc_flattenedTasks doc a_document] in Hnth;
      try discriminate Hnth.
    injection Hnth as <-.
    specialize (Hrules rule_withTags eq_refl). discriminate Hrules.
Qed.

(** ** Missing values *)

(** C4, as amended: a task that lacks the value a rule reads is rejected
    at the project-name rule (no containing project while a non-empty
    project name is given), at the minimum-estimate rule (no estimate
    while a non-zero minimum is set) and at the due-date rule (no due
    date while one is required); the maximum-estimate rule does not
    reject a task without an estimate. *)
Theorem missing_values_in_the_pipeline
    (params : GetDataByPerspectiveParams) (aTask : Task) :
  let s := generateOptimizedGetDataByPerspectiveScript params in
  (forall wanted,
      projectName params = Some wanted -> wanted <> "" ->
      reading_value (task_containingProject aTask) = None ->
      filter_task s aTask = Some rule_projectName)
  /\ (forall bound,
         minEstimatedMinutes params = Some bound -> bound <> 0 ->
         reading_value (task_estimatedMinutes aTask) = None ->
         filter_minEstimatedMinutes s aTask = false
         /\ shouldInclude s aTask = false
         /\ (filter_projectName s aTask = true ->
             filter_flaggedOnly s aTask = true ->
             filter_task s aTask = Some rule_minEstimatedMinutes))
  /\ (withDueDate params = Some true ->
      reading_value (task_dueDate aTask) = None ->
      filter_withDueDate s aTask = false /\ shouldInclude s aTask = false)
  /\ (reading_value (task_estimatedMinutes aTask) = None ->
      filter_maxEstimatedMinutes s aTask = true).
Proof.
  cbn zeta. split; [ | split; [ | split ] ].
  - intros wanted Hw Hne Hmiss.
    unfold filter_task, filter_projectName,
      generateOptimizedGetDataByPerspectiveScript.
    cbn [s_projectName]. rewrite Hw. cbn [with_default].
    destruct (text_is wanted "") eqn:He;
      [ apply text_is_empty in He; contradiction | ].
    destruct (task_containingProject aTask); [ discriminate | | ]; reflexivity.
  - intros bound Hb Hne Hmiss.
    assert (Hmin : filter_minEstimatedMinutes
                     (generateOptimizedGetDataByPerspectiveScript params) aTask
                   = false).
    { unfold filter_minEstimatedMinutes,
        generateOptimizedGetDataByPerspectiveScript.
      cbn [s_minEstimatedMinutes].
      rewrite (proj2 (emitted_bound_some _ bound) (conj Hb Hne)).
      destruct (task_estimatedMinutes aTask); [ discriminate | | ]; reflexivity. }
    split; [ exact Hmin | split ].
    + destruct (shouldInclude _ aTask) eqn:Hinc; [ | reflexivity ].
      apply shouldInclude_true in Hinc. rewrite Hmin in Hinc.
      destruct Hinc as (_ & _ & [=] & _).
    + intros Hp Hf. unfold filter_task. rewrite Hp, Hf, Hmin. reflexivity.
  - intros Hd Hmiss.
    assert (Hdue : filter_withDueDate
                     (generateOptimizedGetDataByPerspectiveScript params) aTask
                   = false).
    { unfold filter_withDueDate, generateOptimizedGetDataByPerspectiveScript.
      cbn [s_withDueDate]. rewrite Hd.
      destruct (task_dueDate aTask); [ discriminate | | ]; reflexivity. }
    split; [ exact Hdue | ].
    destruct (shouldInclude _ aTask) eqn:Hinc; [ | reflexivity ].
    apply shouldInclude_true in Hinc. rewrite Hdue in Hinc.
    destruct Hinc as (_ & _ & _ & _ & [=] & _).
  - intros Hmiss. unfold filter_maxEstimatedMinutes.
    destruct (s_maxEstimatedMinutes _); [ | reflexivity ].
    destruct (task_estimatedMinutes aTask); [ discriminate | | ]; reflexivity.
Qed.

Lemma missing_values_in_the_pipeline_witness :
  let params := with_bounds (Some 30) None (criteria "Inbox") in
  let s := generateOptimizedGetDataByPerspectiveScript params in
  filter_minEstimatedMinutes s (bare_task "b1") = false
  /\ shouldInclude s (bare_task "b1") = false
  /\ (filter_projectName s (bare_task "b1") = true ->
      filter_flaggedOnly s (bare_task "b1") = true ->
      filter_task s (bare_task "b1") = Some rule_minEstimatedMinutes).
Proof.
  intros params s.
  apply (proj1 (proj2 (missing_values_in_the_pipeline params (bare_task "b1")))
               30 eq_refl).
  - discriminate.
  - reflexivity.
Defined.

(** C4, as stated, fails: with only a maximum set, a task without an
    estimate passes the pipeline. *)
Lemma missing_estimate_passes_the_maximum : ~ missing_estimate_is_rejected.
Proof.
  intros claim.
  specialize (claim (with_bounds None (Some 30) (criteria "Inbox"))
                    (bare_task "b1") eq_refl (or_intror eq_refl)).
  discriminate claim.
Qed.

(** ** Quotas *)

(** C2, as amended: for a budget [0 <= B <= 2 ^ 51], the capacities the
    script carries are [floor (B * 0.4)], [floor (B * 0.4)] and
    [floor (B * 0.2)], and they sum to at most [B]; the counters reported
    for the three levels are at most these capacities; each counter is
    the number of returned tasks of its level; and the returned tasks
    are at most [B]. *)
Theorem quota_bounds
    (params : GetDataByPerspectiveParams) (current_date : nat -> Z)
    (doc : Document) (perspective : string) (tasks : list TaskObject)
    (projects : list ProjectObject) (stats : Stats) :
  0 <= budget params <= 2 ^ 51 ->
  run_script (generateOptimizedGetDataByPerspectiveScript params)
             current_date doc
  = OutputSuccess perspective tasks projects stats ->
  let B := budget params in
  let s := generateOptimizedGetDataByPerspectiveScript params in
  (maxHighPriority s = Qfloor (inject_Z B * 0.4)
   /\ maxMediumPriority s = Qfloor (inject_Z B * 0.4)
   /\ maxLowPriority s = Qfloor (inject_Z B * 0.2))
  /\ (highPriority stats <= Qfloor (inject_Z B * 0.4)
      /\ mediumPriority stats <= Qfloor (inject_Z B * 0.4)
      /\ lowPriority stats <= Qfloor (inject_Z B * 0.2))
  /\ (highPriority stats = Z.of_nat (List.length (filter (of_level high) tasks))
      /\ mediumPriority stats = Z.of_nat (List.length (filter (of_level medium) tasks))
      /\ lowPriority stats = Z.of_nat (List.length (filter (of_level low) tasks)))
  /\ maxHighPriority s + maxMediumPriority s + maxLowPriority s <= B
  /\ totalFiltered stats = Z.of_nat (List.length tasks)
  /\ Z.of_nat (List.length tasks) <= B.
Proof.
  intros HB Hrun. cbn zeta.
  apply run_script_success in Hrun as (-> & _ & ->).
  set (s := generateOptimizedGetDataByPerspectiveScript params).
  set (st := final_state s current_date doc).
  rewrite floor_share_04, floor_share_02.
  pose proof (fun l => capacity_exact params l HB) as Hcap. fold s in Hcap.
  pose proof (Hcap high) as Eh. pose proof (Hcap medium) as Em.
  pose proof (Hcap low) as El. cbn [capacity] in Eh, Em, El.
  assert (Hnonneg : forall l, 0 <= capacity s l).
  { intros l. rewrite Hcap.
    destruct l; apply Z.div_pos; lia. }
  pose proof (fun l => final_bucket_bound s current_date doc l (Hnonneg l)) as Hle.
  pose proof (final_counter s current_date doc) as Hcount.
  pose proof (filter_level_assemble s current_date doc) as Hfilter.
  pose proof (shares_within_budget _ (proj1 HB)) as Hsum.
  fold st in Hle, Hcount, Hfilter.
  pose proof (Hle high) as Hh. pose proof (Hle medium) as Hm.
  pose proof (Hle low) as Hl.
  rewrite Hcap in Hh, Hm, Hl. cbn [counter] in Hh, Hm, Hl.
  assert (Hlen : Z.of_nat (List.length (assemble s st))
                 = highCount st + mediumCount st + lowCount st).
  { pose proof (Hcount high) as Ch. pose proof (Hcount medium) as Cm.
    pose proof (Hcount low) as Cl. cbn [counter bucket] in Ch, Cm, Cl.
    unfold assemble. destruct (s_prioritizeUrgent s);
      rewrite !length_app; lia. }
  cbn [make_stats highPriority mediumPriority lowPriority totalFiltered].
  rewrite !Hfilter. cbn [bucket].
  repeat split; try assumption;
    try (apply (Hcount high)); try (apply (Hcount medium));
    try (apply (Hcount low)); lia.
Qed.

Lemma quota_bounds_witness :
  let params := with_budget 10 (criteria "Inbox") in
  let s := generateOptimizedGetDataByPerspectiveScript params in
  let st := final_state s noon scenario_document in
  (maxHighPriority s = 4 /\ maxMediumPriority s = 4 /\ maxLowPriority s = 2)
  /\ (highCount st <= 4 /\ mediumCount st <= 4 /\ lowCount st <= 2)
  /\ (highCount st = 3 /\ mediumCount st = 4 /\ lowCount st = 2)
  /\ maxHighPriority s + maxMediumPriority s + maxLowPriority s <= 10
  /\ highCount st + mediumCount st + lowCount st = 9
  /\ 9 <= 10.
Proof.
  intros params s st.
  refine (quota_bounds params noon scenario_document "Inbox"
            (assemble s st) [] (make_stats s st) _ eq_refl).
  split; discriminate.
Defined.

Lemma candidates_repeat (s : Script) (current_date : nat -> Z)
    (aTask : Task) (taskInfo : TaskObject) (n i : nat) :
  (forall j, candidate s current_date j aTask = Some taskInfo) ->
  candidates s current_date i (repeat aTask n) = repeat taskInfo n.
Proof.
  intros Hc. revert i. induction n as [ | n IH ]; intros i; [ reflexivity | ].
  cbn [repeat candidates]. rewrite Hc, IH. reflexivity.
Qed.

Lemma filter_repeat {X : Type} (keep : X -> bool) (x : X) (n : nat) :
  keep x = true -> filter keep (repeat x n) = repeat x n.
Proof.
  intros Hk. induction n as [ | n IH ]; [ reflexivity | ].
  cbn [repeat filter]. rewrite Hk, IH. reflexivity.
Qed.

(** On a document of [n] flagged overdue tasks the high counter is the
    smaller of the capacity and [n]. *)
Lemma high_counter_on_overdue_tasks (B : Z) (n : nat) :
  let params := with_budget B (criteria "Inbox") in
  let s := generateOptimizedGetDataByPerspectiveScript params in
  let doc := a_document (repeat (overdue_task "t") n) [] in
  exists tasks projects stats,
    run_script s noon doc = OutputSuccess "Inbox" tasks projects stats
    /\ highPriority stats = Z.of_nat (Nat.min (Z.to_nat (capacity s high)) n).
Proof.
  intros params s doc.
  exists (assemble s (final_state s noon doc)), (project_loop []),
    (make_stats s (final_state s noon doc)).
  split; [ reflexivity | ].
  cbn [make_stats highPriority].
  pose proof (final_counter s noon doc high) as Hcount.
  rewrite (final_bucket s noon doc high) in Hcount.
  cbn [counter] in Hcount. rewrite Hcount.
  assert (Hcands : candidates s noon 0 (doc_flattenedTasks doc)
                   = repeat (task_object (overdue_task "t") 300 high) n).
  { apply candidates_repeat. intros j. reflexivity. }
  rewrite Hcands, filter_repeat by reflexivity.
  rewrite length_firstn, repeat_length. reflexivity.
Qed.

Lemma share_exceeded (B N : Z) :
  0 <= B -> 0 <= N ->
  capacity (generateOptimizedGetDataByPerspectiveScript
              (with_budget B (criteria "Inbox"))) high = N ->
  4 * B / 10 < N ->
  ~ quotas_hold_for_every_budget.
Proof.
  intros HB HN Hcap Hlt claim.
  destruct (high_counter_on_overdue_tasks B (Z.to_nat N))
    as (tasks & projects & stats & Hrun & Hhigh).
  destruct (claim (with_budget B (criteria "Inbox")) _ _ _ _ _ _ HB Hrun)
    as (Hle & _).
  cbn zeta in Hle. rewrite floor_share_04 in Hle.
  rewrite Hhigh, Hcap, Nat.min_id, Z2Nat.id in Hle by exact HN.
  change (budget (with_budget B (criteria "Inbox"))) with B in Hle.
  lia.
Qed.

(** The capacities at the budget [2 ^ 53 - 3]: one more than the floors
    of the exact shares for the high and the medium level, and one more
    than the budget in all. *)
Lemma capacities_at_a_large_budget :
  let B := 2 ^ 53 - 3 in
  let s := generateOptimizedGetDataByPerspectiveScript
             (with_budget B (criteria "Inbox")) in
  (maxHighPriority s = 3602879701896396
   /\ maxMediumPriority s = 3602879701896396
   /\ maxLowPriority s = 1801439850948198)
  /\ (4 * B / 10 = 3602879701896395 /\ 2 * B / 10 = 1801439850948197)
  /\ maxHighPriority s + maxMediumPriority s + maxLowPriority s = B + 1.
Proof. vm_compute. repeat split. Qed.

(** C2, as stated, fails: the capacities are floors of double products.
    At the budget [2 ^ 53 - 3] the script carries the capacity
    3602879701896396 for the high level, one more than the floor of the
    exact share, and on a document with that many flagged overdue tasks
    the high counter reaches it. *)
Lemma quotas_exceeded_at_a_large_budget : ~ quotas_hold_for_every_budget.
Proof.
  apply (share_exceeded (2 ^ 53 - 3) 3602879701896396).
  - discriminate.
  - discriminate.
  - apply capacities_at_a_large_budget.
  - vm_compute. reflexivity.
Qed.

(** ** Early termination *)

Lemma task_loop_examined (s : Script) (current_date : nat -> Z)
    (allTasks : list Task) :
  forall (i : nat) (st : LoopState),
  exists k,
    (k <= List.length allTasks)%nat
    /\ examined (task_loop s current_date i st allTasks)
       = examined st ++ firstn k allTasks.
Proof.
  induction allTasks as [ | aTask rest IH ]; intros i st; cbn [task_loop].
  - exists 0%nat. cbn. rewrite app_nil_r. auto.
  - destruct (quota_full s st).
    + exists 0%nat. cbn. rewrite app_nil_r. split; [ lia | reflexivity ].
    + destruct (IH (S i) (loop_body s current_date i aTask st)) as (k & Hk & He).
      exists (S k). rewrite He, loop_body_examined, <- app_assoc. cbn.
      split; [ lia | reflexivity ].
Qed.

(** C3: the tasks the filters are applied to are a prefix of the stream,
    so at most [N] of them; and when the three counters have reached
    their capacities after a part [pre] of the stream, the scan of the
    whole stream ends in the same state as the scan of [pre] and has
    examined tasks of [pre] only, whatever follows [pre]. *)
Theorem early_termination (s : Script) (current_date : nat -> Z)
    (allTasks : list Task) :
  let scan := task_loop s current_date 0 initial_state in
  (exists k, (k <= List.length allTasks)%nat
             /\ examined (scan allTasks) = firstn k allTasks)
  /\ (forall pre post,
         allTasks = pre ++ post ->
         (forall l, capacity s l <= counter (scan pre) l) ->
         scan allTasks = scan pre
         /\ exists k, (k <= List.length pre)%nat
                      /\ examined (scan allTasks) = firstn k allTasks).
Proof.
  cbn zeta. split.
  - apply (task_loop_examined s current_date allTasks 0%nat initial_state).
  - intros pre post -> Hfull. apply quota_full_spec in Hfull.
    rewrite task_loop_app, (task_loop_full _ _ _ _ _ Hfull).
    split; [ reflexivity | ].
    destruct (task_loop_examined s current_date pre 0%nat initial_state)
      as (k & Hk & He).
    exists k. split; [ exact Hk | ].
    rewrite He, firstn_app. cbn [examined initial_state app].
    replace (k - List.length pre)%nat with 0%nat by lia.
    cbn. rewrite app_nil_r. reflexivity.
Qed.

Lemma early_termination_witness :
  let s := generateOptimizedGetDataByPerspectiveScript
             (with_budget 5 (criteria "Inbox")) in
  let scan := task_loop s noon 0 initial_state in
  scan scenario_tasks = scan (firstn 9 scenario_tasks)
  /\ exists k, (k <= 9)%nat /\ examined (scan scenario_tasks) = firstn k scenario_tasks.
Proof.
  intros s scan.
  apply (proj2 (early_termination s noon scenario_tasks)
               (firstn 9 scenario_tasks) (skipn 9 scenario_tasks)).
  - reflexivity.
  - intros []; vm_compute; discriminate.
Defined.

(** ** The urgency score *)

Lemma Qltb_days (x k : Z) :
  Qltb (inject_Z x / inject_Z days) (inject_Z k) = (x <? k * days).
Proof.
  unfold Qltb. rewrite Z.ltb_antisym. f_equal.
  unfold Qle_bool, Qdiv, Qmult, Qinv, inject_Z, days.
  cbn [Qnum Qden]. rewrite Pos.mul_1_l, !Z.mul_1_r. reflexivity.
Qed.

Lemma score_dueDate_points (currentDate : Z) (aTask : Task) :
  score_dueDate currentDate aTask
  = due_points currentDate (reading_value (task_dueDate aTask)).
Proof.
  unfold score_dueDate, due_points.
  destruct (task_dueDate aTask) as [ d | | ]; cbn [reading_value];
    try reflexivity.
  cbn zeta. rewrite !Qltb_days. reflexivity.
Qed.

Lemma urgency_score_points (currentDate : Z) (aTask : Task) :
  urgency_score currentDate aTask
  = flagged_points (task_flagged aTask)
    + due_points currentDate (reading_value (task_dueDate aTask))
    + duration_points (reading_value (task_estimatedMinutes aTask)).
Proof.
  unfold urgency_score. rewrite score_dueDate_points.
  unfold score_flagged, flagged_points, score_estimatedMinutes, duration_points.
  destruct (task_estimatedMinutes aTask); cbn [reading_value]; lia.
Qed.

Lemma getPriorityLevel_priority_level (urgencyScore : Z) :
  getPriorityLevel urgencyScore = priority_level urgencyScore.
Proof. reflexivity. Qed.

(** The unused [calculateUrgencyScore] draws the due-date bands
    elsewhere: a flagged task half a day overdue scores 300 in the
    script and 250 there. *)
Lemma calculateUrgencyScore_differs :
  let aTask := a_task "late" true MissingValue (Got (1000000 - 43200)) in
  let score := urgency_score 1000000 aTask in
  score = 300
  /\ calculateUrgencyScore (1000 * 1000000)
       (task_of_object (task_object aTask score (priority_level score))) = 250.
Proof. split; reflexivity. Qed.

(** C5: the score of every returned task is the sum of three
    contributions: 100 when flagged; one band for the time to the due
    date (negative 200, under one day 150, under two days 100, under
    eight days 50, otherwise or without due date 0); and one for the
    estimate (at most 15 minutes 30, at most 30 minutes 20, at most 60
    minutes 10, otherwise or without estimate 0).  It is a function of
    the object's own [flagged], [dueDate] and [estimatedMinutes] and of
    the current time only. *)
Theorem urgency_score_contributions
    (params : GetDataByPerspectiveParams) (current_date : nat -> Z)
    (doc : Document) (perspective : string) (tasks : list TaskObject)
    (projects : list ProjectObject) (stats : Stats) (o : TaskObject) :
  run_script (generateOptimizedGetDataByPerspectiveScript params)
             current_date doc
  = OutputSuccess perspective tasks projects stats ->
  In o tasks ->
  exists i aTask,
    object_of (generateOptimizedGetDataByPerspectiveScript params)
              current_date (doc_flattenedTasks doc) o i aTask
    /\ j_urgencyScore o
       = flagged_points (task_flagged aTask)
         + due_points (current_date i) (reading_value (task_dueDate aTask))
         + duration_points (reading_value (task_estimatedMinutes aTask))
    /\ j_urgencyScore o
       = flagged_points (j_flagged o)
         + due_points (current_date i) (j_dueDate o)
         + duration_points (j_estimatedMinutes o).
Proof.
  intros Hrun Hin. apply run_script_success in Hrun as (-> & _ & _).
  apply returned_origin in Hin as (i & aTask & Hobj).
  exists i, aTask. split; [ exact Hobj | ].
  destruct Hobj as (_ & _ & ->). cbn [task_object j_urgencyScore j_flagged
    j_dueDate j_estimatedMinutes].
  split; apply urgency_score_points.
Qed.

Lemma urgency_score_contributions_witness :
  let s := generateOptimizedGetDataByPerspectiveScript
             (with_budget 10 (criteria "Inbox")) in
  let o := task_object (overdue_task "o1") 300 high in
  exists i aTask,
    object_of s noon scenario_tasks o i aTask
    /\ 300 = flagged_points (task_flagged aTask)
             + due_points (noon i) (reading_value (task_dueDate aTask))
             + duration_points (reading_value (task_estimatedMinutes aTask))
    /\ 300 = flagged_points true
             + due_points (noon i) (Some (1000000 - 3600))
             + duration_points None.
Proof.
  intros s o.
  refine (urgency_score_contributions
            (with_budget 10 (criteria "Inbox")) noon scenario_document "Inbox"
            (assemble s (final_state s noon scenario_document)) []
            (make_stats s (final_state s noon scenario_document)) o eq_refl _).
  vm_compute. left. reflexivity.
Defined.

(** ** Tier order *)

Lemma nth_error_three {A : Type} (xs ys zs : list A) (i : nat) (a : A) :
  nth_error (xs ++ ys ++ zs) i = Some a ->
  ((i < List.length xs)%nat /\ In a xs)
  \/ ((List.length xs <= i < List.length xs + List.length ys)%nat /\ In a ys)
  \/ ((List.length xs + List.length ys <= i)%nat /\ In a zs).
Proof.
  intros H.
  destruct (Nat.lt_ge_cases i (List.length xs)) as [ Hx | Hx ].
  - rewrite nth_error_app1 in H by exact Hx.
    left. split; [ exact Hx | eapply nth_error_In; exact H ].
  - rewrite nth_error_app2 in H by exact Hx. right.
    destruct (Nat.lt_ge_cases (i - List.length xs) (List.length ys)) as [ Hy | Hy ].
    + rewrite nth_error_app1 in H by exact Hy.
      left. split; [ lia | eapply nth_error_In; exact H ].
    + rewrite nth_error_app2 in H by exact Hy.
      right. split; [ lia | eapply nth_error_In; exact H ].
Qed.

(** C6: the returned list is the three levels' lists concatenated, high
    then medium then low when urgent tasks come first, and low then
    medium then high otherwise; so a task of a level that comes earlier
    in that order stands before every task of a level that comes later.
    The tasks of one level are, in the order of the scan, the first
    candidates of that level up to the level's capacity. *)
Theorem tier_order
    (params : GetDataByPerspectiveParams) (current_date : nat -> Z)
    (doc : Document) (perspective : string) (tasks : list TaskObject)
    (projects : list ProjectObject) (stats : Stats) :
  run_script (generateOptimizedGetDataByPerspectiveScript params)
             current_date doc
  = OutputSuccess perspective tasks projects stats ->
  let s := generateOptimizedGetDataByPerspectiveScript params in
  let urgentFirst := with_default true (prioritizeUrgent params) in
  let tier l := filter (of_level l) tasks in
  tasks = (if urgentFirst then tier high ++ tier medium ++ tier low
           else tier low ++ tier medium ++ tier high)
  /\ (forall i j a b,
         nth_error tasks i = Some a -> nth_error tasks j = Some b ->
         (tier_rank urgentFirst (j_priorityLevel a)
          < tier_rank urgentFirst (j_priorityLevel b))%nat ->
         (i < j)%nat)
  /\ (forall l,
         tier l
         = firstn (Z.to_nat (capacity s l))
                  (filter (of_level l)
                          (candidates s current_date 0 (doc_flattenedTasks doc)))).
Proof.
  intros Hrun. cbn zeta.
  apply run_script_success in Hrun as (-> & _ & _).
  set (s := generateOptimizedGetDataByPerspectiveScript params).
  set (st := final_state s current_date doc).
  pose proof (filter_level_assemble s current_date doc) as Hfilter.
  pose proof (final_bucket_level s current_date doc) as Hlevel.
  fold st in Hfilter, Hlevel.
  assert (Hshape : assemble s st
                   = if with_default true (prioritizeUrgent params)
                     then bucket st high ++ bucket st medium ++ bucket st low
                     else bucket st low ++ bucket st medium ++ bucket st high)
    by reflexivity.
  split; [ | split ].
  - rewrite !Hfilter. exact Hshape.
  - intros i j a b Ha Hb Hrank. rewrite Hshape in Ha, Hb.
    destruct (with_default true (prioritizeUrgent params));
      apply nth_error_three in Ha, Hb;
      destruct Ha as [ [Hi Ha] | [ [Hi Ha] | [Hi Ha] ] ];
      destruct Hb as [ [Hj Hb] | [ [Hj Hb] | [Hj Hb] ] ];
      apply Hlevel in Ha, Hb; rewrite Ha, Hb in Hrank; cbn in Hrank; lia.
  - intros l. rewrite Hfilter. apply final_bucket.
Qed.

Lemma tier_order_witness :
  let params := with_order false (with_budget 10 (criteria "Inbox")) in
  let s := generateOptimizedGetDataByPerspectiveScript params in
  let tasks := assemble s (final_state s noon scenario_document) in
  let tier l := filter (of_level l) tasks in
  map j_name tasks = ["b1"; "b2"; "t1"; "t2"; "t3"; "t4"; "o1"; "o2"; "o3"]
  /\ tasks = tier low ++ tier medium ++ tier high
  /\ (forall i j a b,
         nth_error tasks i = Some a -> nth_error tasks j = Some b ->
         (tier_rank false (j_priorityLevel a)
          < tier_rank false (j_priorityLevel b))%nat ->
         (i < j)%nat)
  /\ (forall l,
         tier l
         = firstn (Z.to_nat (capacity s l))
                  (filter (of_level l) (candidates s noon 0 scenario_tasks))).
Proof.
  intros params s tasks tier. split.
  - vm_compute. reflexivity.
  - exact (tier_order params noon scenario_document "Inbox" tasks []
             (make_stats s (final_state s noon scenario_document)) eq_refl).
Defined.

(** ** Projects *)

Lemma plain_project_loop_filter (params : GetDataByPerspectiveParams)
    (allProjects : list Project) :
  Plain.project_loop params allProjects
  = map Plain.project_object
        (filter (Plain.project_shouldInclude params) allProjects).
Proof.
  unfold Plain.project_loop.
  enough (H : forall acc,
             fold_left (fun visibleProjects aProject =>
                          if Plain.project_shouldInclude params aProject
                          then visibleProjects ++ [Plain.project_object aProject]
                          else visibleProjects)
                       allProjects acc
             = acc ++ map Plain.project_object
                          (filter (Plain.project_shouldInclude params) allProjects))
    by apply (H []).
  induction allProjects as [ | aProject rest IH ]; intros acc; cbn.
  - symmetry. apply app_nil_r.
  - rewrite IH. destruct (Plain.project_shouldInclude params aProject); cbn.
    + rewrite <- app_assoc. reflexivity.
    + reflexivity.
Qed.

(** C7: on a document with an active, a done and a dropped project, and
    with the toggle at its default (on), the quota-bounded script
    returns all three projects, the done and the dropped one included,
    while the project loop of the plain script returns the active one
    only.  The returned projects carry no score and the task counters
    do not depend on them. *)
Theorem finished_projects_are_returned :
  let params := criteria "Inbox" in
  let doc := a_document [bare_task "b1"]
               [a_project "Home" active; a_project "Old" done;
                a_project "Gone" dropped] in
  with_default true (hideCompleted params) = true
  /\ (exists tasks stats,
         run_script (generateOptimizedGetDataByPerspectiveScript params) noon doc
         = OutputSuccess "Inbox" tasks
             (map project_object (doc_flattenedProjects doc)) stats
         /\ map pj_status (map project_object (doc_flattenedProjects doc))
            = ["active"; "done"; "dropped"]
         /\ totalFiltered stats = 1)
  /\ map pj_status (Plain.project_loop params (doc_flattenedProjects doc))
     = ["active"]
  /\ ~ finished_projects_are_hidden.
Proof.
  cbn zeta. split; [ reflexivity | split; [ | split ] ].
  - do 2 eexists. split; [ reflexivity | split; reflexivity ].
  - reflexivity.
  - intros claim.
    assert (Hrun : run_script
                     (generateOptimizedGetDataByPerspectiveScript (criteria "Inbox"))
                     noon (a_document [] [a_project "Old" done])
                   = OutputSuccess "Inbox" [] [project_object (a_project "Old" done)]
                       {| highPriority := 0; mediumPriority := 0; lowPriority := 0;
                          totalFiltered := 0; stats_maxResults := 500 |})
      by reflexivity.
    destruct (claim (criteria "Inbox") _ _ _ _ _ _ _ eq_refl Hrun (or_introl eq_refl))
      as [Hdone _].
    apply Hdone. reflexivity.
Qed.

(** ** Small and non-positive budgets *)

Lemma capacity_small (params : GetDataByPerspectiveParams) (l : PriorityLevel) :
  budget params <= 2 ->
  capacity (generateOptimizedGetDataByPerspectiveScript params) l <= 0.
Proof.
  intros HB. destruct (Z.le_gt_cases (budget params) 0) as [ Hneg | Hpos ].
  - apply capacity_sign. exact Hneg.
  - rewrite capacity_exact by (change (2 ^ 51) with 2251799813685248; lia).
    destruct l;
      match goal with
      | |- ?a / 10 <= 0 =>
          pose proof (Z.div_lt_upper_bound a 10 1 ltac:(lia) ltac:(lia)); lia
      end.
Qed.

Lemma capacity_low_small (params : GetDataByPerspectiveParams) :
  budget params < 5 ->
  maxLowPriority (generateOptimizedGetDataByPerspectiveScript params) <= 0.
Proof.
  intros HB. change (maxLowPriority ?s) with (capacity s low).
  destruct (Z.le_gt_cases (budget params) 0) as [ Hneg | Hpos ].
  - apply capacity_sign. exact Hneg.
  - rewrite capacity_exact by (change (2 ^ 51) with 2251799813685248; lia).
    pose proof (Z.div_lt_upper_bound (2 * budget params) 10 1
                  ltac:(lia) ltac:(lia)).
    lia.
Qed.

Lemma capacity_nonneg (params : GetDataByPerspectiveParams) (l : PriorityLevel) :
  0 <= budget params ->
  0 <= capacity (generateOptimizedGetDataByPerspectiveScript params) l.
Proof.
  intros HB. apply capacity_sign. exact HB.
Qed.

Lemma final_state_without_room (s : Script) (current_date : nat -> Z)
    (doc : Document) :
  (forall l, capacity s l <= 0) ->
  assemble s (final_state s current_date doc) = []
  /\ forall l, counter (final_state s current_date doc) l = 0.
Proof.
  intros Hcap.
  pose proof (fun l => final_bucket_empty s current_date doc l (Hcap l)) as He.
  split.
  - unfold assemble.
    destruct (He high) as [Hh _], (He medium) as [Hm _], (He low) as [Hl _].
    cbn [bucket] in Hh, Hm, Hl. rewrite Hh, Hm, Hl.
    destruct (s_prioritizeUrgent s); reflexivity.
  - intros l. apply He.
Qed.

(** C10: with a budget [B <= 2] the returned task list is empty and the
    three counters of the statistics are 0, and the three capacities are
    0 when moreover [0 <= B]; with a budget [B < 5] no task of the low
    level is returned and its counter is 0, and the capacity of the low
    level is 0 when moreover [0 <= B]. *)
Theorem small_budgets
    (params : GetDataByPerspectiveParams) (current_date : nat -> Z)
    (doc : Document) (perspective : string) (tasks : list TaskObject)
    (projects : list ProjectObject) (stats : Stats) :
  run_script (generateOptimizedGetDataByPerspectiveScript params)
             current_date doc
  = OutputSuccess perspective tasks projects stats ->
  let s := generateOptimizedGetDataByPerspectiveScript params in
  let B := budget params in
  (B <= 2 ->
   (0 <= B ->
    Qfloor (inject_Z B * 0.4) = 0 /\ Qfloor (inject_Z B * 0.2) = 0
    /\ maxHighPriority s = 0 /\ maxMediumPriority s = 0 /\ maxLowPriority s = 0)
   /\ tasks = []
   /\ highPriority stats = 0 /\ mediumPriority stats = 0
   /\ lowPriority stats = 0 /\ totalFiltered stats = 0)
  /\ (B < 5 ->
      (0 <= B -> Qfloor (inject_Z B * 0.2) = 0 /\ maxLowPriority s = 0)
      /\ (forall o, In o tasks -> j_priorityLevel o <> low)
      /\ lowPriority stats = 0).
Proof.
  intros Hrun. cbn zeta.
  apply run_script_success in Hrun as (-> & _ & ->).
  set (s := generateOptimizedGetDataByPerspectiveScript params).
  split.
  - intros HB.
    pose proof (fun l => capacity_small params l HB) as Hcap. fold s in Hcap.
    destruct (final_state_without_room s current_date doc Hcap) as [Hts Hcs].
    pose proof (Hcs high) as Hh. pose proof (Hcs medium) as Hm.
    pose proof (Hcs low) as Hl. cbn [counter] in Hh, Hm, Hl.
    split.
    + intros H0.
      pose proof (fun l => capacity_nonneg params l H0) as Hge. fold s in Hge.
      pose proof (Hcap high) as Ch. pose proof (Hge high) as Gh.
      pose proof (Hcap medium) as Cm. pose proof (Hge medium) as Gm.
      pose proof (Hcap low) as Cl. pose proof (Hge low) as Gl.
      cbn [capacity] in Ch, Gh, Cm, Gm, Cl, Gl.
      assert (Eh : maxHighPriority s = 0) by lia.
      assert (El : maxLowPriority s = 0) by lia.
      assert (Em : maxMediumPriority s = 0) by lia.
      assert (Fh : Qfloor (inject_Z (budget params) * 0.4) = 0)
        by (rewrite floor_share_04; apply Z.div_small; lia).
      assert (Fl : Qfloor (inject_Z (budget params) * 0.2) = 0)
        by (rewrite floor_share_02; apply Z.div_small; lia).
      repeat split; assumption.
    + cbn [make_stats highPriority mediumPriority lowPriority totalFiltered].
      repeat split; try assumption; lia.
  - intros HB.
    pose proof (capacity_low_small params HB) as Hcap. fold s in Hcap.
    destruct (final_bucket_empty s current_date doc low Hcap) as [Hb Hc].
    cbn [bucket counter] in Hb, Hc.
    split; [ | split ].
    + intros H0. pose proof (capacity_nonneg params low H0) as Hge.
      fold s in Hge. cbn [capacity] in Hge.
      assert (El : maxLowPriority s = 0) by lia.
      split; [ | exact El ].
      rewrite floor_share_02. apply Z.div_small. lia.
    + intros o Hin Hlow.
      assert (Hf : In o (filter (of_level low)
                                (assemble s (final_state s current_date doc)))).
      { apply filter_In. split; [ exact Hin | ].
        unfold of_level. rewrite Hlow. reflexivity. }
      rewrite filter_level_assemble in Hf. cbn [bucket] in Hf.
      rewrite Hb in Hf. exact Hf.
    + exact Hc.
Qed.

Lemma small_budgets_witness :
  let params := with_budget 2 (criteria "Inbox") in
  let s := generateOptimizedGetDataByPerspectiveScript params in
  let st := final_state s noon scenario_document in
  (0 <= 2 ->
   Qfloor (inject_Z 2 * 0.4) = 0 /\ Qfloor (inject_Z 2 * 0.2) = 0
   /\ maxHighPriority s = 0 /\ maxMediumPriority s = 0 /\ maxLowPriority s = 0)
  /\ assemble s st = []
  /\ highCount st = 0 /\ mediumCount st = 0 /\ lowCount st = 0
  /\ highCount st + mediumCount st + lowCount st = 0.
Proof.
  intros params s st.
  refine (proj1 (small_budgets params noon scenario_document "Inbox"
                   (assemble s st) [] (make_stats s st) eq_refl) _).
  discriminate.
Defined.

Lemma capacity_nonpositive (params : GetDataByPerspectiveParams)
    (l : PriorityLevel) :
  budget params <= 0 ->
  capacity (generateOptimizedGetDataByPerspectiveScript params) l <= 0.
Proof. intros HB. apply capacity_small. lia. Qed.

(** ** The caller side *)

(** C8, as amended: the budget is not validated.  Whatever the criteria,
    a non-positive budget included, [getDataByPerspective] hands exactly
    one script to the provider and returns what the reply determines;
    the budget interpolated into the script is the caller's, or 500 when
    the caller gives none; and with a budget [B <= 0], on a document in
    which the perspective exists, the script prints a success with an
    empty task list, every project, and counters 0. *)
Theorem budget_is_not_validated
    (execAsync : Script -> ProviderReply) (params : GetDataByPerspectiveParams) :
  let script := generateOptimizedGetDataByPerspectiveScript params in
  getDataByPerspective execAsync params
  = ([script], interpret_reply (execAsync script))
  /\ (maxResults params = None -> s_maxResults script = 500)
  /\ (forall B, maxResults params = Some B -> s_maxResults script = B)
  /\ (forall current_date doc,
         budget params <= 0 ->
         set_perspective script doc = None ->
         run_script script current_date doc
         = OutputSuccess (perspectiveName params) []
             (map project_object (doc_flattenedProjects doc))
             {| highPriority := 0; mediumPriority := 0;
                lowPriority := 0; totalFiltered := 0;
                stats_maxResults := budget params |}).
Proof.
  cbn zeta. split; [ reflexivity | split; [ | split ] ].
  - intros Hnone. cbn. rewrite Hnone. reflexivity.
  - intros B HB. cbn. rewrite HB. reflexivity.
  - intros current_date doc HB Hset.
    set (s := generateOptimizedGetDataByPerspectiveScript params) in *.
    pose proof (fun l => capacity_nonpositive params l HB) as Hcap. fold s in Hcap.
    destruct (final_state_without_room s current_date doc Hcap) as [Hts Hcs].
    pose proof (Hcs high) as Hh. pose proof (Hcs medium) as Hm.
    pose proof (Hcs low) as Hl. cbn [counter] in Hh, Hm, Hl.
    unfold run_script. rewrite Hset, Hts, project_loop_map.
    unfold make_stats. rewrite Hh, Hm, Hl. reflexivity.
Qed.

Lemma budget_is_not_validated_witness :
  let params := with_budget (-5) (criteria "Inbox") in
  run_script (generateOptimizedGetDataByPerspectiveScript params)
             noon scenario_document
  = OutputSuccess "Inbox" [] []
      {| highPriority := 0; mediumPriority := 0;
         lowPriority := 0; totalFiltered := 0;
         stats_maxResults := -5 |}.
Proof.
  intros params.
  refine (proj2 (proj2 (proj2 (budget_is_not_validated
                                 (fun _ => Threw "osascript: not found")
                                 params)))
                noon scenario_document _ eq_refl).
  discriminate.
Defined.

(** C8, as stated, fails: with a budget of 0 the script is handed to the
    provider, and the result is what the provider's reply makes it. *)
Lemma nonpositive_budget_reaches_the_provider : ~ nonpositive_budget_is_refused.
Proof.
  intros claim.
  destruct (claim (omnifocus noon scenario_document)
                  (with_budget 0 (criteria "Inbox")) 0 eq_refl ltac:(lia))
    as [Hcalls _].
  discriminate Hcalls.
Qed.

(** C9: when the provider's reply parses to an object whose [success] is
    false and whose [error] is a message, the result is a failure that
    carries exactly that message and has no task list and no project
    list. *)
Theorem provider_failure_is_passed_through
    (execAsync : Script -> ProviderReply) (params : GetDataByPerspectiveParams)
    (result : Response) (message : string) :
  execAsync (generateOptimizedGetDataByPerspectiveScript params) = Parsed result ->
  r_success result = false ->
  r_error result = Some message ->
  snd (getDataByPerspective execAsync params)
  = {| success := false;
       perspective := None;
       tasks := None;
       projects := None;
       stats := None;
       error := Some message |}.
Proof.
  intros Hreply Hfail Herror. unfold getDataByPerspective. cbn [snd].
  rewrite Hreply. unfold interpret_reply. rewrite Hfail, Herror. reflexivity.
Qed.

Lemma provider_failure_is_passed_through_witness :
  snd (getDataByPerspective (omnifocus noon scenario_document) (criteria "Nope"))
  = {| success := false;
       perspective := None;
       tasks := None;
       projects := None;
       stats := None;
       error := Some "Perspective not found" |}.
Proof.
  apply (provider_failure_is_passed_through
           (omnifocus noon scenario_document) (criteria "Nope")
           (response_of_output (OutputFailure "Perspective not found"))
           "Perspective not found");
    reflexivity.
Defined.

(** * Further properties of the code *)

(** ** Scores and levels *)

(** X1: the score of a task lies between 0 and 330, whatever the task
    and the time. *)
Theorem urgency_score_range (currentDate : Z) (aTask : Task) :
  0 <= urgency_score currentDate aTask <= 330.
Proof.
  rewrite urgency_score_points.
  unfold flagged_points, due_points, duration_points.
  destruct (task_flagged aTask);
    destruct (reading_value (task_dueDate aTask));
    destruct (reading_value (task_estimatedMinutes aTask));
    repeat match goal with
           | |- context [if ?b then _ else _] => destruct b
           end; lia.
Qed.

(** X2: what the fields of a task decide about its level.  A task whose
    due date is past is of the high level; a flagged task is never of
    the low level; a task that is not flagged and has no due date, or
    one at least eight days ahead, is of the low level. *)
Theorem level_from_fields (currentDate : Z) (aTask : Task) :
  let level := priority_level (urgency_score currentDate aTask) in
  (forall d, task_dueDate aTask = Got d -> d < currentDate -> level = high)
  /\ (task_flagged aTask = true -> level <> low)
  /\ (task_flagged aTask = false ->
      (reading_value (task_dueDate aTask) = None
       \/ exists d, task_dueDate aTask = Got d /\ currentDate + 8 * days <= d) ->
      level = low).
Proof.
  cbn zeta. unfold priority_level. rewrite urgency_score_points.
  unfold flagged_points, due_points, duration_points, days.
  split; [ | split ].
  - intros d Hd Hlt. rewrite Hd. cbn [reading_value].
    destruct (Z.ltb_spec (d - currentDate) 0); [ | lia ].
    destruct (task_flagged aTask);
      destruct (reading_value (task_estimatedMinutes aTask));
      repeat match goal with
             | |- context [if ?a <=? ?b then _ else _] => destruct (a <=? b)
             end;
      repeat match goal with
             | |- context [?a >=? ?b] => destruct (Z.geb_spec a b)
             end; try reflexivity; lia.
  - intros Hf. rewrite Hf.
    destruct (reading_value (task_dueDate aTask));
      destruct (reading_value (task_estimatedMinutes aTask));
      repeat match goal with
             | |- context [if ?a <=? ?b then _ else _] => destruct (a <=? b)
             | |- context [if ?a <? ?b then _ else _] => destruct (a <? b)
             end;
      repeat match goal with
             | |- context [?a >=? ?b] => destruct (Z.geb_spec a b)
             end; try discriminate; lia.
  - intros Hf Hdue. rewrite Hf.
    assert (Hpoints :
              match reading_value (task_dueDate aTask) with
              | Some d =>
                  if d - currentDate <? 0 then 200
                  else if d - currentDate <? 1 * 86400 then 150
                  else if d - currentDate <? 2 * 86400 then 100
                  else if d - currentDate <? 8 * 86400 then 50
                  else 0
              | None => 0
              end = 0).
    { destruct Hdue as [ -> | (d & -> & Hd) ]; [ reflexivity | ].
      cbn [reading_value].
      repeat match goal with
             | |- context [if ?a <? ?b then _ else _] =>
                 destruct (Z.ltb_spec a b); [ lia | ]
             end.
      reflexivity. }
    rewrite Hpoints.
    destruct (reading_value (task_estimatedMinutes aTask));
      repeat match goal with
             | |- context [if ?a <=? ?b then _ else _] => destruct (a <=? b)
             end;
      reflexivity.
Qed.

Lemma level_from_fields_witness :
  priority_level (urgency_score 1000000 (overdue_task "o1")) = high.
Proof.
  apply (proj1 (level_from_fields 1000000 (overdue_task "o1"))
               (1000000 - 3600) eq_refl).
  reflexivity.
Defined.

(** ** The rules the returned tasks satisfy *)

(** X28: every task object in the output was built from a task of the
    document that passed the script's filters, and such a task satisfies
    every predicate the script applies: the project name, compared
    without regard to case, when a non-empty name is given; flagged-only;
    the minimum and the maximum estimate when the bound is not zero (the
    maximum only constraining an estimate that is present); due-date
    presence; and hide-completed. *)
Theorem returned_tasks_satisfy_applied_rules
    (params : GetDataByPerspectiveParams) (current_date : nat -> Z)
    (doc : Document) (perspective : string) (tasks : list TaskObject)
    (projects : list ProjectObject) (stats : Stats) (o : TaskObject) :
  run_script (generateOptimizedGetDataByPerspectiveScript params)
             current_date doc
  = OutputSuccess perspective tasks projects stats ->
  In o tasks ->
  exists i aTask,
    object_of (generateOptimizedGetDataByPerspectiveScript params)
              current_date (doc_flattenedTasks doc) o i aTask
    /\ satisfies_applied_rules params aTask.
Proof.
  intros Hrun Hin. apply run_script_success in Hrun as (-> & _ & _).
  apply returned_origin in Hin as (i & aTask & Hobj).
  exists i, aTask. split; [ exact Hobj | ].
  apply shouldInclude_applied_rules. apply Hobj.
Qed.

Lemma returned_tasks_satisfy_applied_rules_witness :
  let params := with_bounds (Some 30) (Some 60) (criteria "Inbox") in
  let long := a_task "long" false (Got 45) MissingValue in
  exists i aTask,
    object_of (generateOptimizedGetDataByPerspectiveScript params) noon
              [bare_task "b1"; long] (task_object long 10 low) i aTask
    /\ satisfies_applied_rules params aTask.
Proof.
  intros params long.
  apply (returned_tasks_satisfy_applied_rules
           params noon (a_document [bare_task "b1"; long] [])
           "Inbox" [task_object long 10 low] []
           {| highPriority := 0; mediumPriority := 0; lowPriority := 1;
              totalFiltered := 1; stats_maxResults := 500 |}).
  - reflexivity.
  - left. reflexivity.
Defined.

(** ** The pipeline, exactly *)

Lemma applied_rules_shouldInclude (params : GetDataByPerspectiveParams)
    (aTask : Task) :
  satisfies_applied_rules params aTask ->
  shouldInclude (generateOptimizedGetDataByPerspectiveScript params) aTask = true.
Proof.
  intros [Hp Hf Hmin Hmax Hd Hc]. apply shouldInclude_true.
  unfold filter_projectName, filter_flaggedOnly, filter_minEstimatedMinutes,
    filter_maxEstimatedMinutes, filter_withDueDate, filter_hideCompleted,
    generateOptimizedGetDataByPerspectiveScript.
  cbn [s_projectName s_flaggedOnly s_minEstimatedMinutes s_maxEstimatedMinutes
       s_withDueDate s_hideCompleted].
  repeat split.
  - destruct (projectName params) as [ wanted | ]; cbn [with_default];
      [ | reflexivity ].
    destruct (text_is wanted "") eqn:He; cbn [negb]; [ reflexivity | ].
    assert (Hne : wanted <> "")
      by (intros ->; rewrite text_is_refl in He; discriminate He).
    destruct (Hp wanted eq_refl Hne) as (taskProjectName & -> & Ht).
    exact Ht.
  - destruct (flaggedOnly params) as [ [] | ]; cbn [with_default]; auto.
  - destruct (emitted_bound (minEstimatedMinutes params)) as [ bound | ] eqn:Hb;
      [ | reflexivity ].
    apply emitted_bound_some in Hb as [Hb Hne].
    destruct (Hmin bound Hb Hne) as (minutes & -> & Hle).
    apply negb_true_iff, Z.ltb_ge. exact Hle.
  - destruct (emitted_bound (maxEstimatedMinutes params)) as [ bound | ] eqn:Hb;
      [ | reflexivity ].
    apply emitted_bound_some in Hb as [Hb Hne].
    destruct (task_estimatedMinutes aTask) as [ minutes | | ] eqn:Hm;
      try reflexivity.
    apply negb_true_iff. rewrite Z.gtb_ltb. apply Z.ltb_ge.
    apply (Hmax bound Hb Hne minutes eq_refl).
  - destruct (withDueDate params) as [ wanted | ]; [ | reflexivity ].
    specialize (Hd wanted eq_refl).
    destruct (task_dueDate aTask) as [ d | | ].
    + apply Hd. eauto.
    + destruct wanted; [ | reflexivity ].
      destruct (proj2 Hd eq_refl) as [d [=]].
    + destruct wanted; [ | reflexivity ].
      destruct (proj2 Hd eq_refl) as [d [=]].
  - destruct (hideCompleted params) as [ [] | ]; cbn [with_default];
      try reflexivity;
      (destruct Hc as [-> ->]; [ discriminate | reflexivity ]).
Qed.

(** X3: a task reaches the scoring code exactly when it satisfies the
    rules the script applies; nothing else about the task (its tags, its
    defer date, its note) can make the pipeline reject it. *)
Theorem pipeline_is_exact (params : GetDataByPerspectiveParams) (aTask : Task) :
  shouldInclude (generateOptimizedGetDataByPerspectiveScript params) aTask = true
  <-> satisfies_applied_rules params aTask.
Proof.
  split; [ apply shouldInclude_applied_rules | apply applied_rules_shouldInclude ].
Qed.

(** X4: [withTags] and [hideRecurringDuplicates] are ignored.  Two sets
    of criteria that differ in these two fields only make
    [getDataByPerspective] hand the same script to the provider and
    return the same result. *)
Theorem tags_and_duplicates_are_ignored
    (execAsync : Script -> ProviderReply)
    (p1 p2 : GetDataByPerspectiveParams) :
  perspectiveName p1 = perspectiveName p2 ->
  hideCompleted p1 = hideCompleted p2 ->
  minEstimatedMinutes p1 = minEstimatedMinutes p2 ->
  maxEstimatedMinutes p1 = maxEstimatedMinutes p2 ->
  flaggedOnly p1 = flaggedOnly p2 ->
  withDueDate p1 = withDueDate p2 ->
  projectName p1 = projectName p2 ->
  maxResults p1 = maxResults p2 ->
  prioritizeUrgent p1 = prioritizeUrgent p2 ->
  getDataByPerspective execAsync p1 = getDataByPerspective execAsync p2.
Proof.
  destruct p1, p2. cbn. intros. subst. reflexivity.
Qed.

Lemma tags_and_duplicates_are_ignored_witness :
  getDataByPerspective (omnifocus noon scenario_document)
                       (with_tags ["work"] (criteria "Inbox"))
  = getDataByPerspective (omnifocus noon scenario_document) (criteria "Inbox").
Proof.
  apply (tags_and_duplicates_are_ignored
           (omnifocus noon scenario_document)
           (with_tags ["work"] (criteria "Inbox")) (criteria "Inbox"));
    reflexivity.
Defined.

(** ** The perspective *)

(** X5: the script succeeds exactly when the perspective name is, case
    apart, one of the six built-in names or the name of a perspective of
    the document; otherwise its output is the failure that carries the
    message of the application, whatever the tasks and the criteria. *)
Theorem perspective_selection (s : Script) (current_date : nat -> Z)
    (doc : Document) :
  ((exists p, In p (builtInPerspectives ++ doc_perspectives doc)
              /\ text_is p (s_perspectiveName s) = true) ->
   exists tasks projects stats,
     run_script s current_date doc
     = OutputSuccess (s_perspectiveName s) tasks projects stats)
  /\ ((forall p, In p (builtInPerspectives ++ doc_perspectives doc) ->
                 text_is p (s_perspectiveName s) = false) ->
      run_script s current_date doc
      = OutputFailure (doc_noSuchPerspective doc (s_perspectiveName s))).
Proof.
  unfold run_script, set_perspective. split.
  - intros (p & Hin & Hp).
    destruct (existsb (text_is (s_perspectiveName s)) builtInPerspectives) eqn:Hb;
      [ eauto | ].
    destruct (existsb (fun p => text_is p (s_perspectiveName s))
                      (doc_perspectives doc)) eqn:Hc;
      [ eauto | ].
    exfalso. apply in_app_or in Hin as [ Hin | Hin ].
    + assert (Ht : existsb (text_is (s_perspectiveName s)) builtInPerspectives
                   = true).
      { apply existsb_exists. exists p.
        split; [ exact Hin | rewrite text_is_sym; exact Hp ]. }
      congruence.
    + assert (Ht : existsb (fun p => text_is p (s_perspectiveName s))
                           (doc_perspectives doc) = true).
      { apply existsb_exists. exists p. split; assumption. }
      congruence.
  - intros Hnone.
    destruct (existsb (text_is (s_perspectiveName s)) builtInPerspectives) eqn:Eb.
    + apply existsb_exists in Eb as (x & Hx & He).
      rewrite text_is_sym, (Hnone x) in He by (apply in_or_app; left; exact Hx).
      discriminate He.
    + destruct (existsb (fun p => text_is p (s_perspectiveName s))
                        (doc_perspectives doc)) eqn:Ec; [ | reflexivity ].
      apply existsb_exists in Ec as (x & Hx & He).
      rewrite (Hnone x) in He by (apply in_or_app; right; exact Hx).
      discriminate He.
Qed.

Lemma perspective_selection_witness :
  exists tasks projects stats,
    run_script (generateOptimizedGetDataByPerspectiveScript (criteria "inbox"))
               noon scenario_document
    = OutputSuccess "inbox" tasks projects stats.
Proof.
  apply (proj1 (perspective_selection
                  (generateOptimizedGetDataByPerspectiveScript (criteria "inbox"))
                  noon scenario_document)).
  exists "Inbox". split; [ left; reflexivity | reflexivity ].
Defined.

(** ** Quotas, more closely *)

(** X6: each counter of the statistics is the smaller of the level's
    capacity and the number of tasks of that level that pass the
    filters: a task is left out only when its level is full. *)
Theorem counters_closed_form (s : Script) (current_date : nat -> Z)
    (doc : Document) (perspective : string) (tasks : list TaskObject)
    (projects : list ProjectObject) (stats : Stats) :
  run_script s current_date doc = OutputSuccess perspective tasks projects stats ->
  let passing l :=
    List.length (filter (of_level l)
                        (candidates s current_date 0 (doc_flattenedTasks doc))) in
  highPriority stats
  = Z.of_nat (Nat.min (Z.to_nat (maxHighPriority s)) (passing high))
  /\ mediumPriority stats
     = Z.of_nat (Nat.min (Z.to_nat (maxMediumPriority s)) (passing medium))
  /\ lowPriority stats
     = Z.of_nat (Nat.min (Z.to_nat (maxLowPriority s)) (passing low)).
Proof.
  intros Hrun. cbn zeta. apply run_script_success in Hrun as (_ & _ & ->).
  cbn [make_stats highPriority mediumPriority lowPriority].
  pose proof (fun l => final_counter s current_date doc l) as Hc.
  pose proof (fun l => final_bucket s current_date doc l) as Hb.
  pose proof (Hc high) as Ch. pose proof (Hc medium) as Cm.
  pose proof (Hc low) as Cl. cbn [counter] in Ch, Cm, Cl.
  rewrite Ch, Cm, Cl, (Hb high), (Hb medium), (Hb low), !length_firstn.
  repeat split.
Qed.

Lemma counters_closed_form_witness :
  let s := generateOptimizedGetDataByPerspectiveScript
             (with_budget 10 (criteria "Inbox")) in
  let st := final_state s noon scenario_document in
  highCount st = Z.of_nat (Nat.min 4 3)
  /\ mediumCount st = Z.of_nat (Nat.min 4 5)
  /\ lowCount st = Z.of_nat (Nat.min 2 4).
Proof.
  intros s st.
  exact (counters_closed_form s noon scenario_document "Inbox"
           (assemble s st) [] (make_stats s st) eq_refl).
Defined.

Lemma levels_partition (cands : list TaskObject) :
  Permutation (filter (of_level high) cands ++ filter (of_level medium) cands
               ++ filter (of_level low) cands)
              cands.
Proof.
  induction cands as [ | o os IH ]; [ constructor | ].
  cbn [filter].
  assert (E : forall l, of_level l o = PriorityLevel_eqb (j_priorityLevel o) l)
    by reflexivity.
  rewrite !E. destruct (j_priorityLevel o); cbn [PriorityLevel_eqb app].
  - constructor. exact IH.
  - symmetry. apply Permutation_cons_app. symmetry. exact IH.
  - symmetry. rewrite app_assoc. apply Permutation_cons_app.
    rewrite <- app_assoc. symmetry. exact IH.
Qed.

Lemma assemble_buckets (s : Script) (st : LoopState) :
  Permutation (assemble s st)
              (highPriorityTasks st ++ mediumPriorityTasks st
               ++ lowPriorityTasks st).
Proof.
  unfold assemble. destruct (s_prioritizeUrgent s); [ reflexivity | ].
  etransitivity; [ apply Permutation_app_comm | ].
  rewrite (app_assoc (highPriorityTasks st)).
  apply Permutation_app_tail. apply Permutation_app_comm.
Qed.

(** X7: when, for every level, the tasks of that level that pass the
    filters are no more than the level's capacity, the returned tasks
    are all the tasks that pass the filters, each once: nothing is left
    out by the quotas. *)
Theorem nothing_left_out_when_quotas_fit (s : Script) (current_date : nat -> Z)
    (doc : Document) (perspective : string) (tasks : list TaskObject)
    (projects : list ProjectObject) (stats : Stats) :
  run_script s current_date doc = OutputSuccess perspective tasks projects stats ->
  (forall l,
      Z.of_nat (List.length
                  (filter (of_level l)
                          (candidates s current_date 0 (doc_flattenedTasks doc))))
      <= capacity s l) ->
  Permutation tasks (candidates s current_date 0 (doc_flattenedTasks doc)).
Proof.
  intros Hrun Hfit. apply run_script_success in Hrun as (-> & _ & _).
  rewrite assemble_buckets.
  pose proof (fun l => final_bucket s current_date doc l) as Hb.
  pose proof (Hb high) as Hh. pose proof (Hb medium) as Hm.
  pose proof (Hb low) as Hl. cbn [bucket] in Hh, Hm, Hl.
  rewrite Hh, Hm, Hl.
  pose proof (Hfit high) as Fh. pose proof (Hfit medium) as Fm.
  pose proof (Hfit low) as Fl.
  rewrite !firstn_all2 by lia.
  apply levels_partition.
Qed.

Lemma nothing_left_out_when_quotas_fit_witness :
  let s := generateOptimizedGetDataByPerspectiveScript (criteria "Inbox") in
  Permutation (assemble s (final_state s noon scenario_document))
              (candidates s noon 0 scenario_tasks).
Proof.
  intros s.
  apply (nothing_left_out_when_quotas_fit s noon scenario_document "Inbox"
           (assemble s (final_state s noon scenario_document)) []
           (make_stats s (final_state s noon scenario_document)) eq_refl).
  intros []; vm_compute; discriminate.
Defined.

(** Two scripts with the same filter blocks produce the same candidates. *)
Lemma candidates_same_filters (s1 s2 : Script) (current_date : nat -> Z)
    (allTasks : list Task) :
  same_filters s1 s2 ->
  forall i, candidates s1 current_date i allTasks
            = candidates s2 current_date i allTasks.
Proof.
  intros (Hp & Hf & Hmin & Hmax & Hd & Hc).
  assert (Hinc : forall t, shouldInclude s1 t = shouldInclude s2 t).
  { intros t. unfold shouldInclude, filter_task, filter_projectName,
      filter_flaggedOnly, filter_minEstimatedMinutes,
      filter_maxEstimatedMinutes, filter_withDueDate, filter_hideCompleted.
    rewrite Hp, Hf, Hmin, Hmax, Hd, Hc. reflexivity. }
  induction allTasks as [ | aTask rest IH ]; intros i; cbn [candidates].
  - reflexivity.
  - unfold candidate. rewrite Hinc, IH. reflexivity.
Qed.

(** X8: raising the budget never loses a task.  With the other criteria
    unchanged and [B <= B'], the tasks of each level returned under [B]
    are the first of those returned under [B'], so every task returned
    under [B] is returned under [B']; the projects are the same. *)
Theorem raising_the_budget_keeps_every_task
    (params : GetDataByPerspectiveParams) (current_date : nat -> Z)
    (doc : Document) (B B' : Z)
    (perspective perspective' : string) (tasks tasks' : list TaskObject)
    (projects projects' : list ProjectObject) (stats stats' : Stats) :
  B <= B' ->
  run_script (generateOptimizedGetDataByPerspectiveScript (with_budget B params))
             current_date doc
  = OutputSuccess perspective tasks projects stats ->
  run_script (generateOptimizedGetDataByPerspectiveScript (with_budget B' params))
             current_date doc
  = OutputSuccess perspective' tasks' projects' stats' ->
  (forall l, exists k,
        filter (of_level l) tasks = firstn k (filter (of_level l) tasks'))
  /\ (forall o, In o tasks -> In o tasks')
  /\ projects = projects'.
Proof.
  intros HB Hrun Hrun'.
  apply run_script_success in Hrun as (-> & -> & _).
  apply run_script_success in Hrun' as (-> & -> & _).
  set (s := generateOptimizedGetDataByPerspectiveScript (with_budget B params)).
  set (s' := generateOptimizedGetDataByPerspectiveScript (with_budget B' params)).
  assert (Hsame : same_filters s s') by (repeat split).
  pose proof (candidates_same_filters s s' current_date
                (doc_flattenedTasks doc) Hsame 0%nat) as Hcands.
  assert (Hcap : forall l, (Z.to_nat (capacity s l) <= Z.to_nat (capacity s' l))%nat).
  { intros l. unfold s, s'. rewrite !capacity_generated.
    unfold budget. cbn [maxResults with_budget with_default].
    destruct (Z.le_gt_cases B 0) as [ Hneg | Hpos ].
    - pose proof (proj2 (Math_floor_product_sign B 53) Hneg).
      pose proof (proj2 (Math_floor_product_sign B 54) Hneg).
      destruct l; lia.
    - pose proof (Math_floor_product_mono B B' 53 ltac:(lia)).
      pose proof (Math_floor_product_mono B B' 54 ltac:(lia)).
      destruct l; lia. }
  assert (Hprefix : forall l,
             bucket (final_state s current_date doc) l
             = firstn (Z.to_nat (capacity s l))
                      (bucket (final_state s' current_date doc) l)).
  { intros l. rewrite !final_bucket, firstn_firstn, Hcands.
    rewrite Nat.min_l by apply Hcap. reflexivity. }
  split; [ | split ].
  - intros l. exists (Z.to_nat (capacity s l)).
    rewrite !filter_level_assemble. apply Hprefix.
  - intros o Hin. apply assemble_In in Hin as [l Hin]. apply assemble_In.
    exists l. rewrite Hprefix in Hin.
    apply (In_nth_error) in Hin as [k Hk].
    rewrite nth_error_firstn in Hk.
    destruct (k <? Z.to_nat (capacity s l))%nat; [ | discriminate ].
    eapply nth_error_In. exact Hk.
  - reflexivity.
Qed.

Lemma raising_the_budget_keeps_every_task_witness :
  let s := generateOptimizedGetDataByPerspectiveScript
             (with_budget 5 (criteria "Inbox")) in
  let s' := generateOptimizedGetDataByPerspectiveScript
              (with_budget 10 (criteria "Inbox")) in
  let tasks := assemble s (final_state s noon scenario_document) in
  let tasks' := assemble s' (final_state s' noon scenario_document) in
  (forall l, exists k,
        filter (of_level l) tasks = firstn k (filter (of_level l) tasks'))
  /\ (forall o, In o tasks -> In o tasks')
  /\ @nil ProjectObject = [].
Proof.
  intros s s' tasks tasks'.
  refine (raising_the_budget_keeps_every_task
            (criteria "Inbox") noon scenario_document 5 10
            "Inbox" "Inbox" tasks tasks' [] []
            (make_stats s (final_state s noon scenario_document))
            (make_stats s' (final_state s' noon scenario_document))
            _ eq_refl eq_refl).
  discriminate.
Defined.

(** X9: the ordering preference only reorders.  With the other criteria
    unchanged, the urgent-first and the natural result hold the same
    tasks, level for level in the same order, the same projects and the
    same statistics. *)
Theorem ordering_only_reorders
    (params : GetDataByPerspectiveParams) (current_date : nat -> Z)
    (doc : Document)
    (perspective perspective' : string) (tasks tasks' : list TaskObject)
    (projects projects' : list ProjectObject) (stats stats' : Stats) :
  run_script (generateOptimizedGetDataByPerspectiveScript (with_order true params))
             current_date doc
  = OutputSuccess perspective tasks projects stats ->
  run_script (generateOptimizedGetDataByPerspectiveScript (with_order false params))
             current_date doc
  = OutputSuccess perspective' tasks' projects' stats' ->
  Permutation tasks tasks'
  /\ (forall l, filter (of_level l) tasks = filter (of_level l) tasks')
  /\ projects = projects'
  /\ stats = stats'.
Proof.
  intros Hrun Hrun'.
  apply run_script_success in Hrun as (-> & -> & ->).
  apply run_script_success in Hrun' as (-> & -> & ->).
  set (s := generateOptimizedGetDataByPerspectiveScript (with_order true params)).
  set (s' := generateOptimizedGetDataByPerspectiveScript (with_order false params)).
  assert (Hsame : same_filters s s') by (repeat split).
  pose proof (candidates_same_filters s s' current_date
                (doc_flattenedTasks doc) Hsame 0%nat) as Hcands.
  assert (Hbucket : forall l,
             bucket (final_state s current_date doc) l
             = bucket (final_state s' current_date doc) l).
  { intros l. rewrite !final_bucket, Hcands. destruct l; reflexivity. }
  assert (Hcounter : forall l,
             counter (final_state s current_date doc) l
             = counter (final_state s' current_date doc) l).
  { intros l. rewrite !final_counter, Hbucket. reflexivity. }
  pose proof (Hbucket high) as Bh. pose proof (Hbucket medium) as Bm.
  pose proof (Hbucket low) as Bl. cbn [bucket] in Bh, Bm, Bl.
  pose proof (Hcounter high) as Ch. pose proof (Hcounter medium) as Cm.
  pose proof (Hcounter low) as Cl. cbn [counter] in Ch, Cm, Cl.
  split; [ | split; [ | split ] ].
  - rewrite !assemble_buckets, Bh, Bm, Bl. reflexivity.
  - intros l. rewrite !filter_level_assemble. apply Hbucket.
  - reflexivity.
  - unfold make_stats. rewrite Ch, Cm, Cl. reflexivity.
Qed.

Lemma ordering_only_reorders_witness :
  let s := generateOptimizedGetDataByPerspectiveScript
             (with_order true (with_budget 10 (criteria "Inbox"))) in
  let s' := generateOptimizedGetDataByPerspectiveScript
              (with_order false (with_budget 10 (criteria "Inbox"))) in
  Permutation (assemble s (final_state s noon scenario_document))
              (assemble s' (final_state s' noon scenario_document)).
Proof.
  intros s s'.
  exact (proj1 (ordering_only_reorders
                  (with_budget 10 (criteria "Inbox")) noon scenario_document
                  "Inbox" "Inbox" _ _ [] []
                  (make_stats s (final_state s noon scenario_document))
                  (make_stats s' (final_state s' noon scenario_document))
                  eq_refl eq_refl)).
Defined.

(** X10: when the criteria ask for tasks without a due date
    ([withDueDate] false), no returned task is of the high level and the
    counter of the high level is 0: without the due-date band a score
    stays under 150. *)
Theorem no_due_date_no_high_level
    (params : GetDataByPerspectiveParams) (current_date : nat -> Z)
    (doc : Document) (perspective : string) (tasks : list TaskObject)
    (projects : list ProjectObject) (stats : Stats) :
  withDueDate params = Some false ->
  run_script (generateOptimizedGetDataByPerspectiveScript params)
             current_date doc
  = OutputSuccess perspective tasks projects stats ->
  (forall o, In o tasks -> j_priorityLevel o <> high /\ j_urgencyScore o <= 130)
  /\ highPriority stats = 0.
Proof.
  intros Hdue Hrun. apply run_script_success in Hrun as (-> & _ & ->).
  set (s := generateOptimizedGetDataByPerspectiveScript params).
  assert (Hall : forall o,
             In o (assemble s (final_state s current_date doc)) ->
             j_priorityLevel o <> high /\ j_urgencyScore o <= 130).
  { intros o Hin. apply returned_origin in Hin as (i & aTask & _ & Hinc & ->).
    apply shouldInclude_applied_rules in Hinc.
    pose proof (sat_withDueDate _ _ Hinc false Hdue) as Hnone.
    cbn [task_object j_priorityLevel j_urgencyScore].
    assert (Hscore : urgency_score (current_date i) aTask <= 130).
    { rewrite urgency_score_points.
      assert (Hd : reading_value (task_dueDate aTask) = None).
      { destruct (task_dueDate aTask) as [ d | | ]; try reflexivity.
        discriminate (proj1 Hnone (ex_intro _ d eq_refl)). }
      rewrite Hd. unfold flagged_points, due_points, duration_points.
      destruct (task_flagged aTask);
        destruct (reading_value (task_estimatedMinutes aTask));
        repeat match goal with
               | |- context [if ?b then _ else _] => destruct b
               end; lia. }
    split; [ | exact Hscore ].
    unfold priority_level.
    destruct (Z.geb_spec (urgency_score (current_date i) aTask) 150); [ lia | ].
    destruct (urgency_score (current_date i) aTask >=? 50); discriminate. }
  split; [ exact Hall | ].
  cbn [make_stats highPriority].
  change (highCount ?st) with (counter st high).
  rewrite final_counter.
  destruct (bucket (final_state s current_date doc) high) as [ | o os ] eqn:Hb;
    [ reflexivity | ].
  exfalso.
  assert (Hin : In o (bucket (final_state s current_date doc) high))
    by (rewrite Hb; left; reflexivity).
  apply (proj1 (Hall o (proj2 (assemble_In s _ o) (ex_intro _ high Hin)))).
  apply (final_bucket_level s current_date doc high o Hin).
Qed.


Lemma no_due_date_no_high_level_witness :
  let s := generateOptimizedGetDataByPerspectiveScript
             (with_due_date false (with_budget 10 (criteria "Inbox"))) in
  let st := final_state s noon scenario_document in
  (forall o, In o (assemble s st) ->
             j_priorityLevel o <> high /\ j_urgencyScore o <= 130)
  /\ highPriority (make_stats s st) = 0.
Proof.
  intros s st.
  pose proof (no_due_date_no_high_level
           (with_due_date false (with_budget 10 (criteria "Inbox")))
           noon scenario_document "Inbox" (assemble s st) []
           (make_stats s st) eq_refl eq_refl) as H.
  exact H.
Defined.

(** ** The caller side, more closely *)

Lemma split_comma_free (a : string) :
  has_comma a = false -> split_comma a = [a].
Proof.
  induction a as [ | c a IH ]; cbn [has_comma split_comma]; [ reflexivity | ].
  intros H. apply orb_false_iff in H as [Hc Ha].
  rewrite Hc, (IH Ha). reflexivity.
Qed.

Lemma split_comma_append (a b : string) :
  has_comma a = false ->
  split_comma (a ++ "," ++ b)%string = a :: split_comma b.
Proof.
  induction a as [ | c a IH ]; cbn [has_comma split_comma String.append].
  - intros _. reflexivity.
  - intros H. apply orb_false_iff in H as [Hc Ha].
    rewrite Hc. cbn [String.append] in IH. rewrite (IH Ha). reflexivity.
Qed.

Lemma split_comma_concat (t : string) (ts : list string) :
  (forall x, In x (t :: ts) -> has_comma x = false) ->
  split_comma (String.concat "," (t :: ts)) = t :: ts.
Proof.
  revert t. induction ts as [ | t' ts IH ]; intros t Hfree.
  - cbn [String.concat]. apply split_comma_free. apply Hfree. left. reflexivity.
  - change (String.concat "," (t :: t' :: ts))
      with (t ++ "," ++ String.concat "," (t' :: ts))%string.
    rewrite split_comma_append by (apply Hfree; left; reflexivity).
    rewrite IH by (intros x Hx; apply Hfree; right; exact Hx).
    reflexivity.
Qed.

Lemma filter_all {A : Type} (f : A -> bool) (l : list A) :
  (forall x, In x l -> f x = true) -> filter f l = l.
Proof.
  induction l as [ | a l IH ]; intros H; cbn [filter]; [ reflexivity | ].
  rewrite (H a (or_introl eq_refl)), IH; [ reflexivity | ].
  intros x Hx. apply H. right. exact Hx.
Qed.

Lemma split_comma_pieces (str x : string) :
  In x (split_comma str) -> has_comma x = false.
Proof.
  revert x. induction str as [ | c rest IH ]; intros x; cbn [split_comma].
  - intros [ <- | [] ]. reflexivity.
  - destruct (Ascii.eqb c ",") eqn:Hc.
    + intros [ <- | Hin ]; [ reflexivity | apply IH; exact Hin ].
    + destruct (split_comma rest) as [ | h t ].
      * intros [ <- | [] ]. cbn [has_comma]. rewrite Hc. reflexivity.
      * intros [ <- | Hin ].
        -- cbn [has_comma]. rewrite Hc. apply IH. left. reflexivity.
        -- apply IH. right. exact Hin.
Qed.

(** X11: the tags of a result task, from the [tags] text of the parsed
    object.  Every tag of the result is free of commas and has a
    character that is not white space; and when the text is the names
    of the tags joined by commas, no name containing a comma and none
    empty or made of white space only, the tags of the result are these
    names, in order. *)
Theorem tags_round_trip (task : TaskObject) :
  (forall t, In t (ti_tags (task_of_object task)) ->
             has_comma t = false /\ trim_nonempty t = true)
  /\ (forall taskTags,
         j_tags task = String.concat "," taskTags ->
         (forall t, In t taskTags ->
                    has_comma t = false /\ trim_nonempty t = true) ->
         ti_tags (task_of_object task) = taskTags).
Proof.
  unfold task_of_object. cbn [ti_tags]. split.
  - intros t. destruct (String.eqb (j_tags task) ""); [ intros [] | ].
    intros Hin. apply filter_In in Hin as [Hin Ht].
    split; [ apply (split_comma_pieces _ _ Hin) | exact Ht ].
  - intros taskTags -> Hok.
    destruct taskTags as [ | t ts ]; [ reflexivity | ].
    assert (Hne : String.eqb (String.concat "," (t :: ts)) "" = false).
    { destruct (Hok t (or_introl eq_refl)) as [_ Ht].
      destruct t as [ | c t ]; [ discriminate Ht | ].
      destruct ts; reflexivity. }
    rewrite Hne, split_comma_concat by (intros x Hx; apply (Hok x Hx)).
    apply filter_all. intros x Hx. apply (Hok x Hx).
Qed.

Lemma tags_round_trip_witness :
  let task :=
    {| j_id := "t"; j_name := "t"; j_completed := false; j_flagged := false;
       j_estimatedMinutes := None; j_dueDate := None; j_deferDate := None;
       j_tags := "home,phone call"; j_projectName := None; j_note := "";
       j_urgencyScore := 0; j_priorityLevel := low |} in
  ti_tags (task_of_object task) = ["home"; "phone call"].
Proof.
  intros task.
  apply (proj2 (tags_round_trip task) ["home"; "phone call"] eq_refl).
  intros t [ <- | [ <- | [] ] ]; split; reflexivity.
Defined.



(** X13: what the script prints on success is consistent with itself:
    the perspective is the one asked for; the number of tasks is
    [totalFiltered], which is the sum of the three counters; the number
    of projects is the number of projects of the document; [maxResults]
    is the budget the script carries.  This holds for every script, so
    for every budget, positive or not. *)
Theorem result_counts (s : Script) (current_date : nat -> Z) (doc : Document)
    (perspective : string) (tasks : list TaskObject)
    (projects : list ProjectObject) (stats : Stats) :
  run_script s current_date doc = OutputSuccess perspective tasks projects stats ->
  perspective = s_perspectiveName s
  /\ Z.of_nat (List.length tasks) = totalFiltered stats
  /\ totalFiltered stats
     = highPriority stats + mediumPriority stats + lowPriority stats
  /\ List.length projects = List.length (doc_flattenedProjects doc)
  /\ stats_maxResults stats = s_maxResults s.
Proof.
  intros Hrun.
  assert (Hp : perspective = s_perspectiveName s).
  { unfold run_script in Hrun.
    destruct (set_perspective s doc); [ discriminate | ].
    injection Hrun as <- _ _ _. reflexivity. }
  apply run_script_success in Hrun as (-> & -> & ->).
  split; [ exact Hp | ].
  cbn [make_stats totalFiltered highPriority mediumPriority lowPriority
       stats_maxResults].
  pose proof (final_counter s current_date doc high) as Ch.
  pose proof (final_counter s current_date doc medium) as Cm.
  pose proof (final_counter s current_date doc low) as Cl.
  cbn [counter bucket] in Ch, Cm, Cl.
  split; [ | split; [ reflexivity | split; [ apply length_map | reflexivity ] ] ].
  unfold assemble. destruct (s_prioritizeUrgent s); rewrite !length_app; lia.
Qed.

Lemma result_counts_witness :
  let s := generateOptimizedGetDataByPerspectiveScript
             (with_budget (-5) (criteria "Inbox")) in
  let st := final_state s noon scenario_document in
  "Inbox" = s_perspectiveName s
  /\ Z.of_nat (List.length (assemble s st)) = totalFiltered (make_stats s st)
  /\ totalFiltered (make_stats s st)
     = highPriority (make_stats s st) + mediumPriority (make_stats s st)
       + lowPriority (make_stats s st)
  /\ List.length (@nil ProjectObject)
     = List.length (doc_flattenedProjects scenario_document)
  /\ stats_maxResults (make_stats s st) = s_maxResults s.
Proof.
  intros s st.
  exact (result_counts s noon scenario_document "Inbox" (assemble s st) []
                       (make_stats s st) eq_refl).
Defined.

(** ** The plain path *)

Lemma plain_filter_agrees (params : GetDataByPerspectiveParams)
    (aTask : Task) :
  Plain.shouldInclude params aTask
  = shouldInclude (generateOptimizedGetDataByPerspectiveScript params) aTask.
Proof.
  unfold Plain.shouldInclude, shouldInclude, filter_task.
  unfold Plain.filter_project, Plain.filter_estimatedMinutes,
    Plain.filter_dueDate, Plain.hideCompleted', Plain.flaggedOnly',
    Plain.escapedProjectName.
  unfold filter_projectName, filter_flaggedOnly, filter_minEstimatedMinutes,
    filter_maxEstimatedMinutes, filter_withDueDate, filter_hideCompleted,
    generateOptimizedGetDataByPerspectiveScript.
  cbn [s_projectName s_flaggedOnly s_minEstimatedMinutes s_maxEstimatedMinutes
       s_withDueDate s_hideCompleted].
  destruct (with_default true (hideCompleted params)),
    (with_default false (flaggedOnly params)),
    (task_completed aTask), (task_dropped aTask), (task_flagged aTask);
    cbn [andb orb negb];
    try reflexivity;
    (destruct (negb (text_is (with_default "" (projectName params)) ""));
     [ destruct (task_containingProject aTask) as [ taskProjectName | | ];
       [ destruct (text_is taskProjectName
                           (with_default "" (projectName params))) | | ]
     | ];
     cbn [andb negb]; try reflexivity;
     destruct (emitted_bound (minEstimatedMinutes params)) as [ lo | ],
       (emitted_bound (maxEstimatedMinutes params)) as [ hi | ],
       (task_estimatedMinutes aTask) as [ minutes | | ];
     cbn [andb negb]; try reflexivity;
     repeat match goal with
            | |- context [negb (?a <? ?b)] => destruct (a <? b); cbn [andb negb]
            | |- context [negb (?a >? ?b)] => destruct (a >? b); cbn [andb negb]
            end;
     try reflexivity;
     destruct (withDueDate params) as [ [] | ], (task_dueDate aTask);
     reflexivity).
Qed.

(** X14: the two scripts filter alike.  A task is kept by the plain
    script exactly when it reaches the scoring code of the
    quota-bounded script, whatever the criteria. *)
Theorem both_paths_filter_alike (params : GetDataByPerspectiveParams)
    (aTask : Task) :
  Plain.shouldInclude params aTask
  = shouldInclude (generateOptimizedGetDataByPerspectiveScript params) aTask.
Proof. apply plain_filter_agrees. Qed.

Lemma plain_task_loop_filter (params : GetDataByPerspectiveParams)
    (allTasks : list Task) :
  Plain.task_loop params allTasks
  = map Plain.task_object (filter (Plain.shouldInclude params) allTasks).
Proof.
  unfold Plain.task_loop.
  enough (H : forall acc,
             fold_left (fun visibleTasks aTask =>
                          if Plain.shouldInclude params aTask
                          then visibleTasks ++ [Plain.task_object aTask]
                          else visibleTasks)
                       allTasks acc
             = acc ++ map Plain.task_object
                          (filter (Plain.shouldInclude params) allTasks))
    by apply (H []).
  induction allTasks as [ | aTask rest IH ]; intros acc; cbn.
  - symmetry. apply app_nil_r.
  - rewrite IH. destruct (Plain.shouldInclude params aTask); cbn.
    + rewrite <- app_assoc. reflexivity.
    + reflexivity.
Qed.

Lemma plain_set_perspective (params : GetDataByPerspectiveParams) (doc : Document) :
  Plain.set_perspective params doc
  = set_perspective (generateOptimizedGetDataByPerspectiveScript params) doc.
Proof. reflexivity. Qed.

(** X15: the quota-bounded script returns nothing the plain script does
    not.  On the same document and criteria the two scripts succeed or
    fail together, with the same message; the plain script returns, in
    the order of the document and without a cap, the object of every
    task that passes the filters; and every task object of the
    quota-bounded script comes from a task whose plain object is in the
    plain result. *)
Theorem quota_path_within_plain_path
    (params : GetDataByPerspectiveParams) (current_date : nat -> Z)
    (doc : Document) :
  let s := generateOptimizedGetDataByPerspectiveScript params in
  match run_script s current_date doc, Plain.run_script params doc with
  | OutputSuccess perspective tasks _ _,
    Plain.OutputSuccess perspective' tasks' _ =>
      perspective = perspective'
      /\ tasks' = map Plain.task_object
                      (filter (fun aTask => shouldInclude s aTask)
                              (doc_flattenedTasks doc))
      /\ (forall o, In o tasks ->
                    exists i aTask,
                      object_of s current_date (doc_flattenedTasks doc) o i aTask
                      /\ In (Plain.task_object aTask) tasks')
      /\ (List.length tasks <= List.length tasks')%nat
  | OutputFailure error, Plain.OutputFailure error' => error = error'
  | _, _ => False
  end.
Proof.
  cbn zeta. set (s := generateOptimizedGetDataByPerspectiveScript params).
  unfold run_script, Plain.run_script. rewrite plain_set_perspective. fold s.
  destruct (set_perspective s doc); [ reflexivity | ].
  rewrite plain_task_loop_filter.
  assert (Hfilter : filter (Plain.shouldInclude params) (doc_flattenedTasks doc)
                    = filter (fun aTask => shouldInclude s aTask)
                             (doc_flattenedTasks doc)).
  { apply filter_ext. intros a. apply plain_filter_agrees. }
  rewrite Hfilter. split; [ reflexivity | split; [ reflexivity | split ] ].
  - intros o Hin. apply returned_origin in Hin as (i & aTask & Hobj).
    exists i, aTask. split; [ exact Hobj | ].
    apply in_map, filter_In. destruct Hobj as (Hnth & Hinc & _).
    split; [ eapply nth_error_In; exact Hnth | exact Hinc ].
  - rewrite length_map.
    assert (Hcands : forall l i,
               List.length (candidates s current_date i l)
               = List.length (filter (fun aTask => shouldInclude s aTask) l)).
    { induction l as [ | a l IH ]; intros i; cbn [candidates filter];
        [ reflexivity | ].
      unfold candidate. destruct (shouldInclude s a); cbn [List.length];
        rewrite IH; reflexivity. }
    rewrite <- (Hcands _ 0%nat).
    rewrite (Permutation_length (assemble_buckets s _)).
    rewrite <- (Permutation_length
                  (levels_partition
                     (candidates s current_date 0 (doc_flattenedTasks doc)))).
    pose proof (final_bucket s current_date doc high) as Hh.
    pose proof (final_bucket s current_date doc medium) as Hm.
    pose proof (final_bucket s current_date doc low) as Hl.
    cbn [bucket] in Hh, Hm, Hl. rewrite Hh, Hm, Hl, !length_app.
    rewrite !length_firstn. lia.
Qed.

(** X16: the projects of the plain script.  With the toggle on (the
    default), no returned project is done or dropped and every project
    that is neither is returned; with the toggle off every project is
    returned; in both cases in the order of the document. *)
Theorem plain_projects (params : GetDataByPerspectiveParams)
    (allProjects : list Project) :
  let visibleProjects := Plain.project_loop params allProjects in
  (with_default true (hideCompleted params) = true ->
   visibleProjects
   = map Plain.project_object
         (filter (fun aProject =>
                    match project_status aProject with
                    | done | dropped => false
                    | active | on_hold => true
                    end) allProjects)
   /\ forall project, In project visibleProjects ->
                      pj_status project <> "done"
                      /\ pj_status project <> "dropped")
  /\ (with_default true (hideCompleted params) = false ->
      visibleProjects = map Plain.project_object allProjects).
Proof.
  cbn zeta. rewrite plain_project_loop_filter. split; intros Hh.
  - assert (Hf : filter (Plain.project_shouldInclude params) allProjects
                 = filter (fun aProject =>
                             match project_status aProject with
                             | done | dropped => false
                             | active | on_hold => true
                             end) allProjects).
    { apply filter_ext. intros a. unfold Plain.project_shouldInclude,
        Plain.hideCompleted'. rewrite Hh.
      destruct (project_status a); reflexivity. }
    rewrite Hf. split; [ reflexivity | ].
    intros project Hin. apply in_map_iff in Hin as (a & <- & Ha).
    apply filter_In in Ha as [_ Ha]. cbn [Plain.project_object pj_status].
    destruct (project_status a); try discriminate; split; discriminate.
  - f_equal. apply filter_all. intros a _.
    unfold Plain.project_shouldInclude, Plain.hideCompleted'. rewrite Hh.
    reflexivity.
Qed.

Lemma plain_projects_witness :
  let params := criteria "Inbox" in
  let allProjects := [a_project "Home" active; a_project "Old" done;
                      a_project "Gone" dropped; a_project "Later" on_hold] in
  map pj_name (Plain.project_loop params allProjects) = ["Home"; "Later"].
Proof.
  intros params allProjects.
  rewrite (proj1 (proj1 (plain_projects params allProjects) eq_refl)).
  reflexivity.
Defined.

(** X17: the failures of the plain [getDataByPerspective].  When the
    call of the provider fails, the result is a failure whose error is
    the exception's message, or a fixed text when the exception has no
    message or an empty one; when the output does not parse, the error
    is a fixed prefix followed by the raw output; in neither case is the
    error empty.  An output that parses is returned as it is. *)
Theorem plain_call_failures
    (execAsync : GetDataByPerspectiveParams -> Plain.ExecOutcome)
    (JSON_parse : string -> option Plain.Result)
    (params : GetDataByPerspectiveParams) :
  let r := Plain.getDataByPerspective execAsync JSON_parse params in
  (forall message,
      execAsync params = Plain.Rejected message ->
      Plain.success r = false /\ Plain.tasks r = None
      /\ exists e, Plain.error r = Some e /\ e <> ""
                   /\ (forall m, message = Some m -> m <> "" -> e = m))
  /\ (forall stdout,
         execAsync params = Plain.Resolved stdout ->
         JSON_parse stdout = None ->
         Plain.success r = false /\ Plain.tasks r = None
         /\ Plain.error r = Some ("Failed to parse result: " ++ stdout)%string)
  /\ (forall stdout result,
         execAsync params = Plain.Resolved stdout ->
         JSON_parse stdout = Some result -> r = result).
Proof.
  cbn zeta. unfold Plain.getDataByPerspective. split; [ | split ].
  - intros message Hexec. rewrite Hexec.
    split; [ reflexivity | split; [ reflexivity | ] ].
    cbn [Plain.error]. eexists. split; [ reflexivity | split ].
    + unfold Plain.message_or. destruct message as [ m | ]; [ | discriminate ].
      destruct (String.eqb_spec m ""); [ discriminate | assumption ].
    + intros m -> Hm. unfold Plain.message_or.
      destruct (String.eqb_spec m ""); [ contradiction | reflexivity ].
  - intros stdout Hexec Hparse. rewrite Hexec, Hparse. repeat split.
  - intros stdout result Hexec Hparse. rewrite Hexec, Hparse. reflexivity.
Qed.

Lemma plain_call_failures_witness :
  let r := Plain.getDataByPerspective
             (fun _ => Plain.Resolved "OmniFocus got an error")
             (fun _ => None) (criteria "Inbox") in
  Plain.success r = false /\ Plain.tasks r = None
  /\ Plain.error r
     = Some "Failed to parse result: OmniFocus got an error".
Proof.
  intros r.
  apply (proj1 (proj2 (plain_call_failures
                         (fun _ => Plain.Resolved "OmniFocus got an error")
                         (fun _ => None) (criteria "Inbox")))
               "OmniFocus got an error");
    reflexivity.
Defined.

(** ** Listing the perspectives *)

Lemma fold_left_append_map {A B : Type} (f : A -> B) (l : list A) (acc : list B) :
  fold_left (fun resultArray x => resultArray ++ [f x]) l acc = acc ++ map f l.
Proof.
  revert acc. induction l as [ | a l IH ]; intros acc; cbn.
  - symmetry. apply app_nil_r.
  - rewrite IH, <- app_assoc. reflexivity.
Qed.

Lemma perspectives_script_listing (names : list string) :
  Perspectives.run_script (inr names)
  = Perspectives.Listing
      (map (fun n => {| Perspectives.name := n;
                        Perspectives.type := Perspectives.built_in |})
           builtInPerspectives
       ++ map (fun n => {| Perspectives.name := n;
                           Perspectives.type := Perspectives.custom |})
              names).
Proof.
  unfold Perspectives.run_script. cbn zeta.
  rewrite (fold_left_append_map
             (fun n => {| Perspectives.name := n;
                          Perspectives.type := Perspectives.custom |})).
  rewrite (fold_left_append_map
             (fun n => {| Perspectives.name := n;
                          Perspectives.type := Perspectives.built_in |})).
  reflexivity.
Qed.

Lemma filter_map_none {A B : Type} (g : A -> B) (f : B -> bool) (l : list A) :
  (forall a, f (g a) = false) -> filter f (map g l) = [].
Proof.
  intros H. induction l as [ | a l IH ]; cbn; [ reflexivity | ].
  rewrite H. exact IH.
Qed.

(** X18: the script that lists the perspectives, run on a document
    whose perspective names can be read, prints the six built-in
    perspectives followed by the perspectives of the document, in their
    order; of that listing, the handler's list of built-in names is the
    six names and its list of custom names is the names of the
    document's perspectives. *)
Theorem perspectives_listing (names : list string) :
  exists listing,
    Perspectives.run_script (inr names) = Perspectives.Listing listing
    /\ map Perspectives.name listing = builtInPerspectives ++ names
    /\ Handler.builtInPerspectives listing = builtInPerspectives
    /\ Handler.customPerspectives listing = names.
Proof.
  rewrite perspectives_script_listing.
  eexists. split; [ reflexivity | ].
  unfold Handler.builtInPerspectives, Handler.customPerspectives.
  rewrite !filter_app, !map_app.
  rewrite (filter_all _ (map _ builtInPerspectives))
    by (intros x Hx; apply in_map_iff in Hx as (n & <- & _); reflexivity).
  rewrite (filter_map_none _ _ names) by reflexivity.
  rewrite (filter_map_none _ _ builtInPerspectives) by reflexivity.
  rewrite (filter_all _ (map _ names))
    by (intros x Hx; apply in_map_iff in Hx as (n & <- & _); reflexivity).
  rewrite !map_map. cbn [Perspectives.name map app].
  rewrite !map_id, app_nil_r. repeat split.
Qed.

Lemma set_perspective_found (s : Script) (doc : Document) :
  In (s_perspectiveName s) (builtInPerspectives ++ doc_perspectives doc) ->
  set_perspective s doc = None.
Proof.
  intros Hin. unfold set_perspective.
  destruct (existsb (text_is (s_perspectiveName s)) builtInPerspectives) eqn:Hb;
    [ reflexivity | ].
  destruct (existsb (fun p => text_is p (s_perspectiveName s))
                    (doc_perspectives doc)) eqn:Hc;
    [ reflexivity | ].
  exfalso. apply in_app_iff in Hin as [ Hin | Hin ].
  - assert (Ht : existsb (text_is (s_perspectiveName s)) builtInPerspectives
                 = true).
    { apply existsb_exists. exists (s_perspectiveName s).
      split; [ exact Hin | apply text_is_refl ]. }
    congruence.
  - assert (Ht : existsb (fun p => text_is p (s_perspectiveName s))
                         (doc_perspectives doc) = true).
    { apply existsb_exists. exists (s_perspectiveName s).
      split; [ exact Hin | apply text_is_refl ]. }
    congruence.
Qed.

(** X19: every perspective that the listing script prints for a
    document can be queried on that document: the quota-bounded script
    for that name succeeds, whatever the other criteria. *)
Theorem listed_perspectives_can_be_queried
    (doc : Document) (listing : list Perspectives.PerspectiveInfo)
    (p : Perspectives.PerspectiveInfo)
    (params : GetDataByPerspectiveParams) (current_date : nat -> Z) :
  Perspectives.run_script (inr (doc_perspectives doc))
  = Perspectives.Listing listing ->
  In p listing ->
  perspectiveName params = Perspectives.name p ->
  exists tasks projects stats,
    run_script (generateOptimizedGetDataByPerspectiveScript params)
               current_date doc
    = OutputSuccess (Perspectives.name p) tasks projects stats.
Proof.
  rewrite perspectives_script_listing.
  intros Hlisting Hin Hname.
  assert (Hl : listing
               = map (fun n => {| Perspectives.name := n;
                                  Perspectives.type := Perspectives.built_in |})
                     builtInPerspectives
                 ++ map (fun n => {| Perspectives.name := n;
                                     Perspectives.type := Perspectives.custom |})
                        (doc_perspectives doc))
    by congruence.
  rewrite Hl in Hin. clear Hlisting Hl.
  assert (Hfound : In (Perspectives.name p)
                      (builtInPerspectives ++ doc_perspectives doc)).
  { apply in_app_iff. apply in_app_iff in Hin as [ Hin | Hin ];
      apply in_map_iff in Hin as (n & <- & Hn); [ left | right ]; exact Hn. }
  unfold run_script.
  rewrite set_perspective_found by (cbn [s_perspectiveName
    generateOptimizedGetDataByPerspectiveScript]; rewrite Hname; exact Hfound).
  cbn [s_perspectiveName generateOptimizedGetDataByPerspectiveScript].
  rewrite Hname. eauto.
Qed.

Lemma listed_perspectives_can_be_queried_witness :
  exists tasks projects stats,
    run_script (generateOptimizedGetDataByPerspectiveScript (criteria "Today"))
               noon scenario_document
    = OutputSuccess "Today" tasks projects stats.
Proof.
  apply (listed_perspectives_can_be_queried scenario_document
           (map (fun n => {| Perspectives.name := n;
                             Perspectives.type := Perspectives.built_in |})
                builtInPerspectives
            ++ [ {| Perspectives.name := "Today";
                    Perspectives.type := Perspectives.custom |} ])
           {| Perspectives.name := "Today";
              Perspectives.type := Perspectives.custom |}
           (criteria "Today") noon).
  - reflexivity.
  - apply in_app_iff. right. left. reflexivity.
  - reflexivity.
Defined.

(** X20: the outcomes of [getPerspectives].  A failure always carries a
    non-empty error and no perspectives: the exception's message or a
    fixed text, a fixed prefix followed by the raw output that did not
    parse, or the non-empty message of the script's error object.  An
    error object whose message is empty is not seen as an error: the
    result is a success that carries that object as its perspectives. *)
Theorem perspectives_call_outcomes (reply : Perspectives.Reply) :
  let r := Perspectives.getPerspectives reply in
  (Perspectives.success r = false ->
   Perspectives.perspectives r = None
   /\ exists e, Perspectives.error r = Some e /\ e <> "")
  /\ (forall message,
         reply = Perspectives.Parsed (Perspectives.ErrorObject message) ->
         message <> "" ->
         Perspectives.success r = false /\ Perspectives.error r = Some message)
  /\ (forall stdout,
         reply = Perspectives.Unparsable stdout ->
         Perspectives.error r = Some ("Failed to parse result: " ++ stdout)%string)
  /\ (reply = Perspectives.Parsed (Perspectives.ErrorObject "") ->
      Perspectives.success r = true
      /\ Perspectives.perspectives r = Some (Perspectives.ErrorObject ""))
  /\ (forall listing,
         reply = Perspectives.Parsed (Perspectives.Listing listing) ->
         Perspectives.success r = true
         /\ Perspectives.perspectives r = Some (Perspectives.Listing listing)).
Proof.
  cbn zeta. split; [ | split; [ | split; [ | split ] ] ].
  - destruct reply as [ message | stdout | [ listing | message ] ];
      cbn [Perspectives.getPerspectives].
    + intros _. split; [ reflexivity | ]. eexists. split; [ reflexivity | ].
      unfold Plain.message_or. destruct message as [ m | ]; [ | discriminate ].
      destruct (String.eqb_spec m ""); [ discriminate | assumption ].
    + intros _. split; [ reflexivity | ]. eexists. split; [ reflexivity | ].
      discriminate.
    + discriminate.
    + destruct (String.eqb_spec message ""); cbn [negb Perspectives.success];
        [ discriminate | ].
      intros _. split; [ reflexivity | ]. eexists. split; [ reflexivity | ].
      assumption.
  - intros message -> Hne. cbn [Perspectives.getPerspectives].
    destruct (String.eqb_spec message ""); [ contradiction | ].
    split; reflexivity.
  - intros stdout ->. reflexivity.
  - intros ->. split; reflexivity.
  - intros listing ->. split; reflexivity.
Qed.

Lemma perspectives_call_outcomes_witness :
  let r := Perspectives.getPerspectives
             (Perspectives.Parsed
                (Perspectives.run_script (inl "OmniFocus is not running"))) in
  Perspectives.success r = false
  /\ Perspectives.error r = Some "OmniFocus is not running".
Proof.
  intros r.
  apply (proj1 (proj2 (perspectives_call_outcomes
                         (Perspectives.Parsed
                            (Perspectives.run_script
                               (inl "OmniFocus is not running")))))
               "OmniFocus is not running").
  - reflexivity.
  - discriminate.
Defined.

(** ** The tool handler *)

(** X21: through the handler the budget cannot be chosen.  Whatever the
    arguments, the script built from the handler's parameters has the
    capacities 200, 200 and 100 of the default budget 500 and puts
    urgent tasks first; so a result holds at most 200 high, 200 medium
    and 100 low tasks, at most 500 in all, high before medium before
    low. *)
Theorem handler_budget_is_fixed (args : Handler.Args) (current_date : nat -> Z)
    (doc : Document) (perspective : string) (tasks : list TaskObject)
    (projects : list ProjectObject) (stats : Stats) :
  let s := generateOptimizedGetDataByPerspectiveScript (Handler.query_params args) in
  run_script s current_date doc = OutputSuccess perspective tasks projects stats ->
  (maxHighPriority s = 200 /\ maxMediumPriority s = 200 /\ maxLowPriority s = 100
   /\ s_prioritizeUrgent s = true /\ stats_maxResults stats = 500)
  /\ (highPriority stats <= 200 /\ mediumPriority stats <= 200
      /\ lowPriority stats <= 100)
  /\ (List.length tasks <= 500)%nat
  /\ tasks = filter (of_level high) tasks ++ filter (of_level medium) tasks
             ++ filter (of_level low) tasks.
Proof.
  cbn zeta. intros Hrun.
  set (s := generateOptimizedGetDataByPerspectiveScript (Handler.query_params args)) in *.
  apply run_script_success in Hrun as (-> & _ & ->).
  pose proof (final_bucket_bound s current_date doc high ltac:(cbn; lia)) as Hh.
  pose proof (final_bucket_bound s current_date doc medium ltac:(cbn; lia)) as Hm.
  pose proof (final_bucket_bound s current_date doc low ltac:(cbn; lia)) as Hl.
  pose proof (final_counter s current_date doc high) as Ch.
  pose proof (final_counter s current_date doc medium) as Cm.
  pose proof (final_counter s current_date doc low) as Cl.
  change (capacity s high) with 200 in Hh.
  change (capacity s medium) with 200 in Hm.
  change (capacity s low) with 100 in Hl.
  cbn [counter bucket] in Hh, Hm, Hl, Ch, Cm, Cl.
  split; [ repeat split | split; [ | split ] ].
  - cbn [make_stats highPriority mediumPriority lowPriority]. repeat split; assumption.
  - unfold assemble. change (s_prioritizeUrgent s) with true. cbn iota.
    rewrite !length_app. lia.
  - rewrite !filter_level_assemble. reflexivity.
Qed.

Lemma handler_budget_is_fixed_witness :
  let args :=
    {| Handler.perspectiveName := Some "Inbox";
       Handler.hideCompleted := None;
       Handler.hideRecurringDuplicates := None;
       Handler.minEstimatedMinutes := None;
       Handler.maxEstimatedMinutes := None;
       Handler.flaggedOnly := None;
       Handler.withTags := None;
       Handler.withDueDate := None;
       Handler.projectName := None |} in
  let s := generateOptimizedGetDataByPerspectiveScript (Handler.query_params args) in
  let st := final_state s noon scenario_document in
  (List.length (assemble s st) <= 500)%nat.
Proof.
  intros args s st.
  exact (proj1 (proj2 (proj2 (handler_budget_is_fixed
                                args noon scenario_document "Inbox"
                                (assemble s st) [] (make_stats s st) eq_refl)))).
Defined.

(** The sort. *)

Section SortBy.

Variable A : Type.
Variable key : A -> Z.

(** The comparator of the handler, [fun a b => key b - key a], puts the
    greater key first. *)

Lemma insert_by_permutation (x : A) (l : list A) :
  Permutation (Handler.insert_by (fun a b => key b - key a) x l) (x :: l).
Proof.
  induction l as [ | y l IH ]; cbn [Handler.insert_by]; [ reflexivity | ].
  destruct (key y - key x <=? 0); [ reflexivity | ].
  rewrite IH. apply perm_swap.
Qed.

Lemma sort_by_permutation (l : list A) :
  Permutation (Handler.sort_by (fun a b => key b - key a) l) l.
Proof.
  induction l as [ | x l IH ]; cbn [Handler.sort_by fold_right];
    [ reflexivity | ].
  rewrite insert_by_permutation. constructor. exact IH.
Qed.

Lemma insert_by_descending (x : A) (l : list A) :
  StronglySorted (fun a b => key b <= key a) l ->
  StronglySorted (fun a b => key b <= key a) (Handler.insert_by (fun a b => key b - key a) x l).
Proof.
  induction l as [ | y l IH ]; intros Hs; cbn [Handler.insert_by].
  - repeat constructor.
  - inversion Hs as [ | ? ? Hl Hy ]; subst.
    destruct (Z.leb_spec (key y - key x) 0) as [ Hle | Hgt ].
    + constructor; [ exact Hs | ].
      constructor; [ lia | ].
      eapply Forall_impl; [ | exact Hy ]. cbn. intros. lia.
    + constructor; [ apply IH; exact Hl | ].
      eapply Permutation_Forall;
        [ symmetry; apply insert_by_permutation | ].
      constructor; [ lia | exact Hy ].
Qed.

Lemma sort_by_descending (l : list A) :
  StronglySorted (fun a b => key b <= key a) (Handler.sort_by (fun a b => key b - key a) l).
Proof.
  induction l as [ | x l IH ]; cbn [Handler.sort_by fold_right].
  - constructor.
  - apply insert_by_descending. exact IH.
Qed.

Lemma insert_by_stable (k : Z) (x : A) (l : list A) :
  filter (fun a => key a =? k) (Handler.insert_by (fun a b => key b - key a) x l)
  = filter (fun a => key a =? k) (x :: l).
Proof.
  induction l as [ | y l IH ]; cbn [Handler.insert_by]; [ reflexivity | ].
  destruct (Z.leb_spec (key y - key x) 0) as [ Hle | Hgt ]; [ reflexivity | ].
  cbn [filter] in *. rewrite IH.
  destruct (Z.eqb_spec (key x) k), (Z.eqb_spec (key y) k);
    try reflexivity; lia.
Qed.

Lemma sort_by_stable (k : Z) (l : list A) :
  filter (fun a => key a =? k) (Handler.sort_by (fun a b => key b - key a) l)
  = filter (fun a => key a =? k) l.
Proof.
  induction l as [ | x l IH ]; cbn [Handler.sort_by fold_right];
    [ reflexivity | ].
  rewrite insert_by_stable. cbn [filter].
  fold (Handler.sort_by (fun a b => key b - key a) l). rewrite IH. reflexivity.
Qed.

End SortBy.

(** X22: the order in which the handler prints the tasks.  When a
    minimum or a maximum estimate is given (and is not 0) the tasks are
    printed by estimate, the longest first, a task without estimate
    counting as 0, and tasks of equal estimate in the order of the
    result; otherwise they are printed in the order of the result.  In
    both cases every task is printed once. *)
Theorem sortedTasks_order (args : Handler.Args) (tasks : list TaskInfo) :
  let printed := Handler.sortedTasks args tasks in
  Permutation printed tasks
  /\ (truthy_number (Handler.minEstimatedMinutes args)
      || truthy_number (Handler.maxEstimatedMinutes args) = true ->
      StronglySorted (fun a b => Handler.minutes_or_zero b
                                 <= Handler.minutes_or_zero a) printed
      /\ forall k,
           filter (fun t => Handler.minutes_or_zero t =? k) printed
           = filter (fun t => Handler.minutes_or_zero t =? k) tasks)
  /\ (truthy_number (Handler.minEstimatedMinutes args)
      || truthy_number (Handler.maxEstimatedMinutes args) = false ->
      printed = tasks).
Proof.
  cbn zeta. unfold Handler.sortedTasks.
  destruct (truthy_number (Handler.minEstimatedMinutes args)
            || truthy_number (Handler.maxEstimatedMinutes args)).
  - split; [ apply sort_by_permutation | split; [ | discriminate ] ].
    intros _. split.
    + apply (sort_by_descending TaskInfo Handler.minutes_or_zero).
    + intros k. apply (sort_by_stable TaskInfo Handler.minutes_or_zero).
  - split; [ reflexivity | split; [ discriminate | reflexivity ] ].
Qed.

Lemma sortedTasks_order_witness :
  let args :=
    {| Handler.perspectiveName := Some "Inbox";
       Handler.hideCompleted := None;
       Handler.hideRecurringDuplicates := None;
       Handler.minEstimatedMinutes := Some 15;
       Handler.maxEstimatedMinutes := None;
       Handler.flaggedOnly := None;
       Handler.withTags := None;
       Handler.withDueDate := None;
       Handler.projectName := None |} in
  let tasks :=
    map task_of_object
        [ task_object (a_task "short" true (Got 20) MissingValue) 120 medium;
          task_object (a_task "long" false (Got 90) MissingValue) 0 low;
          task_object (a_task "also short" false (Got 20) MissingValue) 20 low ] in
  map ti_name (Handler.sortedTasks args tasks) = ["long"; "short"; "also short"]
  /\ StronglySorted (fun a b => Handler.minutes_or_zero b
                                <= Handler.minutes_or_zero a)
                    (Handler.sortedTasks args tasks).
Proof.
  intros args tasks. split; [ reflexivity | ].
  apply (proj1 (proj2 (sortedTasks_order args tasks))). reflexivity.
Defined.

(** The statistics. *)

Lemma totalMinutes_bounds (lo hi : Z) (l : list TaskInfo) :
  (forall t, In t l -> lo <= Handler.minutes_or_zero t <= hi) ->
  forall acc,
    acc + Z.of_nat (List.length l) * lo
    <= fold_left (fun sum t => sum + Handler.minutes_or_zero t) l acc
    <= acc + Z.of_nat (List.length l) * hi.
Proof.
  induction l as [ | t l IH ]; intros Hin acc; cbn [fold_left List.length].
  - lia.
  - specialize (IH (fun x Hx => Hin x (or_intror Hx))
                   (acc + Handler.minutes_or_zero t)).
    pose proof (Hin t (or_introl eq_refl)). lia.
Qed.

Lemma Math_round_quotient (T : Z) (p : positive) :
  Handler.Math_round (inject_Z T / inject_Z (Z.pos p))
  = (2 * T + Z.pos p) / (2 * Z.pos p).
Proof.
  unfold Handler.Math_round, Qfloor, Qplus, Qdiv, Qmult, Qinv, inject_Z.
  cbn [Qnum Qden]. rewrite !Pos.mul_1_l, !Z.mul_1_r, !Z.mul_1_l.
  rewrite Pos2Z.inj_mul. f_equal; lia.
Qed.

(** X23: the average the handler prints.  The tasks counted are those
    with a positive estimate, so no more than the tasks of the result;
    when there is at least one, the rounded average lies between the
    smallest and the largest of their estimates, and is at least 1. *)
Theorem average_estimate (tasks : list TaskInfo) (lo hi : Z) :
  let counted := Handler.tasksWithEstimate tasks in
  counted <> [] ->
  (forall t, In t counted -> lo <= Handler.minutes_or_zero t <= hi) ->
  (List.length counted <= List.length tasks)%nat
  /\ (forall t, In t counted -> 0 < Handler.minutes_or_zero t)
  /\ lo <= Handler.avgMinutes counted <= hi
  /\ 1 <= Handler.avgMinutes counted.
Proof.
  cbn zeta. intros Hne Hbounds.
  assert (Hpos : forall t, In t (Handler.tasksWithEstimate tasks) ->
                           0 < Handler.minutes_or_zero t).
  { intros t Hin. apply filter_In in Hin as [_ Ht].
    apply andb_true_iff in Ht as [_ Ht]. unfold Handler.minutes_or_zero.
    rewrite Z.gtb_ltb in Ht. apply Z.ltb_lt in Ht. exact Ht. }
  assert (Havg : forall a b,
             (forall t, In t (Handler.tasksWithEstimate tasks) ->
                        a <= Handler.minutes_or_zero t <= b) ->
             a <= Handler.avgMinutes (Handler.tasksWithEstimate tasks) <= b).
  { intros a b Hab. unfold Handler.avgMinutes, Handler.totalMinutes.
    pose proof (totalMinutes_bounds a b _ Hab 0) as Ht.
    destruct (Handler.tasksWithEstimate tasks) as [ | t l ];
      [ contradiction | ].
    set (T := fold_left _ _ _) in *.
    change (Z.of_nat (List.length (t :: l)))
      with (Z.pos (Pos.of_succ_nat (List.length l))) in *.
    set (p := Pos.of_succ_nat (List.length l)) in *.
    rewrite Math_round_quotient. split.
    - apply Z.div_le_lower_bound; lia.
    - apply Z.lt_succ_r. apply Z.div_lt_upper_bound; lia. }
  split; [ apply filter_length_le | split; [ exact Hpos | split ] ].
  - apply Havg. exact Hbounds.
  - apply (Havg 1 (Z.max 1 hi)). intros t Hin.
    pose proof (Hpos t Hin). pose proof (Hbounds t Hin). lia.
Qed.

Lemma average_estimate_witness :
  let tasks :=
    map task_of_object
        [ task_object (a_task "a" false (Got 20) MissingValue) 20 low;
          task_object (a_task "b" false MissingValue MissingValue) 0 low;
          task_object (a_task "c" false (Got 45) MissingValue) 10 low ] in
  Handler.avgMinutes (Handler.tasksWithEstimate tasks) = 33
  /\ 20 <= Handler.avgMinutes (Handler.tasksWithEstimate tasks) <= 45.
Proof.
  intros tasks. split; [ reflexivity | ].
  apply (average_estimate tasks 20 45).
  - discriminate.
  - intros t [ <- | [ <- | [] ] ]; cbn; lia.
Defined.

(** The printing of durations. *)

Lemma string_of_uint_number_text (d : Decimal.uint) :
  number_text (NilZero.string_of_uint d) = true.
Proof.
  assert (H : forall u, number_text (NilEmpty.string_of_uint u) = true)
    by (induction u; cbn; auto).
  destruct d; first [ reflexivity | apply H ].
Qed.

Lemma number_to_string_number_text (n : Z) :
  number_text (Handler.number_to_string n) = true.
Proof.
  unfold Handler.number_to_string, NilZero.string_of_int.
  destruct (Z.to_int n) as [ d | d ].
  - apply string_of_uint_number_text.
  - change (number_text (String "-" (NilZero.string_of_uint d)))
      with (number_text (NilZero.string_of_uint d)).
    apply string_of_uint_number_text.
Qed.

Lemma number_to_string_injective (n m : Z) :
  Handler.number_to_string n = Handler.number_to_string m -> n = m.
Proof.
  unfold Handler.number_to_string. intros H.
  assert (Hnonnil : forall z, Z.to_int z <> Decimal.Pos Decimal.Nil
                              /\ Z.to_int z <> Decimal.Neg Decimal.Nil).
  { intros [ | p | p ]; cbn; split; try discriminate;
      intros [= Hp]; exact (DecimalPos.Unsigned.to_uint_nonnil p Hp). }
  apply (f_equal NilZero.int_of_string) in H.
  rewrite !NilZero.isi in H by apply Hnonnil.
  injection H as H. apply (f_equal Z.of_int) in H.
  rewrite !DecimalZ.of_to in H. exact H.
Qed.

(** Two texts made of a number followed by something that does not
    begin like a number are equal only part by part. *)
Lemma number_prefix_unique (a b s t : string) :
  number_text a = true -> number_text b = true ->
  begins_other s = true -> begins_other t = true ->
  (a ++ s)%string = (b ++ t)%string -> a = b /\ s = t.
Proof.
  revert b. induction a as [ | c a IH ]; intros [ | c' b ] Ha Hb Hs Ht Heq;
    cbn [String.append number_text] in *.
  - auto.
  - subst s. cbn [begins_other] in Hs.
    apply andb_true_iff in Hb as [Hc _]. rewrite Hc in Hs. discriminate.
  - subst t. cbn [begins_other] in Ht.
    apply andb_true_iff in Ha as [Hc _]. rewrite Hc in Ht. discriminate.
  - injection Heq as -> Heq.
    apply andb_true_iff in Ha as [_ Ha]. apply andb_true_iff in Hb as [_ Hb].
    destruct (IH b Ha Hb Hs Ht Heq) as [-> ->]. auto.
Qed.

Lemma formatDuration_shape (minutes : Z) :
  exists x rest,
    Handler.formatDuration minutes = (Handler.number_to_string x ++ rest)%string
    /\ ((minutes < 60 /\ x = minutes /\ rest = "分")
        \/ (60 <= minutes /\ minutes = 60 * x /\ rest = "時間")
        \/ (exists r, 60 <= minutes /\ minutes = 60 * x + r /\ 0 < r < 60
                      /\ rest = ("時間" ++ Handler.number_to_string r ++ "分")%string)).
Proof.
  unfold Handler.formatDuration.
  destruct (Z.ltb_spec minutes 60) as [ Hlt | Hge ].
  - exists minutes, "分". auto.
  - cbn zeta.
    assert (Hrem : Z.rem minutes 60 = minutes mod 60)
      by (apply Z.rem_mod_nonneg; lia).
    pose proof (Z.div_mod minutes 60 ltac:(lia)) as Hdm.
    pose proof (Z.mod_pos_bound minutes 60 ltac:(lia)) as Hb.
    destruct (Z.eqb_spec (Z.rem minutes 60) 0) as [ H0 | Hn0 ].
    + exists (minutes / 60), "時間". split; [ reflexivity | right; left ].
      repeat split; try assumption; lia.
    + exists (minutes / 60),
        ("時間" ++ Handler.number_to_string (Z.rem minutes 60) ++ "分")%string.
      split; [ reflexivity | right; right ].
      exists (Z.rem minutes 60). repeat split; try assumption; lia.
Qed.

(** X24: [formatDuration] tells durations apart: two whole numbers of
    minutes that are printed alike are equal. *)
Theorem formatDuration_injective (m1 m2 : Z) :
  Handler.formatDuration m1 = Handler.formatDuration m2 -> m1 = m2.
Proof.
  intros Heq.
  destruct (formatDuration_shape m1) as (x1 & rest1 & E1 & C1).
  destruct (formatDuration_shape m2) as (x2 & rest2 & E2 & C2).
  rewrite E1, E2 in Heq.
  assert (Hrest : forall rest x m,
             ((m < 60 /\ x = m /\ rest = "分")
              \/ (60 <= m /\ m = 60 * x /\ rest = "時間")
              \/ (exists r, 60 <= m /\ m = 60 * x + r /\ 0 < r < 60
                            /\ rest = ("時間" ++ Handler.number_to_string r
                                       ++ "分")%string)) ->
             begins_other rest = true).
  { intros rest x m [ (_ & _ & ->) | [ (_ & _ & ->) | (r & _ & _ & _ & ->) ] ];
      reflexivity. }
  destruct (number_prefix_unique _ _ _ _
              (number_to_string_number_text x1)
              (number_to_string_number_text x2)
              (Hrest _ _ _ C1) (Hrest _ _ _ C2) Heq) as [Hx Hr].
  apply number_to_string_injective in Hx. subst x2.
  destruct C1 as [ (L1 & X1 & R1) | [ (G1 & X1 & R1) | (r1 & G1 & X1 & B1 & R1) ] ];
    destruct C2 as [ (L2 & X2 & R2) | [ (G2 & X2 & R2) | (r2 & G2 & X2 & B2 & R2) ] ];
    subst rest1 rest2; try discriminate Hr; try lia.
  - exfalso. cbn [String.append] in Hr.
    destruct (Handler.number_to_string r2); discriminate Hr.
  - exfalso. cbn [String.append] in Hr.
    destruct (Handler.number_to_string r1); discriminate Hr.
  - assert (Hr' : (Handler.number_to_string r1 ++ "分")%string
                  = (Handler.number_to_string r2 ++ "分")%string).
    { cbn [String.append] in Hr. congruence. }
    destruct (number_prefix_unique
                (Handler.number_to_string r1) (Handler.number_to_string r2)
                "分" "分"
                (number_to_string_number_text r1)
                (number_to_string_number_text r2) eq_refl eq_refl Hr')
      as [Hrr _].
    apply number_to_string_injective in Hrr. lia.
Qed.

Lemma formatDuration_injective_witness :
  125 = 60 * 2 + 5.
Proof.
  apply (formatDuration_injective 125 (60 * 2 + 5)). reflexivity.
Defined.

(** ** No task twice *)

Lemma candidates_ids (s : Script) (current_date : nat -> Z)
    (allTasks : list Task) :
  forall i,
    map j_id (candidates s current_date i allTasks)
    = map task_id (filter (fun aTask => shouldInclude s aTask) allTasks).
Proof.
  induction allTasks as [ | aTask rest IH ]; intros i; cbn [candidates filter];
    [ reflexivity | ].
  unfold candidate. destruct (shouldInclude s aTask); cbn [map]; rewrite IH;
    reflexivity.
Qed.

Lemma distinct_after_filter {X Y : Type} (keep : X -> bool) (g : X -> Y)
    (xs : list X) :
  NoDup (map g xs) -> NoDup (map g (filter keep xs)).
Proof.
  intros Hxs. induction xs as [ | x xs IHxs ]; cbn [map filter] in *.
  - constructor.
  - apply NoDup_cons_iff in Hxs as [Hfresh Hrest].
    destruct (keep x); [ | exact (IHxs Hrest) ].
    cbn [map]. apply NoDup_cons; [ | exact (IHxs Hrest) ].
    intros Hin. apply Hfresh.
    apply in_map_iff in Hin as (y & Hy & Hin).
    apply filter_In in Hin as [Hin _].
    rewrite <- Hy. apply in_map. exact Hin.
Qed.

Lemma NoDup_map_firstn {A B : Type} (f : A -> B) (n : nat) (l : list A) :
  NoDup (map f l) -> NoDup (map f (firstn n l)).
Proof.
  intros H. rewrite <- (firstn_skipn n l), map_app in H.
  apply NoDup_app_remove_r in H. exact H.
Qed.

(** X27: no task twice.  When the tasks of the document have distinct
    identifiers, so have the returned task objects. *)
Theorem no_task_twice (s : Script) (current_date : nat -> Z)
    (doc : Document) (perspective : string) (tasks : list TaskObject)
    (projects : list ProjectObject) (stats : Stats) :
  NoDup (map task_id (doc_flattenedTasks doc)) ->
  run_script s current_date doc = OutputSuccess perspective tasks projects stats ->
  NoDup (map j_id tasks).
Proof.
  intros Hnodup Hrun. apply run_script_success in Hrun as (-> & _ & _).
  eapply Permutation_NoDup;
    [ apply Permutation_map; symmetry; apply assemble_buckets | ].
  set (cands := candidates s current_date 0 (doc_flattenedTasks doc)).
  assert (Hc : NoDup (map j_id cands)).
  { unfold cands. rewrite candidates_ids. apply distinct_after_filter. exact Hnodup. }
  assert (Hl : forall l, NoDup (map j_id (bucket (final_state s current_date doc) l))).
  { intros l. rewrite final_bucket. apply NoDup_map_firstn, distinct_after_filter.
    exact Hc. }
  assert (Hdisjoint : forall l l' x,
             l <> l' ->
             In x (map j_id (bucket (final_state s current_date doc) l)) ->
             ~ In x (map j_id (bucket (final_state s current_date doc) l'))).
  { intros l l' x Hne Hin Hin'.
    apply in_map_iff in Hin as (o & Ho & Hin).
    apply in_map_iff in Hin' as (o' & Ho' & Hin').
    pose proof (final_bucket_level _ _ _ _ _ Hin) as Hlev.
    pose proof (final_bucket_level _ _ _ _ _ Hin') as Hlev'.
    apply final_bucket_candidates in Hin, Hin'. fold cands in Hin, Hin'.
    assert (Heq : o = o').
    { clear - Hc Hin Hin' Ho Ho'. subst x.
      induction cands as [ | c cs IH ]; [ contradiction | ].
      cbn [map] in Hc. inversion Hc as [ | ? ? Hnotin Hcs ]; subst.
      destruct Hin as [ <- | Hin ], Hin' as [ <- | Hin' ].
      - reflexivity.
      - exfalso. apply Hnotin. rewrite <- Ho'. apply in_map. exact Hin'.
      - exfalso. apply Hnotin. rewrite Ho'. apply in_map. exact Hin.
      - apply IH; assumption. }
    subst o'. congruence. }
  pose proof (Hl high) as Nh. pose proof (Hl medium) as Nm.
  pose proof (Hl low) as Nl. cbn [bucket] in Nh, Nm, Nl.
  rewrite !map_app. apply NoDup_app; [ exact Nh | | ].
  - apply NoDup_app; [ exact Nm | exact Nl | ].
    intros x. apply (Hdisjoint medium low). discriminate.
  - intros x Hin Hin'. apply in_app_iff in Hin' as [ Hin' | Hin' ].
    + apply (Hdisjoint high medium x); [ discriminate | exact Hin | exact Hin' ].
    + apply (Hdisjoint high low x); [ discriminate | exact Hin | exact Hin' ].
Qed.

Lemma no_task_twice_witness :
  let s := generateOptimizedGetDataByPerspectiveScript
             (with_budget 10 (criteria "Inbox")) in
  NoDup (map j_id (assemble s (final_state s noon scenario_document))).
Proof.
  intros s.
  apply (no_task_twice s noon scenario_document "Inbox"
           (assemble s (final_state s noon scenario_document)) []
           (make_stats s (final_state s noon scenario_document))).
  - vm_compute. repeat (constructor; [ cbn; intuition discriminate | ]).
    constructor.
  - reflexivity.
Defined.

(** ** The scorer that is not used *)

Lemma days_until_due (dueDate now : Z) :
  let daysUntilDue :=
    Qceiling (inject_Z (1000 * dueDate - 1000 * now)
              / inject_Z (1000 * 60 * 60 * 24)) in
  (daysUntilDue - 1) * days < dueDate - now <= daysUntilDue * days.
Proof.
  cbn zeta. change (1000 * 60 * 60 * 24) with 86400000.
  unfold Qceiling, Qfloor, Qopp, Qdiv, Qmult, Qinv, inject_Z, days.
  cbn [Qnum Qden]. rewrite Pos.mul_1_l, Z.mul_1_r.
  pose proof (Z.div_mod (- (1000 * dueDate - 1000 * now)) 86400000 ltac:(lia)).
  pose proof (Z.mod_pos_bound (- (1000 * dueDate - 1000 * now)) 86400000
                ltac:(lia)).
  lia.
Qed.

(** X26: [calculateUrgencyScore], which nothing calls, never gives a
    task more than the score the script gave it: computed at the same
    instant on a returned task, it lies between 0 and the task's
    [urgencyScore]. *)
Theorem unused_scorer_never_higher (now : Z) (aTask : Task) :
  let score := urgency_score now aTask in
  let task := task_of_object (task_object aTask score (priority_level score)) in
  0 <= calculateUrgencyScore (1000 * now) task <= score.
Proof.
  cbn zeta.
  unfold calculateUrgencyScore, task_of_object, task_object.
  cbn [ti_flagged ti_dueDate ti_estimatedMinutes j_flagged j_dueDate
       j_estimatedMinutes].
  rewrite urgency_score_points.
  unfold flagged_points, due_points, duration_points, truthy_number.
  destruct (task_flagged aTask);
    destruct (reading_value (task_dueDate aTask)) as [ d | ];
    destruct (reading_value (task_estimatedMinutes aTask)) as [ m | ];
    cbn [with_default negb];
    try (pose proof (days_until_due d now) as Hd; cbn zeta in Hd;
         unfold days in Hd |- *;
         set (c := Qceiling _) in *; clearbody c);
    repeat match goal with
           | |- context [if negb ?b then _ else _] => destruct b; cbn [negb]
           | |- context [?a <? ?b] => destruct (Z.ltb_spec a b)
           | |- context [?a <=? ?b] => destruct (Z.leb_spec a b)
           | |- context [?a =? ?b] => destruct (Z.eqb_spec a b)
           end; lia.
Qed.

(** ** Instances *)

Lemma pipeline_is_exact_witness :
  satisfies_applied_rules (with_project "work" (criteria "Inbox"))
                          (in_project "Work" (bare_task "b1")).
Proof.
  apply (proj1 (pipeline_is_exact
                  (with_project "work" (criteria "Inbox"))
                  (in_project "Work" (bare_task "b1")))).
  reflexivity.
Defined.

Lemma filter_task_first_failure_witness :
  filter_task (generateOptimizedGetDataByPerspectiveScript
                 (with_bounds (Some 30) None (criteria "Inbox")))
              (bare_task "b1")
  = Some rule_minEstimatedMinutes.
Proof.
  apply (proj2 (filter_task_first_failure
                  (generateOptimizedGetDataByPerspectiveScript
                     (with_bounds (Some 30) None (criteria "Inbox")))
                  (bare_task "b1") rule_minEstimatedMinutes)).
  split; [ reflexivity | ].
  intros r' Hlt. destruct r'; first [ reflexivity | discriminate Hlt ].
Defined.
